(** * Dockwright: configuration resolution, validation and workflow runners

    A shallow embedding of the Go package [pkg] of Dockwright: the field
    registry and the three-tier resolver (config.go), the validator, the
    Docker runner and the Helm runner.  Strings are byte strings, Go's
    [error] values are a small inductive type, and the effects of a run
    (file stats, log lines, spawned processes) are collected in a trace. *)

From Stdlib Require Import Ascii String List Bool Arith Lia DecimalString.
From stdpp Require Import base option list strings gmap.
Import ListNotations.

Local Open Scope string_scope.
Local Open Scope list_scope.

(** ** Strings: the pieces of Go's [strings] and [path/filepath] in use *)

Module Str.

Definition isUpperAscii (c : ascii) : bool :=
  let n := nat_of_ascii c in (65 <=? n)%nat && (n <=? 90)%nat.

Definition lowerAscii (c : ascii) : ascii :=
  if isUpperAscii c then ascii_of_nat (nat_of_ascii c + 32) else c.

(** [strings.ToLower], on the bytes of the string.  No rune outside ASCII
    lower-cases to an ASCII letter of the words compared against here, so
    the byte-wise map decides the same comparisons. *)
Fixpoint ToLower (s : string) : string :=
  match s with
  | EmptyString => EmptyString
  | String c r => String (lowerAscii c) (ToLower r)
  end.

(** [strings.HasPrefix s p]. *)
Definition HasPrefix (s p : string) : bool := String.prefix p s.

(** [strings.Join]. *)
Definition Join (elems : list string) (sep : string) : string :=
  String.concat sep elems.

(** [strings.Split s sep] for a one-byte separator. *)
Fixpoint Split (s : string) (sep : ascii) : list string :=
  match s with
  | EmptyString => [EmptyString]
  | String c r =>
      if Ascii.eqb c sep then EmptyString :: Split r sep
      else match Split r sep with
           | [] => [String c EmptyString]
           | h :: t => String c h :: t
           end
  end.

Definition isEmpty (s : string) : bool :=
  match s with EmptyString => true | _ => false end.

Definition ESC : string := String (ascii_of_nat 27) EmptyString.

End Str.

Module filepath.

Definition sep : ascii := "/"%char.

(** One element of the path, against the elements kept so far (last kept
    element first).  [".."] removes the last kept element unless that is
    itself a kept [".."]; at the root it is dropped. *)
Definition cleanStep (rooted : bool) (kept : list string) (elem : string)
  : list string :=
  if (elem =? "") || (elem =? ".") then kept
  else if elem =? ".." then
    match kept with
    | top :: below => if top =? ".." then ".." :: kept else below
    | [] => if rooted then [] else [".."]
    end
  else elem :: kept.

(** [filepath.Clean] on a Unix path. *)
Definition Clean (path : string) : string :=
  match path with
  | EmptyString => "."
  | String c _ =>
      let rooted := Ascii.eqb c sep in
      let kept := fold_left (cleanStep rooted) (Str.Split path sep) [] in
      let body := Str.Join (rev kept) "/" in
      if rooted then "/" +:+ body
      else if Str.isEmpty body then "." else body
  end.

(** [filepath.Join]: the elements from the first non-empty one on, joined
    by the separator and cleaned; the empty string when all are empty. *)
Fixpoint Join (elem : list string) : string :=
  match elem with
  | [] => ""
  | e :: rest =>
      if Str.isEmpty e then Join rest else Clean (Str.Join elem "/")
  end.

Fixpoint stripTrailing (rev_path : list ascii) : list ascii :=
  match rev_path with
  | c :: r => if Ascii.eqb c sep then stripTrailing r else rev_path
  | [] => []
  end.

Fixpoint lastElem (rev_path : list ascii) : list ascii :=
  match rev_path with
  | c :: r => if Ascii.eqb c sep then [] else c :: lastElem r
  | [] => []
  end.

(** [filepath.Base]. *)
Definition Base (path : string) : string :=
  if Str.isEmpty path then "."
  else
    let stripped := stripTrailing (rev (list_ascii_of_string path)) in
    let name := string_of_list_ascii (rev (lastElem stripped)) in
    if Str.isEmpty name then "/" else name.

End filepath.

(** ** Errors and results *)

(** Where an error value made outside this package comes from. *)
Inductive ErrSource : Type := FromOs | FromExec | FromYaml.

(** Go [error] values.  [Errorf] is [fmt.Errorf] without a wrapped cause,
    [Wrapf pre cause post] is [fmt.Errorf] with one [%w] verb, and [LibError]
    is an error returned by [os], [os/exec] or the YAML decoder. *)
Inductive error : Type :=
| Errorf (msg : string)
| Wrapf (pre : string) (cause : error) (post : string)
| LibError (src : ErrSource) (msg : string).

(** The [Error()] text. *)
Fixpoint errorText (e : error) : string :=
  match e with
  | Errorf msg => msg
  | Wrapf pre cause post => pre +:+ errorText cause +:+ post
  | LibError _ msg => msg
  end.

(** An error caused by an external process: a spawn failure or a non-zero
    exit, possibly wrapped. *)
Fixpoint isExternalToolError (e : error) : bool :=
  match e with
  | Errorf _ => false
  | Wrapf _ cause _ => isExternalToolError cause
  | LibError FromExec _ => true
  | LibError _ _ => false
  end.

(** A Go pair [(T, error)]. *)
Inductive result (A : Type) : Type :=
| Ok (a : A)
| Err (e : error).
Arguments Ok {A} a.
Arguments Err {A} e.

(** ** The host: what the operating system answers during one run *)

Inductive StatResult : Type :=
| StatOk                      (* err == nil *)
| StatNotExist                (* os.IsNotExist(err) *)
| StatFailed (msg : string).  (* any other error *)

Record World : Type := {
  Getenv : string -> string;
  Getwd : result string;
  UserHomeDir : result string;
  Stat : string -> StatResult;
  ReadFile : string -> result string;
  (** [exec.LookPath]: is the tool on the execution path *)
  LookPath : string -> bool;
  (** [yaml.Unmarshal] of a kubeconfig into its [current-context] *)
  yamlCurrentContext : string -> result string;
  (** [yaml.Unmarshal] of a kubeconfig into the names of its [contexts] *)
  yamlContextNames : string -> result (list string);
  (** [exec.Cmd.Run] of a program on its arguments: [None] on exit status 0,
      else the text of the error *)
  cmdRun : string -> list string -> option string;
  (** the stages of a command that is fed through its input stream:
      [StdinPipe], [Start], the write to the pipe, [Wait] *)
  cmdStdinPipe : string -> list string -> option string;
  cmdStart : string -> list string -> option string;
  pipeWrite : string -> list string -> string -> option string;
  cmdWait : string -> list string -> string -> option string
}.

Definition statIsNil (r : StatResult) : bool :=
  match r with StatOk => true | _ => false end.

Definition statIsNotExist (r : StatResult) : bool :=
  match r with StatNotExist => true | _ => false end.

(** ** config.go: the field registry *)

(** Config holds all configuration values for Dockwright. *)
Record Config : Type := {
  ArtifactName : string;
  HelmFlavour : string;
  DockerNamespace : string;
  DockerHost : string;
  KubernetesConfig : string;
  KubernetesContext : string;
  Env : list string;
  DryRun : bool;
  RunDockerBuild : bool;
  AutoApprove : bool
}.

(** ConfigField defines metadata for a single configuration option. *)
Record ConfigField : Type := {
  Name : string;
  ConfigPath : string;
  Flag : string;
  Description : string;
  Required : bool;
  Default : string
}.

Definition defaultKubeConfigPath (w : World) : string :=
  match UserHomeDir w with
  | Err _ => ""
  | Ok home => filepath.Join [home; ".kube"; "config"]
  end.

Definition currentKubeContext (w : World) : string :=
  match ReadFile w (defaultKubeConfigPath w) with
  | Err _ => ""
  | Ok content =>
      match yamlCurrentContext w content with
      | Err _ => ""
      | Ok ctx => ctx
      end
  end.

Definition currentDirName (w : World) : string :=
  match Getwd w with
  | Err _ => ""
  | Ok dir => filepath.Base dir
  end.

(** ConfigFields returns all available configuration field definitions. *)
Definition ConfigFields (w : World) : list ConfigField :=
  [ {| Name := "artifactName"; ConfigPath := "artifactName";
       Flag := "artifact-name"; Description := "Name of the artifact";
       Required := true; Default := currentDirName w |};
    {| Name := "helmFlavour"; ConfigPath := "helm.flavour";
       Flag := "helm-flavour";
       Description := "Helm chart flavour (stateful or stateless)";
       Required := true; Default := "" |};
    {| Name := "dockerNamespace"; ConfigPath := "docker.namespace";
       Flag := "docker-namespace"; Description := "Docker registry namespace";
       Required := false; Default := "" |};
    {| Name := "dockerHost"; ConfigPath := "docker.host";
       Flag := "docker-host"; Description := "Docker registry host";
       Required := false; Default := Getenv w "REGISTRY_HOST" |};
    {| Name := "kubernetesConfig"; ConfigPath := "kubernetes.config";
       Flag := "kubernetes-config";
       Description := "Path to kubernetes config file";
       Required := true; Default := defaultKubeConfigPath w |};
    {| Name := "kubernetesContext"; ConfigPath := "kubernetes.context";
       Flag := "kubernetes-context"; Description := "Kubernetes context to use";
       Required := true; Default := currentKubeContext w |};
    {| Name := "env"; ConfigPath := "env"; Flag := "env";
       Description :=
         "Comma-separated list of environments (e.g., staging,production)";
       Required := false; Default := "" |};
    {| Name := "dryRun"; ConfigPath := "dry-run"; Flag := "dry-run";
       Description :=
         "Exercise the deployment pipeline without mutating resources";
       Required := false; Default := "false" |};
    {| Name := "runDockerBuild"; ConfigPath := "docker.build";
       Flag := "docker-build"; Description := "Whether to run Docker build";
       Required := false; Default := "true" |};
    {| Name := "autoApprove"; ConfigPath := "auto-approve";
       Flag := "auto-approve";
       Description := "Skip confirmation prompts and proceed automatically";
       Required := false; Default := "false" |} ].

(** ** The flag set of the deploy command (spf13/pflag, string flags only) *)

Module pflag.

Record Flag : Type := {
  Value : string;
  DefValue : string;
  Usage : string;
  Changed : bool
}.

Abbreviation FlagSet := (gmap string Flag).

(** [FlagSet.String name value usage]: defines a string flag holding its
    default.  Defining a name twice panics ([None]). *)
Definition String (name value usage : string) (fs : FlagSet)
  : option FlagSet :=
  match fs !! name with
  | Some _ => None
  | None =>
      Some (<[name := {| Value := value; DefValue := value;
                         Usage := usage; Changed := false |}]> fs)
  end.

(** [FlagSet.Set name value], what parsing [--name=value] does: the value
    is stored and the flag is marked as changed.  An unknown flag is an
    error ([None]). *)
Definition Set_ (name value : string) (fs : FlagSet) : option FlagSet :=
  match fs !! name with
  | None => None
  | Some f =>
      Some (<[name := {| Value := value; DefValue := DefValue f;
                         Usage := Usage f; Changed := true |}]> fs)
  end.

(** Parsing a command line, given as its [--name=value] pairs in order. *)
Fixpoint Parse (args : list (string * string)) (fs : FlagSet)
  : option FlagSet :=
  match args with
  | [] => Some fs
  | (name, value) :: rest =>
      match Set_ name value fs with
      | None => None
      | Some fs' => Parse rest fs'
      end
  end.

(** [FlagSet.Changed name]: false for a flag that does not exist. *)
Definition IsChanged (fs : FlagSet) (name : string) : bool :=
  match fs !! name with
  | Some f => Changed f
  | None => false
  end.

(** [FlagSet.GetString name]: an error for a flag that is not defined. *)
Definition GetString (fs : FlagSet) (name : string) : result string :=
  match fs !! name with
  | Some f => Ok (Value f)
  | None => Err (Errorf ("flag accessed but not defined: " +:+ name))
  end.

End pflag.

(** ** The ambient configuration-file state (spf13/viper), by its two queries *)

Module viper.

Record State : Type := {
  IsSet : string -> bool;
  GetString : string -> string
}.

(** A state answering from a table of the keys set in the file. *)
Definition ofList (kv : list (string * string)) : State :=
  {| IsSet := fun key =>
       existsb (fun p => String.eqb (fst p) key) kv;
     GetString := fun key =>
       match find (fun p => String.eqb (fst p) key) kv with
       | Some p => snd p
       | None => ""
       end |}.

End viper.

(** A cobra command, as far as the resolver looks at it: its flag set. *)
Record Command : Type := { Flags : pflag.FlagSet }.

(** cmd.go, [init]: one string flag per registry entry, holding the
    entry's default. *)
Fixpoint registerFlags (fields : list ConfigField) (fs : pflag.FlagSet)
  : option pflag.FlagSet :=
  match fields with
  | [] => Some fs
  | field :: rest =>
      match pflag.String (Flag field) (Default field) (Description field) fs with
      | None => None
      | Some fs' => registerFlags rest fs'
      end
  end.

Definition init (w : World) : option Command :=
  match registerFlags (ConfigFields w) ∅ with
  | None => None
  | Some fs => Some {| Flags := fs |}
  end.

(** The deploy command after the command line has been parsed. *)
Definition deployCmd (w : World) (args : list (string * string))
  : option Command :=
  match init w with
  | None => None
  | Some cmd =>
      match pflag.Parse args (Flags cmd) with
      | None => None
      | Some fs => Some {| Flags := fs |}
      end
  end.

(** resolveFieldValue determines the value for a field based on precedence. *)
Definition resolveFieldValue (cmd : option Command) (v : viper.State)
    (field : ConfigField) : string :=
  let fromFile :=
    if viper.IsSet v (ConfigPath field)
    then viper.GetString v (ConfigPath field)
    else Default field in
  match cmd with
  | Some c =>
      if pflag.IsChanged (Flags c) (Flag field) then
        match pflag.GetString (Flags c) (Flag field) with
        | Ok val => val
        | Err _ => fromFile
        end
      else fromFile
  | None => fromFile
  end.

(** parseBool parses a string to bool. *)
Definition parseBool (value : string) : bool :=
  (value =? "true") || (value =? "1") || (Str.ToLower value =? "yes").

(** ImageRepository returns the full Docker image repository path. *)
Definition ImageRepository (c : Config) : result string :=
  if Str.isEmpty (DockerHost c) || Str.isEmpty (DockerNamespace c)
     || Str.isEmpty (ArtifactName c)
  then Err (Errorf "dockerHost, dockerNamespace, and artifactName must all be set to generate image repository")
  else Ok (DockerHost c +:+ "/" +:+ DockerNamespace c +:+ "/" +:+ ArtifactName c).

(** ImageTag returns the full Docker image tag. *)
Definition ImageTag (c : Config) : result string :=
  match ImageRepository c with
  | Err e => Err e
  | Ok repo => Ok (repo +:+ ":latest")
  end.

(** ChartPath returns the path to the Helm chart based on flavour. *)
Definition ChartPath (c : Config) : string :=
  filepath.Join ["/usr/local/share/dockwright/charts"; HelmFlavour c].

(** ** Effects: the trace of one run *)

Inductive Event : Type :=
| EvStat (path : string)                        (* os.Stat *)
| EvLog (line : string)                         (* log.Info / log.Infof *)
| EvExec (name : string) (args : list string)   (* a process is started *)
| EvStdin (name : string) (args : list string) (data : string).
                                                (* bytes written to its input *)

(** A computation yields the events it performed, in order, and a value. *)
Definition IO (A : Type) : Type := (list Event * A)%type.

Definition ret {A} (a : A) : IO A := ([], a).

Definition bind {A B} (m : IO A) (k : A -> IO B) : IO B :=
  (fst m ++ fst (k (snd m)), snd (k (snd m))).

Notation "x <- m ;; k" := (bind m (fun x => k))
  (at level 100, m at next level, right associativity).
Notation "m ;;; k" := (bind m (fun _ => k))
  (at level 100, right associativity).

Definition emit (e : Event) : IO unit := ([e], tt).

Definition trace {A} (m : IO A) : list Event := fst m.
Definition value {A} (m : IO A) : A := snd m.

Definition logInfo (line : string) : IO unit := emit (EvLog line).

Fixpoint logLines (lines : list string) : IO unit :=
  match lines with
  | [] => ret tt
  | l :: rest => logInfo l ;;; logLines rest
  end.

Definition osStat (w : World) (path : string) : IO StatResult :=
  emit (EvStat path) ;;; ret (Stat w path).

(** The programs started during a run, with their arguments. *)
Fixpoint spawned (t : list Event) : list (string * list string) :=
  match t with
  | [] => []
  | EvExec name args :: r => (name, args) :: spawned r
  | _ :: r => spawned r
  end.

(** The paths stat-ed during a run. *)
Fixpoint statted (t : list Event) : list string :=
  match t with
  | [] => []
  | EvStat p :: r => p :: statted r
  | _ :: r => statted r
  end.

Definition showNat (n : nat) : string :=
  NilEmpty.string_of_uint (Nat.to_uint n).

(** ShouldRunDockerBuild returns true if Docker build should be run.
    It returns false if either Dockerfile is not found or runDockerBuild is
    set to false. *)
Definition ShouldRunDockerBuild (w : World) (c : Config) : IO bool :=
  st <- osStat w "Dockerfile" ;;
  let hasDockerfile := statIsNil st in
  ret (hasDockerfile && RunDockerBuild c).

(** ** validator.go *)

(** ValidationResult represents the outcome of a validation check. *)
Module ValidationResult.
Record t : Type := {
  Name : string;
  Icon : string;
  Message : string;
  Err : option error
}.
End ValidationResult.

Module Validator.

Definition getFieldValue (c : Config) (name : string) : string :=
  if name =? "artifactName" then ArtifactName c
  else if name =? "helmFlavour" then HelmFlavour c
  else if name =? "dockerNamespace" then DockerNamespace c
  else if name =? "dockerHost" then DockerHost c
  else if name =? "kubernetesConfig" then KubernetesConfig c
  else if name =? "kubernetesContext" then KubernetesContext c
  else if name =? "env" then
    (if (0 <? length (Env c))%nat then "set" else "")
  else "".

Definition requiredFieldError (field : ConfigField) : error :=
  Errorf ("configuration error: required field '" +:+ Name field
          +:+ "' (flag: --" +:+ Flag field +:+ ") is not set").

Fixpoint validateFields (c : Config) (fields : list ConfigField)
  : option error :=
  match fields with
  | [] => None
  | field :: rest =>
      if negb (Required field) then validateFields c rest
      else
        let value := getFieldValue c (Name field) in
        if Str.isEmpty value then Some (requiredFieldError field)
        else validateFields c rest
  end.

Definition validateConfig (w : World) (c : Config) : IO (option error) :=
  ret (validateFields c (ConfigFields w)).

Definition helmFlavourError (flavour : string) : error :=
  Errorf ("invalid helm flavour: expected 'stateful' or 'stateless', but got '"
          +:+ flavour +:+ "'").

Definition validateHelmFlavour (c : Config) : IO (option error) :=
  let flavour := HelmFlavour c in
  if negb (flavour =? "stateful") && negb (flavour =? "stateless")
  then ret (Some (helmFlavourError flavour))
  else ret None.

Definition envVarError (envVar : string) : error :=
  Errorf ("required environment variable '" +:+ envVar
          +:+ "' is not set. Please export " +:+ envVar
          +:+ " before running Dockwright").

Fixpoint checkEnvVars (w : World) (required : list string) : option error :=
  match required with
  | [] => None
  | envVar :: rest =>
      if Str.isEmpty (Getenv w envVar) then Some (envVarError envVar)
      else checkEnvVars w rest
  end.

Definition validateEnvVars (w : World) : IO (option error) :=
  ret (checkEnvVars w ["REGISTRY_USERNAME"; "REGISTRY_PASSWORD"]).

Definition toolError (tool : string) : error :=
  Errorf ("required tool '" +:+ tool
          +:+ "' is not installed or not found in PATH. Please install "
          +:+ tool +:+ " to proceed").

Fixpoint lookTools (w : World) (tools : list string) : option error :=
  match tools with
  | [] => None
  | tool :: rest =>
      if LookPath w tool then lookTools w rest else Some (toolError tool)
  end.

Definition validateTools (w : World) : IO (option error) :=
  match lookTools w ["docker"; "helm"] with
  | Some e => ret (Some e)
  | None =>
      emit (EvExec "docker" ["info"]) ;;;
      match cmdRun w "docker" ["info"] with
      | Some _ =>
          ret (Some (Errorf "docker daemon is not running. Please start Docker Desktop or the Docker daemon and try again"))
      | None => ret None
      end
  end.

Definition envValuesPath (env : string) : string :=
  filepath.Join [".dockwright"; "helm"; env +:+ ".values.yaml"].

Fixpoint validateEnvValueFilesLoop (w : World) (envs : list string)
  : IO (option error) :=
  match envs with
  | [] => ret None
  | env :: rest =>
      let path := envValuesPath env in
      st <- osStat w path ;;
      if statIsNotExist st then
        ret (Some (Errorf ("environment values file not found at path: "
               +:+ path
               +:+ ". Please ensure the file exists in the .dockwright/helm directory")))
      else validateEnvValueFilesLoop w rest
  end.

Definition validateEnvValueFiles (w : World) (c : Config)
  : IO (option error) :=
  validateEnvValueFilesLoop w (Env c).

Definition validateKubeContext (w : World) (c : Config) : IO (option error) :=
  if Str.isEmpty (KubernetesContext c) then ret None
  else
    match ReadFile w (KubernetesConfig c) with
    | Err e =>
        ret (Some (Wrapf ("failed to read kubeconfig file at path '"
                          +:+ KubernetesConfig c +:+ "': ") e ""))
    | Ok content =>
        match yamlContextNames w content with
        | Err e =>
            ret (Some (Wrapf ("failed to parse kubeconfig file at '"
                              +:+ KubernetesConfig c +:+ "': ") e
                 ". The file may be corrupted or not in valid YAML format"))
        | Ok names =>
            if existsb (fun name => name =? KubernetesContext c) names
            then ret None
            else
              ret (Some (Errorf ("kubernetes context '"
                 +:+ KubernetesContext c
                 +:+ "' not found in kubeconfig at '" +:+ KubernetesConfig c
                 +:+ "'. Use 'kubectl config get-contexts' to see available contexts")))
        end
    end.

(** One entry of the table of checks. *)
Record check : Type := {
  name : string;
  icon : string;
  fn : IO (option error)
}.

Definition checks (w : World) (c : Config) : list check :=
  [ {| name := "Configuration"; icon := "✅"; fn := validateConfig w c |};
    {| name := "Helm flavour"; icon := "⎈ "; fn := validateHelmFlavour c |};
    {| name := "Environment variables"; icon := "🔐";
       fn := validateEnvVars w |};
    {| name := "Environment values files"; icon := "📄";
       fn := validateEnvValueFiles w c |};
    {| name := "Kubernetes context"; icon := "☸️ ";
       fn := validateKubeContext w c |};
    {| name := "System tools"; icon := "🛠️ "; fn := validateTools w |} ].

Definition resultOf (ck : check) (err : option error) : ValidationResult.t :=
  {| ValidationResult.Name := name ck;
     ValidationResult.Icon := icon ck;
     ValidationResult.Message := icon ck +:+ " Validated - " +:+ name ck;
     ValidationResult.Err := err |}.

(** The loop of ValidateAll over the remaining checks, [results] being the
    entries appended so far. *)
Fixpoint runChecks (cks : list check) (results : list ValidationResult.t)
  : IO (list ValidationResult.t * option error) :=
  match cks with
  | [] => ret (results, None)
  | ck :: rest =>
      err <- fn ck ;;
      let results' := results ++ [resultOf ck err] in
      match err with
      | Some e => ret (results', Some e)
      | None => runChecks rest results'
      end
  end.

(** ValidateAll runs all validation checks and returns the first error
    encountered. *)
Definition ValidateAll (w : World) (c : Config)
  : IO (list ValidationResult.t * option error) :=
  runChecks (checks w c) [].

End Validator.

(** ** docker.go *)

Module DockerRunner.

Definition build (w : World) (c : Config) (imageTag : string)
  : IO (option error) :=
  logInfo ("🔨 Building Docker image: " +:+ imageTag) ;;;
  logInfo ("   Build context: " +:+ ".") ;;;
  if DryRun c then
    logInfo ("   🧪 [DRY-RUN] Would run: docker build -t " +:+ imageTag
             +:+ " .") ;;;
    ret None
  else
    emit (EvExec "docker" ["build"; "-t"; imageTag; "."]) ;;;
    match cmdRun w "docker" ["build"; "-t"; imageTag; "."] with
    | Some msg => ret (Some (LibError FromExec msg))
    | None =>
        logInfo ("✓  Successfully built Docker image: " +:+ imageTag) ;;;
        ret None
    end.

Definition login (w : World) (c : Config) : IO (option error) :=
  let username := Getenv w "REGISTRY_USERNAME" in
  let password := Getenv w "REGISTRY_PASSWORD" in
  if Str.isEmpty username || Str.isEmpty password then
    ret (Some (Errorf "REGISTRY_USERNAME and REGISTRY_PASSWORD environment variables must be set for Docker login"))
  else
    logInfo ("🔐 Authenticating with Docker registry: " +:+ DockerHost c) ;;;
    logInfo ("   Username: " +:+ username) ;;;
    if DryRun c then
      logInfo ("   🧪 [DRY-RUN] Would run: docker login " +:+ DockerHost c
               +:+ " -u " +:+ username) ;;;
      ret None
    else
      let args := ["login"; DockerHost c; "-u"; username; "--password-stdin"] in
      match cmdStdinPipe w "docker" args with
      | Some msg =>
          ret (Some (Wrapf "failed to create stdin pipe: "
                           (LibError FromExec msg) ""))
      | None =>
          emit (EvExec "docker" args) ;;;
          match cmdStart w "docker" args with
          | Some msg =>
              ret (Some (Wrapf "failed to start docker login: "
                               (LibError FromExec msg) ""))
          | None =>
              let data := password +:+ String (ascii_of_nat 10) "" in
              emit (EvStdin "docker" args data) ;;;
              match pipeWrite w "docker" args data with
              | Some msg =>
                  ret (Some (Wrapf "failed to write password: "
                                   (LibError FromExec msg) ""))
              | None =>
                  match cmdWait w "docker" args data with
                  | Some msg =>
                      ret (Some (Wrapf "docker login failed: "
                                       (LibError FromExec msg) ""))
                  | None =>
                      logInfo ("✓  Successfully authenticated with registry: "
                               +:+ DockerHost c) ;;;
                      ret None
                  end
              end
          end
      end.

Definition push (w : World) (c : Config) (imageTag : string)
  : IO (option error) :=
  logInfo ("📤 Pushing Docker image: " +:+ imageTag) ;;;
  logInfo ("   Target registry: " +:+ DockerHost c) ;;;
  if DryRun c then
    logInfo ("   🧪 [DRY-RUN] Would run: docker push " +:+ imageTag) ;;;
    ret None
  else
    emit (EvExec "docker" ["push"; imageTag]) ;;;
    match cmdRun w "docker" ["push"; imageTag] with
    | Some msg => ret (Some (LibError FromExec msg))
    | None =>
        logInfo ("✓  Successfully pushed image to registry: " +:+ imageTag) ;;;
        ret None
    end.

(** Run executes the Docker workflow: build, login, and push. *)
Definition Run (w : World) (c : Config) : IO (option error) :=
  should <- ShouldRunDockerBuild w c ;;
  if negb should then
    logInfo "⏭️  Skipping Docker workflow. Either docker build (--docker-build) flag is disabled or Dockerfile is missing." ;;;
    ret None
  else
    match ImageTag c with
    | Err e => ret (Some e)
    | Ok imageTag =>
        e1 <- build w c imageTag ;;
        match e1 with
        | Some e => ret (Some (Wrapf "docker build failed: " e ""))
        | None =>
            e2 <- login w c ;;
            match e2 with
            | Some e => ret (Some (Wrapf "docker login failed: " e ""))
            | None =>
                e3 <- push w c imageTag ;;
                match e3 with
                | Some e => ret (Some (Wrapf "docker push failed: " e ""))
                | None => ret None
                end
            end
        end
    end.

End DockerRunner.

(** ** helm.go *)

Module HelmRunner.

Definition validateChartExists (w : World) (chartPath : string)
  : IO (option error) :=
  st <- osStat w chartPath ;;
  if statIsNotExist st then
    ret (Some (Errorf ("helm chart not found at path: " +:+ chartPath
                       +:+ ". Please ensure the chart directory exists")))
  else
    logInfo ("✅ Helm chart found at: " +:+ chartPath) ;;;
    ret None.

Definition baseValues : string :=
  filepath.Join [".dockwright"; "helm"; "values.yaml"].

Definition envValues (env : string) : string :=
  filepath.Join [".dockwright"; "helm"; env +:+ ".values.yaml"].

(** The loop of collectValuesFiles over the requested environments,
    [files] being the paths appended so far. *)
Fixpoint collectEnvFiles (w : World) (envs : list string)
    (files : list string) : IO (result (list string)) :=
  match envs with
  | [] =>
      logInfo ("✅ Collected " +:+ showNat (length files)
               +:+ " values file(s) for deployment") ;;;
      ret (Ok files)
  | env :: rest =>
      st <- osStat w (envValues env) ;;
      if statIsNotExist st then
        ret (Err (Errorf ("environment values file not found at path: "
                          +:+ envValues env
                          +:+ ". Please ensure the file exists")))
      else
        logInfo ("📄 Found environment values file: " +:+ envValues env) ;;;
        collectEnvFiles w rest (files ++ [envValues env])
  end.

Definition collectValuesFiles (w : World) (c : Config)
  : IO (result (list string)) :=
  st <- osStat w baseValues ;;
  if statIsNil st then
    logInfo ("📄 Found base values file: " +:+ baseValues) ;;;
    collectEnvFiles w (Env c) [baseValues]
  else collectEnvFiles w (Env c) [].

Fixpoint valuesFlags (valuesFiles : list string) : list string :=
  match valuesFiles with
  | [] => []
  | f :: rest => "--values" :: f :: valuesFlags rest
  end.

Definition buildArgs (c : Config) (chartPath : string)
    (valuesFiles : list string) : list string :=
  let args :=
    ["upgrade"; "--install"; ArtifactName c; chartPath;
     "--kubeconfig"; KubernetesConfig c] in
  let args :=
    if negb (Str.isEmpty (KubernetesContext c))
    then args ++ ["--kube-context"; KubernetesContext c]
    else args in
  args ++ valuesFlags valuesFiles.

Definition buildImageArgs (w : World) (c : Config)
  : IO (result (list string)) :=
  should <- ShouldRunDockerBuild w c ;;
  if should then
    match ImageRepository c with
    | Err e => ret (Err e)
    | Ok imageRepo =>
        logInfo "💉 Injecting image configuration into Helm deployment" ;;;
        logInfo ("   Repository: " +:+ imageRepo) ;;;
        logInfo "   Tag: latest" ;;;
        ret (Ok ["--set"; "image.repository=" +:+ imageRepo;
                 "--set"; "image.tag=latest"])
    end
  else ret (Ok []).

(** The lines logArgs prints for an argument vector: a flag and its value
    share a line. *)
Fixpoint argLines (args : list string) : list string :=
  match args with
  | [] => []
  | arg :: rest =>
      match rest with
      | next :: rest' =>
          if Str.HasPrefix arg "--" && negb (Str.HasPrefix next "--")
          then ("     " +:+ Str.ESC +:+ "[32m" +:+ arg +:+ Str.ESC
                +:+ "[0m = " +:+ next) :: argLines rest'
          else ("     " +:+ arg) :: argLines rest
      | [] => ["     " +:+ arg]
      end
  end.

Definition logArgs (args : list string) : IO unit :=
  logInfo "   Arguments:" ;;;
  logLines (argLines args).

Definition execute (w : World) (c : Config) (args : list string)
  : IO (option error) :=
  if DryRun c then
    let args := args ++ ["--dry-run"] in
    logInfo "   🧪 [DRY-RUN] Would run: helm" ;;;
    logArgs args ;;;
    ret None
  else
    logInfo ("🚀 Executing Helm deployment for artifact: " +:+ ArtifactName c) ;;;
    logInfo ("   Kubeconfig: " +:+ KubernetesConfig c) ;;;
    (if negb (Str.isEmpty (KubernetesContext c))
     then logInfo ("   Context: " +:+ KubernetesContext c)
     else ret tt) ;;;
    logInfo "   Running: helm" ;;;
    logArgs args ;;;
    emit (EvExec "helm" args) ;;;
    match cmdRun w "helm" args with
    | Some msg =>
        ret (Some (Wrapf "helm deployment failed: " (LibError FromExec msg) ""))
    | None =>
        logInfo ("✓  Successfully deployed " +:+ ArtifactName c
                 +:+ " with Helm") ;;;
        ret None
    end.

(** Run executes the Helm deployment workflow. *)
Definition Run (w : World) (c : Config) : IO (option error) :=
  let chartPath := ChartPath c in
  e <- validateChartExists w chartPath ;;
  match e with
  | Some err => ret (Some err)
  | None =>
      r <- collectValuesFiles w c ;;
      match r with
      | Err err =>
          ret (Some (Wrapf "failed to collect values files: " err ""))
      | Ok valuesFiles =>
          let args := buildArgs c chartPath valuesFiles in
          ia <- buildImageArgs w c ;;
          match ia with
          | Err err => ret (Some err)
          | Ok imageArgs => execute w c (args ++ imageArgs)
          end
      end
  end.

End HelmRunner.

(** ** Vocabulary of the properties *)

(** The value the command line gives a flag: that of its last occurrence,
    [None] when the user did not mention the flag. *)
Fixpoint assigned (args : list (string * string)) (name : string)
  : option string :=
  match args with
  | [] => None
  | (n, v) :: rest =>
      match assigned rest name with
      | Some later => Some later
      | None => if n =? name then Some v else None
      end
  end.

(** A flag after the command line has set it to [v]. *)
Definition touch (v : string) (f : pflag.Flag) : pflag.Flag :=
  {| pflag.Value := v; pflag.DefValue := pflag.DefValue f;
     pflag.Usage := pflag.Usage f; pflag.Changed := true |}.

(** The flag as [init] leaves it. *)
Definition registered (field : ConfigField) : pflag.Flag :=
  {| pflag.Value := Default field; pflag.DefValue := Default field;
     pflag.Usage := Description field; pflag.Changed := false |}.

Definition withDryRun (b : bool) (c : Config) : Config :=
  {| ArtifactName := ArtifactName c; HelmFlavour := HelmFlavour c;
     DockerNamespace := DockerNamespace c; DockerHost := DockerHost c;
     KubernetesConfig := KubernetesConfig c;
     KubernetesContext := KubernetesContext c; Env := Env c;
     DryRun := b; RunDockerBuild := RunDockerBuild c;
     AutoApprove := AutoApprove c |}.

Definition withEnv (envs : list string) (c : Config) : Config :=
  {| ArtifactName := ArtifactName c; HelmFlavour := HelmFlavour c;
     DockerNamespace := DockerNamespace c; DockerHost := DockerHost c;
     KubernetesConfig := KubernetesConfig c;
     KubernetesContext := KubernetesContext c; Env := envs;
     DryRun := DryRun c; RunDockerBuild := RunDockerBuild c;
     AutoApprove := AutoApprove c |}.

Definition withRegistry (host namespace : string) (c : Config) : Config :=
  {| ArtifactName := ArtifactName c; HelmFlavour := HelmFlavour c;
     DockerNamespace := namespace; DockerHost := host;
     KubernetesConfig := KubernetesConfig c;
     KubernetesContext := KubernetesContext c; Env := Env c;
     DryRun := DryRun c; RunDockerBuild := RunDockerBuild c;
     AutoApprove := AutoApprove c |}.

(** The same host with another registry password in its environment. *)
Definition withPassword (pw : string) (w : World) : World :=
  {| Getenv := fun k => if k =? "REGISTRY_PASSWORD" then pw else Getenv w k;
     Getwd := Getwd w; UserHomeDir := UserHomeDir w; Stat := Stat w;
     ReadFile := ReadFile w; LookPath := LookPath w;
     yamlCurrentContext := yamlCurrentContext w;
     yamlContextNames := yamlContextNames w;
     cmdRun := cmdRun w; cmdStdinPipe := cmdStdinPipe w;
     cmdStart := cmdStart w; pipeWrite := pipeWrite w; cmdWait := cmdWait w |}.

(** [HelmRunner.Run] up to its last step: the argument vector handed to
    [execute], or the error that ends the run before. *)
Definition deployArgs (w : World) (c : Config) : IO (result (list string)) :=
  let chartPath := ChartPath c in
  e <- HelmRunner.validateChartExists w chartPath ;;
  match e with
  | Some err => ret (Err err)
  | None =>
      r <- HelmRunner.collectValuesFiles w c ;;
      match r with
      | Err err => ret (Err (Wrapf "failed to collect values files: " err ""))
      | Ok valuesFiles =>
          ia <- HelmRunner.buildImageArgs w c ;;
          match ia with
          | Err err => ret (Err err)
          | Ok imageArgs =>
              ret (Ok (HelmRunner.buildArgs c chartPath valuesFiles
                       ++ imageArgs))
          end
      end
  end.

(** What a simulated deploy prints for its planned command. *)
Definition plannedDeploy (args : list string) : list Event :=
  EvLog "   🧪 [DRY-RUN] Would run: helm"
  :: EvLog "   Arguments:" :: map EvLog (HelmRunner.argLines args).

(** The log lines of a trace. *)
Fixpoint logged (t : list Event) : list string :=
  match t with
  | [] => []
  | EvLog l :: r => l :: logged r
  | _ :: r => logged r
  end.

(** The data written to the input stream of spawned processes. *)
Fixpoint piped (t : list Event) : list string :=
  match t with
  | [] => []
  | EvStdin _ _ d :: r => d :: piped r
  | _ :: r => piped r
  end.

(** The error of the values-file collection for an environment whose file
    does not exist. *)
Definition missingError (env : string) : error :=
  Errorf ("environment values file not found at path: "
          +:+ HelmRunner.envValues env +:+ ". Please ensure the file exists").

(** The base values file, when its stat succeeds. *)
Definition baseFiles (w : World) : list string :=
  if statIsNil (Stat w HelmRunner.baseValues) then [HelmRunner.baseValues]
  else [].

(** The error of a run whose chart directory does not exist. *)
Definition chartError (chartPath : string) : error :=
  Errorf ("helm chart not found at path: " +:+ chartPath
          +:+ ". Please ensure the chart directory exists").

(** The two image overrides. *)
Definition imageOverrides (repo : string) : list string :=
  ["--set"; "image.repository=" +:+ repo; "--set"; "image.tag=latest"].

(** The argument vector of the login command and the lines the
    authenticate step can log: all made of the host and the user name. *)
Definition loginArgs (host username : string) : list string :=
  ["login"; host; "-u"; username; "--password-stdin"].

Definition loginLines (host username : string) : list string :=
  ["🔐 Authenticating with Docker registry: " +:+ host;
   "   Username: " +:+ username;
   "   🧪 [DRY-RUN] Would run: docker login " +:+ host +:+ " -u " +:+ username;
   "✓  Successfully authenticated with registry: " +:+ host].

Definition newline : string := String (ascii_of_nat 10) "".

Definition repositoryError : error :=
  Errorf "dockerHost, dockerNamespace, and artifactName must all be set to generate image repository".

(** A check that reports no error, and the entry it then gets. *)
Definition passes (ck : Validator.check) : Prop :=
  value (Validator.fn ck) = None.

Definition passed (ck : Validator.check) : ValidationResult.t :=
  Validator.resultOf ck None.

(** The effects of running the given checks one after the other. *)
Definition effects (cks : list Validator.check) : list Event :=
  concat (map (fun ck => trace (Validator.fn ck)) cks).

Definition checkNames : list string :=
  ["Configuration"; "Helm flavour"; "Environment variables";
   "Environment values files"; "Kubernetes context"; "System tools"].

(** A host and configurations to run the model on. *)
Module Sample.

Definition host : World := {|
  Getenv := fun k =>
    if k =? "REGISTRY_USERNAME" then "bob"
    else if k =? "REGISTRY_PASSWORD" then "s3cret"
    else if k =? "REGISTRY_HOST" then "reg.example.com" else "";
  Getwd := Ok "/home/dev/svc";
  UserHomeDir := Ok "/home/dev";
  Stat := fun p =>
    if (p =? "Dockerfile") || (p =? ".dockwright/helm/values.yaml")
       || (p =? ".dockwright/helm/staging.values.yaml")
       || (p =? "/usr/local/share/dockwright/charts/stateless")
    then StatOk else StatNotExist;
  ReadFile := fun p =>
    if p =? "/home/dev/.kube/config" then Ok "contexts: [dev, prod]"
    else Err (LibError FromOs "no such file or directory");
  LookPath := fun _ => true;
  yamlCurrentContext := fun _ => Ok "dev";
  yamlContextNames := fun _ => Ok ["dev"; "prod"];
  cmdRun := fun _ _ => None;
  cmdStdinPipe := fun _ _ => None;
  cmdStart := fun _ _ => None;
  pipeWrite := fun _ _ _ => None;
  cmdWait := fun _ _ _ => None |}.

Definition config : Config := {|
  ArtifactName := "svc"; HelmFlavour := "stateless";
  DockerNamespace := "acme"; DockerHost := "reg.example.com";
  KubernetesConfig := "/home/dev/.kube/config"; KubernetesContext := "dev";
  Env := ["staging"]; DryRun := false; RunDockerBuild := true;
  AutoApprove := false |}.

(** No namespace: valid for the validator, no image repository. *)
Definition noNamespace : Config := {|
  ArtifactName := "svc"; HelmFlavour := "stateless";
  DockerNamespace := ""; DockerHost := "reg.example.com";
  KubernetesConfig := "/home/dev/.kube/config"; KubernetesContext := "dev";
  Env := ["staging"]; DryRun := false; RunDockerBuild := true;
  AutoApprove := false |}.

(** No artifact name and an unknown flavour: checks 1 and 2 both fail. *)
Definition broken : Config := {|
  ArtifactName := ""; HelmFlavour := "daemon";
  DockerNamespace := "acme"; DockerHost := "reg.example.com";
  KubernetesConfig := "/home/dev/.kube/config"; KubernetesContext := "dev";
  Env := ["staging"]; DryRun := false; RunDockerBuild := true;
  AutoApprove := false |}.

Definition file : viper.State :=
  viper.ofList [("env", "production"); ("dry-run", "true")].

(** The user sets dry-run to its default and does not mention env. *)
Definition cmdline : list (string * string) :=
  [("helm-flavour", "stateless"); ("dry-run", "false")].

Definition dryRunField : ConfigField :=
  {| Name := "dryRun"; ConfigPath := "dry-run"; Flag := "dry-run";
     Description :=
       "Exercise the deployment pipeline without mutating resources";
     Required := false; Default := "false" |}.

Definition envField : ConfigField :=
  {| Name := "env"; ConfigPath := "env"; Flag := "env";
     Description :=
       "Comma-separated list of environments (e.g., staging,production)";
     Required := false; Default := "" |}.

End Sample.

(** ** config.go: coercion and loading *)

Module Unicode.

(** The UTF-8 encodings of the runes [unicode.IsSpace] accepts: the six
    ASCII ones, U+0085, U+00A0, U+1680, U+2000 to U+200A, U+2028, U+2029,
    U+202F, U+205F and U+3000. *)
Definition isSpace1 (a : nat) : bool :=
  ((9 <=? a) && (a <=? 13))%nat || (a =? 32)%nat.

Definition isSpace2 (a b : nat) : bool :=
  (a =? 194)%nat && ((b =? 133) || (b =? 160))%nat.

Definition isSpace3 (a b c : nat) : bool :=
  ((a =? 225) && (b =? 154) && (c =? 128))%nat
  || ((a =? 226) && (b =? 128)
      && (((128 <=? c) && (c <=? 138)) || (c =? 168) || (c =? 169)
          || (c =? 175)))%nat
  || ((a =? 226) && (b =? 129) && (c =? 159))%nat
  || ((a =? 227) && (b =? 128) && (c =? 128))%nat.

(** [strings.TrimLeftFunc s unicode.IsSpace] on the bytes of [s]: the
    leading space runes are dropped. *)
Fixpoint trimLeft (s : list nat) : list nat :=
  match s with
  | [] => []
  | a :: r =>
      if isSpace1 a then trimLeft r
      else
        match r with
        | [] => s
        | b :: r2 =>
            if isSpace2 a b then trimLeft r2
            else
              match r2 with
              | [] => s
              | c :: r3 => if isSpace3 a b c then trimLeft r3 else s
              end
        end
  end.

(** [strings.TrimRightFunc s unicode.IsSpace], on the reversed bytes: the
    last byte comes first. *)
Fixpoint trimRightRev (s : list nat) : list nat :=
  match s with
  | [] => []
  | a :: r =>
      if isSpace1 a then trimRightRev r
      else
        match r with
        | [] => s
        | b :: r2 =>
            if isSpace2 b a then trimRightRev r2
            else
              match r2 with
              | [] => s
              | c :: r3 => if isSpace3 c b a then trimRightRev r3 else s
              end
        end
  end.

Definition bytes (s : string) : list nat :=
  map nat_of_ascii (list_ascii_of_string s).

Definition ofBytes (l : list nat) : string :=
  string_of_list_ascii (map ascii_of_nat l).

(** Does the list begin with a space rune; [leadsRev] on a reversed list:
    does the list end with one. *)
Definition leads (s : list nat) : bool :=
  match s with
  | [] => false
  | a :: r =>
      isSpace1 a
      || match r with
         | [] => false
         | b :: r2 =>
             isSpace2 a b
             || match r2 with
                | [] => false
                | c :: _ => isSpace3 a b c
                end
         end
  end.

Definition leadsRev (s : list nat) : bool :=
  match s with
  | [] => false
  | a :: r =>
      isSpace1 a
      || match r with
         | [] => false
         | b :: r2 =>
             isSpace2 b a
             || match r2 with
                | [] => false
                | c :: _ => isSpace3 c b a
                end
         end
  end.

End Unicode.

(** [strings.TrimSpace]: the leading, then the trailing white space
    (as [unicode.IsSpace] defines it) is removed. *)
Definition TrimSpace (s : string) : string :=
  Unicode.ofBytes
    (rev (Unicode.trimRightRev (rev (Unicode.trimLeft (Unicode.bytes s))))).

(** The loop of parseList over the pieces of the split. *)
Fixpoint parseItems (pieces : list string) (items : list string)
  : list string :=
  match pieces with
  | [] => items
  | item :: rest =>
      let trimmed := TrimSpace item in
      if negb (Str.isEmpty trimmed) then parseItems rest (items ++ [trimmed])
      else parseItems rest items
  end.

(** parseList parses a separator-separated string into a slice of strings.
    The separator is one byte, as at its call site. *)
Definition parseList (value : string) (sep : ascii) : list string :=
  if Str.isEmpty value then []
  else parseItems (Str.Split value sep) [].

Definition upperAscii (c : ascii) : ascii :=
  let n := nat_of_ascii c in
  if (97 <=? n)%nat && (n <=? 122)%nat then ascii_of_nat (n - 32) else c.

(** [cases.Title(language.Und, cases.NoLower)] on a field name: the first
    letter in upper case, the rest as it is. *)
Definition Title (name : string) : string :=
  match name with
  | EmptyString => EmptyString
  | String c r => String (upperAscii c) r
  end.

(** setConfigField sets a field on the Config struct by name: the member
    named by the title-cased field name gets the value, coerced to the
    member's type. *)
Definition setConfigField (cfg : Config) (field : ConfigField)
    (value : string) : result Config :=
  let member := Title (Name field) in
  let set (c : Config) := @Ok Config c in
  if member =? "ArtifactName" then
    set {| ArtifactName := value; HelmFlavour := HelmFlavour cfg;
           DockerNamespace := DockerNamespace cfg;
           DockerHost := DockerHost cfg;
           KubernetesConfig := KubernetesConfig cfg;
           KubernetesContext := KubernetesContext cfg; Env := Env cfg;
           DryRun := DryRun cfg; RunDockerBuild := RunDockerBuild cfg;
           AutoApprove := AutoApprove cfg |}
  else if member =? "HelmFlavour" then
    set {| ArtifactName := ArtifactName cfg; HelmFlavour := value;
           DockerNamespace := DockerNamespace cfg;
           DockerHost := DockerHost cfg;
           KubernetesConfig := KubernetesConfig cfg;
           KubernetesContext := KubernetesContext cfg; Env := Env cfg;
           DryRun := DryRun cfg; RunDockerBuild := RunDockerBuild cfg;
           AutoApprove := AutoApprove cfg |}
  else if member =? "DockerNamespace" then
    set {| ArtifactName := ArtifactName cfg; HelmFlavour := HelmFlavour cfg;
           DockerNamespace := value; DockerHost := DockerHost cfg;
           KubernetesConfig := KubernetesConfig cfg;
           KubernetesContext := KubernetesContext cfg; Env := Env cfg;
           DryRun := DryRun cfg; RunDockerBuild := RunDockerBuild cfg;
           AutoApprove := AutoApprove cfg |}
  else if member =? "DockerHost" then
    set {| ArtifactName := ArtifactName cfg; HelmFlavour := HelmFlavour cfg;
           DockerNamespace := DockerNamespace cfg; DockerHost := value;
           KubernetesConfig := KubernetesConfig cfg;
           KubernetesContext := KubernetesContext cfg; Env := Env cfg;
           DryRun := DryRun cfg; RunDockerBuild := RunDockerBuild cfg;
           AutoApprove := AutoApprove cfg |}
  else if member =? "KubernetesConfig" then
    set {| ArtifactName := ArtifactName cfg; HelmFlavour := HelmFlavour cfg;
           DockerNamespace := DockerNamespace cfg;
           DockerHost := DockerHost cfg; KubernetesConfig := value;
           KubernetesContext := KubernetesContext cfg; Env := Env cfg;
           DryRun := DryRun cfg; RunDockerBuild := RunDockerBuild cfg;
           AutoApprove := AutoApprove cfg |}
  else if member =? "KubernetesContext" then
    set {| ArtifactName := ArtifactName cfg; HelmFlavour := HelmFlavour cfg;
           DockerNamespace := DockerNamespace cfg;
           DockerHost := DockerHost cfg;
           KubernetesConfig := KubernetesConfig cfg;
           KubernetesContext := value; Env := Env cfg;
           DryRun := DryRun cfg; RunDockerBuild := RunDockerBuild cfg;
           AutoApprove := AutoApprove cfg |}
  else if member =? "Env" then
    set {| ArtifactName := ArtifactName cfg; HelmFlavour := HelmFlavour cfg;
           DockerNamespace := DockerNamespace cfg;
           DockerHost := DockerHost cfg;
           KubernetesConfig := KubernetesConfig cfg;
           KubernetesContext := KubernetesContext cfg;
           Env := parseList value ","%char;
           DryRun := DryRun cfg; RunDockerBuild := RunDockerBuild cfg;
           AutoApprove := AutoApprove cfg |}
  else if member =? "DryRun" then
    set {| ArtifactName := ArtifactName cfg; HelmFlavour := HelmFlavour cfg;
           DockerNamespace := DockerNamespace cfg;
           DockerHost := DockerHost cfg;
           KubernetesConfig := KubernetesConfig cfg;
           KubernetesContext := KubernetesContext cfg; Env := Env cfg;
           DryRun := parseBool value; RunDockerBuild := RunDockerBuild cfg;
           AutoApprove := AutoApprove cfg |}
  else if member =? "RunDockerBuild" then
    set {| ArtifactName := ArtifactName cfg; HelmFlavour := HelmFlavour cfg;
           DockerNamespace := DockerNamespace cfg;
           DockerHost := DockerHost cfg;
           KubernetesConfig := KubernetesConfig cfg;
           KubernetesContext := KubernetesContext cfg; Env := Env cfg;
           DryRun := DryRun cfg; RunDockerBuild := parseBool value;
           AutoApprove := AutoApprove cfg |}
  else if member =? "AutoApprove" then
    set {| ArtifactName := ArtifactName cfg; HelmFlavour := HelmFlavour cfg;
           DockerNamespace := DockerNamespace cfg;
           DockerHost := DockerHost cfg;
           KubernetesConfig := KubernetesConfig cfg;
           KubernetesContext := KubernetesContext cfg; Env := Env cfg;
           DryRun := DryRun cfg; RunDockerBuild := RunDockerBuild cfg;
           AutoApprove := parseBool value |}
  else
    Err (Errorf ("field " +:+ Name field +:+ " not found in Config struct")).

(** The zero value [&Config{}]. *)
Definition zeroConfig : Config :=
  {| ArtifactName := ""; HelmFlavour := ""; DockerNamespace := "";
     DockerHost := ""; KubernetesConfig := ""; KubernetesContext := "";
     Env := []; DryRun := false; RunDockerBuild := false;
     AutoApprove := false |}.

(** The loop of LoadConfig over the registry. *)
Fixpoint loadFields (cmd : option Command) (v : viper.State)
    (fields : list ConfigField) (cfg : Config) : result Config :=
  match fields with
  | [] => Ok cfg
  | field :: rest =>
      let value := resolveFieldValue cmd v field in
      match setConfigField cfg field value with
      | Err e =>
          Err (Wrapf ("failed to set config field " +:+ Name field +:+ ": ")
                     e "")
      | Ok cfg' => loadFields cmd v rest cfg'
      end
  end.

(** LoadConfig loads configuration following precedence: CLI Flags >
    config.yaml > Defaults.  [v] is the state of viper once the file has
    been read. *)
Definition LoadConfig (w : World) (cmd : option Command) (v : viper.State)
  : result Config :=
  loadFields cmd v (ConfigFields w) zeroConfig.

(** [%-20s]: the text, then spaces up to the width. *)
Definition padRight (width : nat) (s : string) : string :=
  s +:+ string_of_list_ascii (repeat " "%char (width - String.length s)).

Definition summaryRow (fieldName coloredValue : string) : string :=
  "   " +:+ padRight 20 fieldName +:+ " | " +:+ coloredValue.

Definition colorString (s : string) : string :=
  Str.ESC +:+ "[32m" +:+ s +:+ Str.ESC +:+ "[0m".

Definition colorBool (b : bool) : string :=
  Str.ESC +:+ "[33m" +:+ (if b then "true" else "false") +:+ Str.ESC +:+ "[0m".

Definition colorSlice (l : list string) : string :=
  Str.ESC +:+ "[36m" +:+ "[" +:+ Str.Join l " " +:+ "]" +:+ Str.ESC +:+ "[0m".

(** LogSummary prints the configuration in a tabular format, one row per
    member of the struct, in declaration order. *)
Definition LogSummary (c : Config) : IO unit :=
  logLines
    [ "🛠️  Configuration loaded:";
      "   Field                | Value";
      "   ---------------------|----------------";
      summaryRow "ArtifactName" (colorString (ArtifactName c));
      summaryRow "HelmFlavour" (colorString (HelmFlavour c));
      summaryRow "DockerNamespace" (colorString (DockerNamespace c));
      summaryRow "DockerHost" (colorString (DockerHost c));
      summaryRow "KubernetesConfig" (colorString (KubernetesConfig c));
      summaryRow "KubernetesContext" (colorString (KubernetesContext c));
      summaryRow "Env" (colorSlice (Env c));
      summaryRow "DryRun" (colorBool (DryRun c));
      summaryRow "RunDockerBuild" (colorBool (RunDockerBuild c));
      summaryRow "AutoApprove" (colorBool (AutoApprove c)) ].

(** ** cmd.go: the pipeline driver *)

Definition sectionRule : string :=
  "═══════════════════════════════════════════════════════════════".

Definition logSection (num : Z) (title icon : string) : IO unit :=
  logInfo "" ;;;
  logInfo sectionRule ;;;
  (if (0 <? num)%Z
   then logInfo (icon +:+ "  " +:+ showNat (Z.to_nat num) +:+ ". " +:+ title)
   else logInfo (icon +:+ " " +:+ title)) ;;;
  logInfo sectionRule.

(** What the driver does beyond the effects of the code it calls. *)
Inductive DriverEvent : Type :=
| DvRun (e : Event)            (* an effect of the configuration, validator or runner code *)
| DvPrint (text : string)      (* fmt.Print *)
| DvReadLine                   (* reader.ReadString on the input stream *)
| DvLogError (line : string).  (* log.Errorf *)

Definition Driver (A : Type) : Type := (list DriverEvent * A)%type.

Definition dret {A} (a : A) : Driver A := ([], a).

Definition dbind {A B} (m : Driver A) (k : A -> Driver B) : Driver B :=
  (fst m ++ fst (k (snd m)), snd (k (snd m))).

Definition lift {A} (m : IO A) : Driver A := (map DvRun (fst m), snd m).

Definition demit (e : DriverEvent) : Driver unit := ([e], tt).

Notation "x <~ m ;; k" := (dbind m (fun x => k))
  (at level 100, m at next level, right associativity).
Notation "m ~;; k" := (dbind m (fun _ => k))
  (at level 100, right associativity).

(** The effects of the called code within a driver trace. *)
Fixpoint inner (t : list DriverEvent) : list Event :=
  match t with
  | [] => []
  | DvRun e :: r => e :: inner r
  | _ :: r => inner r
  end.

(** The texts printed and the lines read by the driver itself. *)
Fixpoint prompts (t : list DriverEvent) : list string :=
  match t with
  | [] => []
  | DvPrint s :: r => s :: prompts r
  | _ :: r => prompts r
  end.

Fixpoint reads (t : list DriverEvent) : nat :=
  match t with
  | [] => 0
  | DvReadLine :: r => S (reads r)
  | _ :: r => reads r
  end.

Fixpoint errorLines (t : list DriverEvent) : list string :=
  match t with
  | [] => []
  | DvLogError s :: r => s :: errorLines r
  | _ :: r => errorLines r
  end.

Definition confirmPrompt : string :=
  "Please confirm the configuration above. Press Enter to proceed with deployment: ".

(** The loop of runDeploy over the validation results: a passed check has
    its message logged; at the first failed one the error line is logged
    and the validator's error returned. *)
Fixpoint reportResults (results : list ValidationResult.t)
    (err : option error) : Driver (option (option error)) :=
  match results with
  | [] => dret None
  | r :: rest =>
      match ValidationResult.Err r with
      | Some _ =>
          demit (DvLogError ("❌ Validation error in "
                             +:+ ValidationResult.Name r)) ~;;
          dret (Some err)
      | None =>
          lift (logInfo (ValidationResult.Message r)) ~;;
          reportResults rest err
      end
  end.

(** runDeploy, for the parsed command, the state of viper and what reading
    a line from the input stream gives ([None] on success). *)
Definition runDeploy (w : World) (v : viper.State) (cmd : option Command)
    (readLine : option string) : Driver (option error) :=
  lift (logSection 1%Z "CONFIGURATION" "⚙️") ~;;
  match LoadConfig w cmd v with
  | Err err =>
      dret (Some (Wrapf "❌ failed to load configuration: " err ""))
  | Ok cfg =>
      lift (LogSummary cfg) ~;;
      confirmed <~
        (if negb (AutoApprove cfg) && negb (DryRun cfg) then
           demit (DvPrint confirmPrompt) ~;;
           demit DvReadLine ~;;
           match readLine with
           | Some msg =>
               dret (Some (Wrapf "failed to read user input: "
                                 (LibError FromOs msg) ""))
           | None => dret None
           end
         else dret None) ;;
      match confirmed with
      | Some e => dret (Some e)
      | None =>
          lift (logSection 2%Z "VALIDATION" "✓") ~;;
          validation <~ lift (Validator.ValidateAll w cfg) ;;
          reported <~ reportResults (fst validation) (snd validation) ;;
          match reported with
          | Some e => dret e
          | None =>
              match snd validation with
              | Some e => dret (Some e)
              | None =>
                  lift (logSection 3%Z "DOCKER WORKFLOW" "🐳") ~;;
                  e1 <~ lift (DockerRunner.Run w cfg) ;;
                  match e1 with
                  | Some e =>
                      dret (Some (Wrapf "❌ docker workflow failed: " e ""))
                  | None =>
                      lift (logSection 4%Z "HELM WORKFLOW" "⎈") ~;;
                      e2 <~ lift (HelmRunner.Run w cfg) ;;
                      match e2 with
                      | Some e =>
                          dret (Some (Wrapf "❌ helm workflow failed: " e ""))
                      | None =>
                          lift (logSection 0%Z "DEPLOYMENT COMPLETE" "🎉") ~;;
                          dret None
                      end
                  end
              end
          end
      end
  end.

(** ** Vocabulary of the further properties *)

(** The bytes of a string hold no separator. *)
Definition freeOf (sep : ascii) (s : string) : Prop :=
  ~ In sep (list_ascii_of_string s).

(** runDeploy from its second step on: validation, then the two
    workflows. *)
Definition validateAndRun (w : World) (cfg : Config) : Driver (option error) :=
  lift (logSection 2%Z "VALIDATION" "✓") ~;;
  validation <~ lift (Validator.ValidateAll w cfg) ;;
  reported <~ reportResults (fst validation) (snd validation) ;;
  match reported with
  | Some e => dret e
  | None =>
      match snd validation with
      | Some e => dret (Some e)
      | None =>
          lift (logSection 3%Z "DOCKER WORKFLOW" "🐳") ~;;
          e1 <~ lift (DockerRunner.Run w cfg) ;;
          match e1 with
          | Some e => dret (Some (Wrapf "❌ docker workflow failed: " e ""))
          | None =>
              lift (logSection 4%Z "HELM WORKFLOW" "⎈") ~;;
              e2 <~ lift (HelmRunner.Run w cfg) ;;
              match e2 with
              | Some e =>
                  dret (Some (Wrapf "❌ helm workflow failed: " e ""))
              | None =>
                  lift (logSection 0%Z "DEPLOYMENT COMPLETE" "🎉") ~;;
                  dret None
              end
          end
      end
  end.

(** The error of the authenticate step when a credential is not set. *)
Definition credentialsError : error :=
  Errorf "REGISTRY_USERNAME and REGISTRY_PASSWORD environment variables must be set for Docker login".

(** The three commands of the image workflow for an image tag. *)
Definition buildCommand (tag : string) : string * list string :=
  ("docker", ["build"; "-t"; tag; "."]).

Definition loginCommand (w : World) (c : Config) : string * list string :=
  ("docker", loginArgs (DockerHost c) (Getenv w "REGISTRY_USERNAME")).

Definition pushCommand (tag : string) : string * list string :=
  ("docker", ["push"; tag]).

(** The liveness probe of the validator. *)
Definition dockerInfo : string * list string := ("docker", ["info"]).

(** A state of viper in which the file sets nothing. *)
Definition noFile : viper.State :=
  {| viper.IsSet := fun _ => false; viper.GetString := fun _ => "" |}.

(** An event with the bytes written to a process left out. *)
Definition redactEvent (e : Event) : Event :=
  match e with
  | EvStdin name args _ => EvStdin name args ""
  | _ => e
  end.

(** What a run shows once the bytes written to processes are left out. *)
Definition redact (t : list DriverEvent) : list DriverEvent :=
  map (fun d => match d with
                | DvRun e => DvRun (redactEvent e)
                | _ => d
                end) t.

(** Two hosts that differ at most in the value of the registry password:
    every other variable, the working and home directories, the file
    system, the execution path and the YAML decoder are the same. *)
Definition sameHostButPassword (w1 w2 : World) : Prop :=
  (forall k, k <> "REGISTRY_PASSWORD" -> Getenv w1 k = Getenv w2 k)
  /\ Getwd w1 = Getwd w2
  /\ UserHomeDir w1 = UserHomeDir w2
  /\ (forall p, Stat w1 p = Stat w2 p)
  /\ (forall p, ReadFile w1 p = ReadFile w2 p)
  /\ (forall tool, LookPath w1 tool = LookPath w2 tool)
  /\ (forall s, yamlCurrentContext w1 s = yamlCurrentContext w2 s)
  /\ (forall s, yamlContextNames w1 s = yamlContextNames w2 s).

(** The processes started on the two hosts answer the same.  A process
    inherits the environment of its host, the password included, and the
    login process is written the password of its host: that none of them
    reacts to the difference is an assumption on the processes. *)
Definition sameAnswers (w1 w2 : World) : Prop :=
  (forall name args, cmdRun w1 name args = cmdRun w2 name args)
  /\ (forall name args, cmdStdinPipe w1 name args = cmdStdinPipe w2 name args)
  /\ (forall name args, cmdStart w1 name args = cmdStart w2 name args)
  /\ (forall name args,
        pipeWrite w1 name args (Getenv w1 "REGISTRY_PASSWORD" +:+ newline)
        = pipeWrite w2 name args (Getenv w2 "REGISTRY_PASSWORD" +:+ newline))
  /\ (forall name args,
        cmdWait w1 name args (Getenv w1 "REGISTRY_PASSWORD" +:+ newline)
        = cmdWait w2 name args (Getenv w2 "REGISTRY_PASSWORD" +:+ newline)).

(** The lines of the first step: the section header, then the table of
    the loaded configuration, one row per member of the struct. *)
Definition configurationLines (c : Config) : list string :=
  [ "";
    "═══════════════════════════════════════════════════════════════";
    "⚙️  1. CONFIGURATION";
    "═══════════════════════════════════════════════════════════════";
    "🛠️  Configuration loaded:";
    "   Field                | Value";
    "   ---------------------|----------------";
    "   ArtifactName         | " +:+ Str.ESC +:+ "[32m" +:+ ArtifactName c
      +:+ Str.ESC +:+ "[0m";
    "   HelmFlavour          | " +:+ Str.ESC +:+ "[32m" +:+ HelmFlavour c
      +:+ Str.ESC +:+ "[0m";
    "   DockerNamespace      | " +:+ Str.ESC +:+ "[32m" +:+ DockerNamespace c
      +:+ Str.ESC +:+ "[0m";
    "   DockerHost           | " +:+ Str.ESC +:+ "[32m" +:+ DockerHost c
      +:+ Str.ESC +:+ "[0m";
    "   KubernetesConfig     | " +:+ Str.ESC +:+ "[32m" +:+ KubernetesConfig c
      +:+ Str.ESC +:+ "[0m";
    "   KubernetesContext    | " +:+ Str.ESC +:+ "[32m" +:+ KubernetesContext c
      +:+ Str.ESC +:+ "[0m";
    "   Env                  | " +:+ Str.ESC +:+ "[36m[" +:+ Str.Join (Env c) " "
      +:+ "]" +:+ Str.ESC +:+ "[0m";
    "   DryRun               | " +:+ Str.ESC +:+ "[33m"
      +:+ (if DryRun c then "true" else "false") +:+ Str.ESC +:+ "[0m";
    "   RunDockerBuild       | " +:+ Str.ESC +:+ "[33m"
      +:+ (if RunDockerBuild c then "true" else "false") +:+ Str.ESC +:+ "[0m";
    "   AutoApprove          | " +:+ Str.ESC +:+ "[33m"
      +:+ (if AutoApprove c then "true" else "false") +:+ Str.ESC +:+ "[0m" ].

(** The configurations loaded on the sample host without a command: with
    no file, and with the sample file. *)
Module Loaded.

Definition bare : Config := {|
  ArtifactName := "svc"; HelmFlavour := ""; DockerNamespace := "";
  DockerHost := "reg.example.com";
  KubernetesConfig := "/home/dev/.kube/config"; KubernetesContext := "dev";
  Env := []; DryRun := false; RunDockerBuild := true; AutoApprove := false |}.

Definition fromFile : Config := {|
  ArtifactName := "svc"; HelmFlavour := ""; DockerNamespace := "";
  DockerHost := "reg.example.com";
  KubernetesConfig := "/home/dev/.kube/config"; KubernetesContext := "dev";
  Env := ["production"]; DryRun := true; RunDockerBuild := true;
  AutoApprove := false |}.

End Loaded.

(** * Properties *)

(** ** Basic facts *)

Lemma isEmpty_true s : Str.isEmpty s = true <-> s = "".
Proof. destruct s; simpl; split; congruence. Qed.

Lemma isEmpty_false s : Str.isEmpty s = false <-> s <> "".
Proof. destruct s; simpl; split; congruence. Qed.

Example Clean_examples :
  filepath.Clean "a//b/./c/.." = "a/b"
  /\ filepath.Clean "/../a" = "/a"
  /\ filepath.Clean "../../x/../y" = "../../y"
  /\ filepath.Clean "./" = "."
  /\ filepath.Clean "/" = "/"
  /\ filepath.Clean "a/../.." = "..".
Proof. repeat split; reflexivity. Qed.

Example Join_examples :
  filepath.Join [".dockwright"; "helm"; "staging.values.yaml"]
    = ".dockwright/helm/staging.values.yaml"
  /\ filepath.Join ["/usr/local/share/dockwright/charts"; "stateless"]
    = "/usr/local/share/dockwright/charts/stateless"
  /\ filepath.Join ["/usr/local/share/dockwright/charts"; ""]
    = "/usr/local/share/dockwright/charts"
  /\ filepath.Join [""; ""] = ""
  /\ filepath.Base "/home/dev/my-service/" = "my-service"
  /\ filepath.Base "///" = "/".
Proof. repeat split; reflexivity. Qed.

Lemma trace_bind {A B} (m : IO A) (k : A -> IO B) :
  trace (bind m k) = trace m ++ trace (k (value m)).
Proof. reflexivity. Qed.

Lemma value_bind {A B} (m : IO A) (k : A -> IO B) :
  value (bind m k) = value (k (value m)).
Proof. reflexivity. Qed.

Lemma spawned_app t1 t2 : spawned (t1 ++ t2) = spawned t1 ++ spawned t2.
Proof.
  induction t1 as [|ev t1 IH]; [reflexivity|].
  destruct ev; simpl; rewrite IH; reflexivity.
Qed.

Lemma spawned_logs lines : spawned (map EvLog lines) = [].
Proof. induction lines; simpl; auto. Qed.

Lemma trace_logLines lines : trace (logLines lines) = map EvLog lines.
Proof.
  induction lines as [|l r IH]; [reflexivity|].
  change (trace (logLines (l :: r))) with (EvLog l :: trace (logLines r)).
  now rewrite IH.
Qed.

(** ** The resolver *)

Section Flags.

Implicit Types (fs : pflag.FlagSet) (name : string).

(** After parsing, a flag the command line mentions holds the last value
    given and is marked changed; the others are as before. *)
Lemma Parse_lookup args : forall fs fs' name,
  pflag.Parse args fs = Some fs' ->
  fs' !! name =
    match assigned args name with
    | Some v => touch v <$> fs !! name
    | None => fs !! name
    end.
Proof.
  induction args as [|[n v] rest IH]; intros fs fs' name Hp; simpl in *.
  - now inversion Hp.
  - unfold pflag.Set_ in Hp.
    destruct (fs !! n) as [f0|] eqn:Hn; [|discriminate].
    rewrite (IH _ _ name Hp). clear IH Hp.
    destruct (String.eqb_spec n name) as [->|Hne].
    + rewrite lookup_insert_eq, Hn.
      destruct (assigned rest name); reflexivity.
    + rewrite lookup_insert_ne by assumption.
      destruct (assigned rest name); reflexivity.
Qed.

(** Parsing succeeds when every flag mentioned is defined. *)
Lemma Parse_defined args : forall fs,
  Forall (fun p => is_Some (fs !! fst p)) args ->
  exists fs', pflag.Parse args fs = Some fs'.
Proof.
  induction args as [|[n v] rest IH]; intros fs Hall; simpl.
  - eauto.
  - inversion Hall as [|? ? [f0 Hn] Hrest]; subst. simpl in Hn.
    unfold pflag.Set_. rewrite Hn. apply IH.
    eapply Forall_impl; [exact Hrest|]. intros [m u] [g Hg]; simpl in *.
    destruct (String.eqb_spec n m) as [->|Hne].
    + rewrite lookup_insert_eq. eauto.
    + rewrite lookup_insert_ne by assumption. eauto.
Qed.

(** Registration keeps what the flag set already holds. *)
Lemma registerFlags_keeps fields : forall fs fs' name f,
  registerFlags fields fs = Some fs' ->
  fs !! name = Some f -> fs' !! name = Some f.
Proof.
  induction fields as [|fd rest IH]; intros fs fs' name f Hr Hl; simpl in Hr.
  - now inversion Hr; subst.
  - unfold pflag.String in Hr.
    destruct (fs !! Flag fd) eqn:Hfd; [discriminate|].
    eapply IH; [exact Hr|].
    rewrite lookup_insert_ne; [assumption|]. congruence.
Qed.

(** Every registry entry gets its flag, holding the entry's default. *)
Lemma registerFlags_lookup fields : forall fs fs' field,
  registerFlags fields fs = Some fs' ->
  In field fields ->
  fs' !! Flag field = Some (registered field).
Proof.
  induction fields as [|fd rest IH]; intros fs fs' field Hr Hin; simpl in Hr.
  - destruct Hin.
  - unfold pflag.String in Hr.
    destruct (fs !! Flag fd) eqn:Hfd; [discriminate|].
    destruct Hin as [->|Hin].
    + eapply registerFlags_keeps; [exact Hr|]. apply lookup_insert_eq.
    + eapply IH; eauto.
Qed.

End Flags.

(** [init] does not panic: the registry names no flag twice. *)
Lemma init_defined (w : World) : exists cmd, init w = Some cmd.
Proof. unfold init. eexists. vm_compute. reflexivity. Qed.

(** The deploy command exists for every command line that names only
    flags of the registry. *)
Lemma deployCmd_defined (w : World) (args : list (string * string)) :
  Forall (fun p => In (fst p) (map Flag (ConfigFields w))) args ->
  exists cmd, deployCmd w args = Some cmd.
Proof.
  intros Hall. unfold deployCmd.
  destruct (init_defined w) as [c0 Hc0]. rewrite Hc0.
  unfold init in Hc0.
  destruct (registerFlags (ConfigFields w) ∅) as [fs0|] eqn:Hreg;
    [|discriminate].
  inversion Hc0; subst c0; simpl.
  destruct (Parse_defined args fs0) as [fs' Hfs'].
  - eapply Forall_impl; [exact Hall|]. intros [n v] Hin.
    apply in_map_iff in Hin. destruct Hin as (field & <- & Hin).
    rewrite (registerFlags_lookup _ _ _ _ Hreg Hin). eauto.
  - rewrite Hfs'. eauto.
Qed.

(** C1. For every field of the registry, on the deploy command as [init]
    registers it and the command line sets it: the resolved value is the
    value the user gave the field's flag whenever the command line mentions
    that flag, whatever that value is (the default included); otherwise the
    value read at the field's config path when the file sets that path;
    otherwise the descriptor's default.  A flag the user did not mention
    still holds the default string, and that string does not shadow the
    file. *)
Theorem resolveFieldValue_precedence (w : World) (v : viper.State)
    (args : list (string * string)) (cmd : Command) (field : ConfigField) :
  In field (ConfigFields w) ->
  deployCmd w args = Some cmd ->
  resolveFieldValue (Some cmd) v field =
    match assigned args (Flag field) with
    | Some val => val
    | None =>
        if viper.IsSet v (ConfigPath field)
        then viper.GetString v (ConfigPath field)
        else Default field
    end
  /\ (assigned args (Flag field) = None ->
      pflag.GetString (Flags cmd) (Flag field) = Ok (Default field)
      /\ (viper.IsSet v (ConfigPath field) = true ->
          resolveFieldValue (Some cmd) v field
          = viper.GetString v (ConfigPath field))).
Proof.
  intros Hin Hcmd. unfold deployCmd, init in Hcmd.
  destruct (registerFlags (ConfigFields w) ∅) as [fs0|] eqn:Hreg;
    [|discriminate].
  simpl in Hcmd.
  destruct (pflag.Parse args fs0) as [fs|] eqn:Hparse; [|discriminate].
  inversion Hcmd; subst cmd; clear Hcmd.
  pose proof (Parse_lookup args fs0 fs (Flag field) Hparse) as Hl.
  rewrite (registerFlags_lookup _ _ _ _ Hreg Hin) in Hl.
  unfold resolveFieldValue, pflag.IsChanged, pflag.GetString; simpl.
  destruct (assigned args (Flag field)) as [val|]; simpl in Hl; rewrite Hl;
    simpl.
  - split; [reflexivity|discriminate].
  - split; [reflexivity|]. intros _. split; [reflexivity|].
    intros Hset. now rewrite Hset.
Qed.

(** The user passes [--dry-run=false], the default, while the file says
    [true]: the flag wins. *)
Lemma resolveFieldValue_precedence_witness :
  exists cmd,
    deployCmd Sample.host Sample.cmdline = Some cmd
    /\ resolveFieldValue (Some cmd) Sample.file Sample.dryRunField = "false".
Proof.
  destruct (deployCmd Sample.host Sample.cmdline) as [cmd|] eqn:Hcmd;
    [|vm_compute in Hcmd; discriminate].
  exists cmd. split; [reflexivity|].
  destruct (resolveFieldValue_precedence Sample.host Sample.file
              Sample.cmdline cmd Sample.dryRunField) as [Hres _].
  - vm_compute. tauto.
  - exact Hcmd.
  - rewrite Hres. reflexivity.
Defined.

(** The same run does not mention [--env]: the file's value is taken, though
    the flag holds its default string. *)
Example resolveFieldValue_unset_flag :
  exists cmd,
    deployCmd Sample.host Sample.cmdline = Some cmd
    /\ pflag.GetString (Flags cmd) "env" = Ok ""
    /\ resolveFieldValue (Some cmd) Sample.file Sample.envField = "production".
Proof. eexists. vm_compute. repeat split. Qed.

(** ** Boolean coercion *)

Lemma parseBool_true_iff (value : string) :
  parseBool value = true <->
  value = "true" \/ value = "1" \/ Str.ToLower value = "yes".
Proof.
  unfold parseBool. rewrite !orb_true_iff, !String.eqb_eq. tauto.
Qed.

(** C2, on the code.  ["true"], ["1"] and every spelling of [yes] coerce to
    true; the upper-case spellings of [true] do not: only [yes] is compared
    after lower-casing. *)
Theorem parseBool_tokens :
  parseBool "true" = true /\ parseBool "1" = true
  /\ parseBool "yes" = true /\ parseBool "Yes" = true
  /\ parseBool "YES" = true
  /\ parseBool "" = false /\ parseBool "false" = false
  /\ parseBool "no" = false /\ parseBool "0" = false
  /\ parseBool "garbage" = false
  /\ parseBool "TRUE" = false /\ parseBool "True" = false.
Proof. repeat split; reflexivity. Qed.

(** ** The validator *)

Section RunChecks.

Import Validator.

Lemma runChecks_cons ck rest rs :
  runChecks (ck :: rest) rs
  = (err <- fn ck ;;
     match err with
     | Some e => ret (rs ++ [resultOf ck err], Some e)
     | None => runChecks rest (rs ++ [resultOf ck err])
     end).
Proof. reflexivity. Qed.

(** When every check passes, the loop appends one entry per check, in
    the order of the table. *)
Lemma runChecks_all_pass cks : forall rs,
  Forall passes cks ->
  value (runChecks cks rs) = (rs ++ map passed cks, None)
  /\ trace (runChecks cks rs) = effects cks.
Proof.
  induction cks as [|ck rest IH]; intros rs Hall.
  - simpl. rewrite app_nil_r. auto.
  - inversion Hall as [|? ? Hck Hrest]; subst.
    destruct (IH (rs ++ [passed ck]) Hrest) as [Hv Ht].
    unfold passes in Hck.
    rewrite runChecks_cons, value_bind, trace_bind, Hck.
    cbv beta iota. fold (passed ck).
    split.
    + rewrite Hv. now rewrite <- app_assoc.
    + rewrite Ht. reflexivity.
Qed.

(** The loop ends at the first failing check: the entries are those of
    the checks before it, then its own; the effects are those of the
    checks up to it; what follows it in the table plays no part. *)
Lemma runChecks_first_failure pre : forall ck post e rs,
  Forall passes pre ->
  value (fn ck) = Some e ->
  value (runChecks (pre ++ ck :: post) rs)
    = (rs ++ map passed pre ++ [resultOf ck (Some e)], Some e)
  /\ trace (runChecks (pre ++ ck :: post) rs) = effects (pre ++ [ck]).
Proof.
  induction pre as [|p pre IH]; intros ck post e rs Hall Hck.
  - rewrite app_nil_l, runChecks_cons, value_bind, trace_bind, Hck.
    unfold effects. simpl. rewrite !app_nil_r. auto.
  - inversion Hall as [|? ? Hp Hpre]; subst. unfold passes in Hp.
    destruct (IH ck post e (rs ++ [passed p]) Hpre Hck) as [Hv Ht].
    rewrite <- app_comm_cons, runChecks_cons, value_bind, trace_bind, Hp.
    cbv beta iota. fold (passed p).
    split.
    + rewrite Hv. now rewrite <- app_assoc.
    + rewrite Ht. reflexivity.
Qed.

End RunChecks.

(** C3. The table of ValidateAll lists the six checks in the order
    required-fields, flavour, credentials, values files, cluster context,
    toolchain.  The run ends at the first failing check: the entries are
    the passed checks before it followed by its own, its error is the one
    returned, and only the checks up to it have had their effects.  In
    particular a configuration failing checks 1 and 2 yields the single
    entry of check 1 with check 1's error, whatever follows in the table. *)
Theorem ValidateAll_fixed_order_fail_fast (w : World) (c : Config) :
  map Validator.name (Validator.checks w c) = checkNames
  /\ map Validator.fn (Validator.checks w c)
     = [Validator.validateConfig w c; Validator.validateHelmFlavour c;
        Validator.validateEnvVars w; Validator.validateEnvValueFiles w c;
        Validator.validateKubeContext w c; Validator.validateTools w]
  /\ (forall pre ck post e,
        Validator.checks w c = pre ++ ck :: post ->
        Forall passes pre ->
        value (Validator.fn ck) = Some e ->
        value (Validator.ValidateAll w c)
          = (map passed pre ++ [Validator.resultOf ck (Some e)], Some e)
        /\ trace (Validator.ValidateAll w c) = effects (pre ++ [ck]))
  /\ (Forall passes (Validator.checks w c) ->
      value (Validator.ValidateAll w c)
        = (map passed (Validator.checks w c), None))
  /\ (forall e1 e2,
        value (Validator.validateConfig w c) = Some e1 ->
        value (Validator.validateHelmFlavour c) = Some e2 ->
        Validator.ValidateAll w c
          = ([], ([ {| ValidationResult.Name := "Configuration";
                       ValidationResult.Icon := "✅";
                       ValidationResult.Message := "✅ Validated - Configuration";
                       ValidationResult.Err := Some e1 |} ], Some e1))
        /\ forall later,
             Validator.runChecks
               ({| Validator.name := "Configuration"; Validator.icon := "✅";
                   Validator.fn := Validator.validateConfig w c |} :: later) []
             = Validator.ValidateAll w c).
Proof.
  split; [reflexivity|]. split; [reflexivity|].
  split; [|split].
  - intros pre ck post e Hsplit Hpre Hck. unfold Validator.ValidateAll.
    rewrite Hsplit.
    exact (runChecks_first_failure pre ck post e [] Hpre Hck).
  - intros Hall.
    exact (proj1 (runChecks_all_pass (Validator.checks w c) [] Hall)).
  - intros e1 e2 H1 _.
    assert (Hfirst : forall later,
      Validator.runChecks
        ({| Validator.name := "Configuration"; Validator.icon := "✅";
            Validator.fn := Validator.validateConfig w c |} :: later) []
      = ([], ([ {| ValidationResult.Name := "Configuration";
                   ValidationResult.Icon := "✅";
                   ValidationResult.Message := "✅ Validated - Configuration";
                   ValidationResult.Err := Some e1 |} ], Some e1))).
    { intros later.
      unfold Validator.validateConfig, value, ret in *. simpl in H1.
      simpl. unfold bind, Validator.validateConfig, ret. simpl.
      rewrite H1. reflexivity. }
    split.
    + unfold Validator.ValidateAll, Validator.checks. apply Hfirst.
    + intros later. rewrite Hfirst.
      unfold Validator.ValidateAll, Validator.checks. now rewrite Hfirst.
Qed.

(** No artifact name and flavour [daemon]: only the required-fields entry
    is reported. *)
Lemma ValidateAll_fixed_order_fail_fast_witness :
  Validator.ValidateAll Sample.host Sample.broken
  = ([], ([ {| ValidationResult.Name := "Configuration";
               ValidationResult.Icon := "✅";
               ValidationResult.Message := "✅ Validated - Configuration";
               ValidationResult.Err :=
                 Some (Errorf "configuration error: required field 'artifactName' (flag: --artifact-name) is not set") |} ],
          Some (Errorf "configuration error: required field 'artifactName' (flag: --artifact-name) is not set"))).
Proof.
  destruct (ValidateAll_fixed_order_fail_fast Sample.host Sample.broken)
    as (_ & _ & _ & _ & Hboth).
  exact (proj1 (Hboth
    (Errorf "configuration error: required field 'artifactName' (flag: --artifact-name) is not set")
    (Validator.helmFlavourError "daemon") eq_refl eq_refl)).
Defined.

(** ** The runners: structure of a run *)

Lemma logLines_eq lines : logLines lines = (map EvLog lines, tt).
Proof.
  induction lines as [|l r IH]; [reflexivity|].
  change (logLines (l :: r)) with (logInfo l ;;; logLines r).
  rewrite IH. reflexivity.
Qed.

(** [Run] is [deployArgs] followed by [execute]. *)
Lemma Run_deployArgs (w : World) (c : Config) :
  HelmRunner.Run w c
  = (trace (deployArgs w c)
       ++ match value (deployArgs w c) with
          | Ok args => trace (HelmRunner.execute w c args)
          | Err _ => []
          end,
     match value (deployArgs w c) with
     | Ok args => value (HelmRunner.execute w c args)
     | Err e => Some e
     end).
Proof.
  unfold HelmRunner.Run, deployArgs.
  generalize (HelmRunner.validateChartExists w (ChartPath c)),
    (HelmRunner.collectValuesFiles w c), (HelmRunner.buildImageArgs w c),
    (HelmRunner.execute w c).
  intros [t1 [e|]] [t2 [files|e']] [t3 [ia|e'']] ex;
    unfold trace, value, bind, ret; simpl;
    rewrite ?app_nil_r, <- ?app_assoc; reflexivity.
Qed.

(** The plan does not look at the dry-run flag. *)
Lemma deployArgs_withDryRun (b : bool) (w : World) (c : Config) :
  deployArgs w (withDryRun b c) = deployArgs w c.
Proof. reflexivity. Qed.

Lemma execute_dry_run (w : World) (c : Config) (args : list string) :
  DryRun c = true ->
  HelmRunner.execute w c args = (plannedDeploy (args ++ ["--dry-run"]), None).
Proof.
  intros Hdry. unfold HelmRunner.execute, HelmRunner.logArgs. rewrite Hdry.
  rewrite logLines_eq. unfold plannedDeploy, bind, logInfo, emit, ret.
  simpl. now rewrite ?app_nil_r.
Qed.

(** A real deploy starts one process: helm on the vector it was handed;
    its only error is that process's failure. *)
Lemma execute_real (w : World) (c : Config) (args : list string) :
  DryRun c = false ->
  spawned (trace (HelmRunner.execute w c args)) = [("helm", args)]
  /\ value (HelmRunner.execute w c args)
     = match cmdRun w "helm" args with
       | Some msg =>
           Some (Wrapf "helm deployment failed: " (LibError FromExec msg) "")
       | None => None
       end.
Proof.
  intros Hreal. unfold HelmRunner.execute, HelmRunner.logArgs. rewrite Hreal.
  rewrite logLines_eq. unfold trace, value, bind, logInfo, emit, ret.
  destruct (Str.isEmpty (KubernetesContext c)), (cmdRun w "helm" args);
    simpl; rewrite ?spawned_app, ?spawned_logs; simpl; auto.
Qed.

Lemma ShouldRunDockerBuild_eq (w : World) (c : Config) :
  ShouldRunDockerBuild w c
  = ([EvStat "Dockerfile"],
     statIsNil (Stat w "Dockerfile") && RunDockerBuild c).
Proof. reflexivity. Qed.

(** Nothing before [execute] starts a process. *)
Lemma deployArgs_spawns_nothing (w : World) (c : Config) :
  spawned (trace (deployArgs w c)) = [].
Proof.
  assert (Henv : forall envs files,
    spawned (trace (HelmRunner.collectEnvFiles w envs files)) = []).
  { induction envs as [|env rest IH]; intros files; [reflexivity|].
    simpl. unfold trace, bind in *. simpl.
    destruct (statIsNotExist (Stat w (HelmRunner.envValues env))); simpl;
      [reflexivity|]. apply IH. }
  unfold deployArgs, HelmRunner.validateChartExists,
    HelmRunner.collectValuesFiles, HelmRunner.buildImageArgs.
  rewrite ShouldRunDockerBuild_eq.
  unfold trace, bind in *. simpl.
  destruct (statIsNotExist (Stat w (ChartPath c))); simpl; [reflexivity|].
  destruct (statIsNil (Stat w HelmRunner.baseValues)); simpl;
    rewrite ?app_nil_r, ?spawned_app, ?Henv; simpl.
  all: destruct (snd (HelmRunner.collectEnvFiles w (Env c) _)); simpl;
    [|reflexivity].
  all: destruct (statIsNil (Stat w "Dockerfile") && RunDockerBuild c); simpl;
    [|reflexivity].
  all: destruct (ImageRepository c); reflexivity.
Qed.

(** Nor does it fail through an external process. *)
Lemma deployArgs_error_internal (w : World) (c : Config) (e : error) :
  value (deployArgs w c) = Err e -> isExternalToolError e = false.
Proof.
  assert (Henv : forall envs files e',
    value (HelmRunner.collectEnvFiles w envs files) = Err e' ->
    isExternalToolError e' = false).
  { induction envs as [|env rest IH]; intros files e'; [discriminate|].
    simpl. unfold value, bind in *. simpl.
    destruct (statIsNotExist (Stat w (HelmRunner.envValues env))); simpl.
    - intros He; inversion He; reflexivity.
    - apply IH. }
  unfold deployArgs, HelmRunner.validateChartExists,
    HelmRunner.collectValuesFiles, HelmRunner.buildImageArgs.
  rewrite ShouldRunDockerBuild_eq.
  unfold value, bind in *. simpl.
  destruct (statIsNotExist (Stat w (ChartPath c))); simpl;
    [intros He; inversion He; reflexivity|].
  destruct (statIsNil (Stat w HelmRunner.baseValues)); simpl.
  all: destruct (snd (HelmRunner.collectEnvFiles w (Env c) _)) eqn:Hc; simpl;
    [|intros He; inversion He; subst; simpl; eapply Henv; exact Hc].
  all: destruct (statIsNil (Stat w "Dockerfile") && RunDockerBuild c); simpl;
    [|discriminate].
  all: unfold ImageRepository;
    destruct (Str.isEmpty (DockerHost c) || Str.isEmpty (DockerNamespace c)
              || Str.isEmpty (ArtifactName c)); simpl;
    [intros He; inversion He; reflexivity|discriminate].
Qed.

(** ** Dry-run *)

Lemma build_dry_run (w : World) (c : Config) (imageTag : string) :
  DryRun c = true ->
  DockerRunner.build w c imageTag
  = ([EvLog ("🔨 Building Docker image: " +:+ imageTag);
      EvLog "   Build context: .";
      EvLog ("   🧪 [DRY-RUN] Would run: docker build -t " +:+ imageTag
             +:+ " .")], None).
Proof. intros Hdry. unfold DockerRunner.build. now rewrite Hdry. Qed.

Lemma push_dry_run (w : World) (c : Config) (imageTag : string) :
  DryRun c = true ->
  DockerRunner.push w c imageTag
  = ([EvLog ("📤 Pushing Docker image: " +:+ imageTag);
      EvLog ("   Target registry: " +:+ DockerHost c);
      EvLog ("   🧪 [DRY-RUN] Would run: docker push " +:+ imageTag)], None).
Proof. intros Hdry. unfold DockerRunner.push. now rewrite Hdry. Qed.

Lemma login_dry_run (w : World) (c : Config) :
  DryRun c = true ->
  DockerRunner.login w c
  = if Str.isEmpty (Getenv w "REGISTRY_USERNAME")
       || Str.isEmpty (Getenv w "REGISTRY_PASSWORD")
    then ([], Some (Errorf "REGISTRY_USERNAME and REGISTRY_PASSWORD environment variables must be set for Docker login"))
    else ([EvLog ("🔐 Authenticating with Docker registry: " +:+ DockerHost c);
           EvLog ("   Username: " +:+ Getenv w "REGISTRY_USERNAME");
           EvLog ("   🧪 [DRY-RUN] Would run: docker login " +:+ DockerHost c
                  +:+ " -u " +:+ Getenv w "REGISTRY_USERNAME")], None).
Proof.
  intros Hdry. unfold DockerRunner.login. rewrite Hdry.
  destruct (Str.isEmpty (Getenv w "REGISTRY_USERNAME")
            || Str.isEmpty (Getenv w "REGISTRY_PASSWORD")); reflexivity.
Qed.

Lemma DockerRunner_dry_run (w : World) (c : Config) :
  DryRun c = true ->
  spawned (trace (DockerRunner.Run w c)) = []
  /\ piped (trace (DockerRunner.Run w c)) = []
  /\ forall e, value (DockerRunner.Run w c) = Some e ->
               isExternalToolError e = false.
Proof.
  intros Hdry. unfold DockerRunner.Run.
  rewrite ShouldRunDockerBuild_eq, login_dry_run by assumption.
  unfold ImageTag.
  destruct (ImageRepository c) as [repo|e0] eqn:Hrepo.
  - rewrite !build_dry_run, !push_dry_run by assumption.
    destruct (statIsNil (Stat w "Dockerfile") && RunDockerBuild c),
      (Str.isEmpty (Getenv w "REGISTRY_USERNAME")
       || Str.isEmpty (Getenv w "REGISTRY_PASSWORD"));
      unfold trace, value, bind; simpl; repeat split; try reflexivity;
      intros e He; inversion He; reflexivity.
  - assert (He0 : isExternalToolError e0 = false).
    { unfold ImageRepository in Hrepo.
      destruct (Str.isEmpty (DockerHost c) || Str.isEmpty (DockerNamespace c)
                || Str.isEmpty (ArtifactName c)); inversion Hrepo;
        reflexivity. }
    destruct (statIsNil (Stat w "Dockerfile") && RunDockerBuild c);
      unfold trace, value, bind; simpl; repeat split; try reflexivity;
      intros e He; inversion He; subst; assumption.
Qed.

(** C4. With dry-run set, build, authenticate, push and deploy start no
    process (nor write to one), and none of their errors stems from an
    external tool.  The deploy step prints as its plan the vector it was
    handed followed by [--dry-run], and the vector handed over does not
    depend on the dry-run flag: whenever the real run with the same
    configuration executes [helm args], the simulated run plans
    [args ++ ["--dry-run"]]; when one stops before the deploy step, so does
    the other, with the same error. *)
Theorem dry_run_same_plan_no_process (w : World) (c : Config) :
  DryRun c = true ->
  (forall tag, spawned (trace (DockerRunner.build w c tag)) = []
               /\ value (DockerRunner.build w c tag) = None)
  /\ (spawned (trace (DockerRunner.login w c)) = []
      /\ piped (trace (DockerRunner.login w c)) = []
      /\ forall e, value (DockerRunner.login w c) = Some e ->
                   isExternalToolError e = false)
  /\ (forall tag, spawned (trace (DockerRunner.push w c tag)) = []
                  /\ value (DockerRunner.push w c tag) = None)
  /\ (forall args,
        HelmRunner.execute w c args
        = (plannedDeploy (args ++ ["--dry-run"]), None))
  /\ (spawned (trace (DockerRunner.Run w c)) = []
      /\ forall e, value (DockerRunner.Run w c) = Some e ->
                   isExternalToolError e = false)
  /\ (spawned (trace (HelmRunner.Run w c)) = []
      /\ forall e, value (HelmRunner.Run w c) = Some e ->
                   isExternalToolError e = false)
  /\ deployArgs w (withDryRun false c) = deployArgs w c
  /\ (forall args,
        value (deployArgs w c) = Ok args ->
        HelmRunner.Run w c
        = (trace (deployArgs w c) ++ plannedDeploy (args ++ ["--dry-run"]),
           None)
        /\ spawned (trace (HelmRunner.Run w (withDryRun false c)))
           = [("helm", args)])
  /\ (forall e,
        value (deployArgs w c) = Err e ->
        HelmRunner.Run w c = (trace (deployArgs w c), Some e)
        /\ HelmRunner.Run w (withDryRun false c)
           = (trace (deployArgs w c), Some e)).
Proof.
  intros Hdry.
  split; [intros tag; now rewrite build_dry_run by assumption|].
  split.
  { rewrite login_dry_run by assumption.
    destruct (Str.isEmpty (Getenv w "REGISTRY_USERNAME")
              || Str.isEmpty (Getenv w "REGISTRY_PASSWORD")); simpl;
      repeat split; try reflexivity; intros e He; inversion He; reflexivity. }
  split; [intros tag; now rewrite push_dry_run by assumption|].
  split; [intros args; now apply execute_dry_run|].
  split; [pose proof (DockerRunner_dry_run w c Hdry); tauto|].
  split.
  { rewrite Run_deployArgs.
    pose proof (deployArgs_spawns_nothing w c) as Hsp.
    pose proof (deployArgs_error_internal w c) as Herr.
    destruct (deployArgs w c) as [t [args|e0]];
      unfold trace, value in *; cbn [fst snd] in *;
      rewrite spawned_app, Hsp.
    - rewrite execute_dry_run by assumption. unfold plannedDeploy.
      cbn [fst snd spawned app]. rewrite spawned_logs.
      split; [reflexivity|discriminate].
    - split; [reflexivity|]. intros e He; inversion He; subst. now apply Herr. }
  split; [apply deployArgs_withDryRun|].
  split.
  - intros args Hargs. split.
    + rewrite Run_deployArgs, Hargs, execute_dry_run by assumption.
      reflexivity.
    + rewrite Run_deployArgs, deployArgs_withDryRun, Hargs.
      unfold trace at 1. cbn [fst]. rewrite spawned_app.
      rewrite (deployArgs_spawns_nothing w c).
      apply (execute_real w (withDryRun false c) args eq_refl).
  - intros e He. split.
    + rewrite Run_deployArgs, He. now rewrite app_nil_r.
    + rewrite Run_deployArgs, deployArgs_withDryRun, He.
      now rewrite app_nil_r.
Qed.

Lemma dry_run_same_plan_no_process_witness :
  spawned (trace (DockerRunner.Run Sample.host
                    (withDryRun true Sample.config))) = []
  /\ HelmRunner.Run Sample.host (withDryRun true Sample.config)
     = (trace (deployArgs Sample.host Sample.config)
          ++ plannedDeploy
               ["upgrade"; "--install"; "svc";
                "/usr/local/share/dockwright/charts/stateless";
                "--kubeconfig"; "/home/dev/.kube/config";
                "--kube-context"; "dev";
                "--values"; ".dockwright/helm/values.yaml";
                "--values"; ".dockwright/helm/staging.values.yaml";
                "--set"; "image.repository=reg.example.com/acme/svc";
                "--set"; "image.tag=latest"; "--dry-run"], None)
  /\ spawned (trace (HelmRunner.Run Sample.host Sample.config))
     = [("helm",
         ["upgrade"; "--install"; "svc";
          "/usr/local/share/dockwright/charts/stateless";
          "--kubeconfig"; "/home/dev/.kube/config";
          "--kube-context"; "dev";
          "--values"; ".dockwright/helm/values.yaml";
          "--values"; ".dockwright/helm/staging.values.yaml";
          "--set"; "image.repository=reg.example.com/acme/svc";
          "--set"; "image.tag=latest"])].
Proof.
  destruct (dry_run_same_plan_no_process Sample.host
              (withDryRun true Sample.config) eq_refl)
    as (_ & _ & _ & _ & [Hdocker _] & _ & _ & Hplan & _).
  split; [exact Hdocker|].
  exact (Hplan _ eq_refl).
Defined.

(** ** Values files *)

Section ValuesFiles.

Variable w : World.

Import HelmRunner.

Lemma collectEnvFiles_cons env rest files :
  collectEnvFiles w (env :: rest) files
  = (st <- osStat w (envValues env) ;;
     if statIsNotExist st then ret (Err (missingError env))
     else
       logInfo ("📄 Found environment values file: " +:+ envValues env) ;;;
       collectEnvFiles w rest (files ++ [envValues env])).
Proof. reflexivity. Qed.

Lemma collectEnvFiles_step env rest files :
  collectEnvFiles w (env :: rest) files
  = if statIsNotExist (Stat w (envValues env))
    then ([EvStat (envValues env)], Err (missingError env))
    else (EvStat (envValues env)
          :: EvLog ("📄 Found environment values file: " +:+ envValues env)
          :: trace (collectEnvFiles w rest (files ++ [envValues env])),
          value (collectEnvFiles w rest (files ++ [envValues env]))).
Proof.
  rewrite collectEnvFiles_cons.
  unfold osStat, logInfo, emit, ret, trace, value, bind. cbn [fst snd app].
  destruct (statIsNotExist (Stat w (envValues env))); reflexivity.
Qed.

(** With no file missing, every environment's file is appended, in the
    order of the request. *)
Lemma collectEnvFiles_ok envs : forall files,
  Forall (fun env => Stat w (envValues env) <> StatNotExist) envs ->
  value (collectEnvFiles w envs files) = Ok (files ++ map envValues envs)
  /\ statted (trace (collectEnvFiles w envs files)) = map envValues envs.
Proof.
  induction envs as [|env rest IH]; intros files Hall.
  - simpl. rewrite app_nil_r. split; reflexivity.
  - inversion Hall as [|? ? Henv Hrest]; subst.
    destruct (IH (files ++ [envValues env]) Hrest) as [Hv Ht].
    rewrite collectEnvFiles_step.
    destruct (Stat w (envValues env)) eqn:Hst; [|congruence|];
      cbn [statIsNotExist]; unfold trace, value in *;
      cbn [fst snd statted]; rewrite Hv, Ht, <- app_assoc;
      split; reflexivity.
Qed.

(** The first missing file ends the collection with an error naming its
    path; the files of later environments are not looked at. *)
Lemma collectEnvFiles_missing pre : forall env post files,
  Forall (fun env => Stat w (envValues env) <> StatNotExist) pre ->
  Stat w (envValues env) = StatNotExist ->
  value (collectEnvFiles w (pre ++ env :: post) files)
    = Err (missingError env)
  /\ statted (trace (collectEnvFiles w (pre ++ env :: post) files))
     = map envValues (pre ++ [env]).
Proof.
  induction pre as [|p pre IH]; intros env post files Hall Hmiss.
  - rewrite app_nil_l, collectEnvFiles_step, Hmiss.
    split; reflexivity.
  - inversion Hall as [|? ? Hp Hpre]; subst.
    destruct (IH env post (files ++ [envValues p]) Hpre Hmiss) as [Hv Ht].
    rewrite <- app_comm_cons, collectEnvFiles_step.
    destruct (Stat w (envValues p)) eqn:Hst; [|congruence|];
      cbn [statIsNotExist]; unfold trace, value in *;
      cbn [fst snd statted]; rewrite Hv, Ht; split; reflexivity.
Qed.

(** A list of environments has no missing file, or a first one. *)
Lemma first_missing (envs : list string) :
  Forall (fun env => Stat w (envValues env) <> StatNotExist) envs
  \/ exists pre env post,
       envs = pre ++ env :: post
       /\ Forall (fun env => Stat w (envValues env) <> StatNotExist) pre
       /\ Stat w (envValues env) = StatNotExist.
Proof.
  induction envs as [|env rest IH]; [left; constructor|].
  destruct (Stat w (envValues env)) eqn:Hst.
  2: { right. exists [], env, rest. repeat split; auto. }
  all: destruct IH as [Hall|(pre & e & post & -> & Hpre & He)];
    [left; constructor; [congruence|assumption]
    |right; exists (env :: pre), e, post; repeat split; auto;
     constructor; [congruence|assumption]].
Qed.

Lemma collectValuesFiles_eq (c : Config) :
  value (collectValuesFiles w c)
    = value (collectEnvFiles w (Env c) (baseFiles w))
  /\ statted (trace (collectValuesFiles w c))
     = baseValues
       :: statted (trace (collectEnvFiles w (Env c) (baseFiles w))).
Proof.
  unfold collectValuesFiles, baseFiles.
  unfold osStat, logInfo, emit, ret, trace, value, bind. cbn [fst snd app].
  destruct (statIsNil (Stat w baseValues)); split; reflexivity.
Qed.

End ValuesFiles.

(** ** The deploy argument vector *)

Lemma buildImageArgs_value (w : World) (c : Config) :
  value (HelmRunner.buildImageArgs w c)
  = if statIsNil (Stat w "Dockerfile") && RunDockerBuild c
    then match ImageRepository c with
         | Ok repo => Ok (imageOverrides repo)
         | Err e => Err e
         end
    else Ok [].
Proof.
  unfold HelmRunner.buildImageArgs. rewrite ShouldRunDockerBuild_eq.
  unfold logInfo, emit, ret, value, bind. cbn [fst snd].
  destruct (statIsNil (Stat w "Dockerfile") && RunDockerBuild c);
    [|reflexivity].
  destruct (ImageRepository c); reflexivity.
Qed.

Lemma validateChartExists_value (w : World) (chartPath : string) :
  value (HelmRunner.validateChartExists w chartPath)
  = if statIsNotExist (Stat w chartPath) then Some (chartError chartPath)
    else None.
Proof.
  unfold HelmRunner.validateChartExists.
  unfold osStat, logInfo, emit, ret, value, bind. cbn [fst snd].
  destruct (statIsNotExist (Stat w chartPath)); reflexivity.
Qed.

(** The vector handed to [execute], stage by stage. *)
Lemma deployArgs_value (w : World) (c : Config) :
  value (deployArgs w c)
  = if statIsNotExist (Stat w (ChartPath c)) then Err (chartError (ChartPath c))
    else
      match value (HelmRunner.collectValuesFiles w c) with
      | Err e => Err (Wrapf "failed to collect values files: " e "")
      | Ok files =>
          match value (HelmRunner.buildImageArgs w c) with
          | Err e => Err e
          | Ok imageArgs =>
              Ok (HelmRunner.buildArgs c (ChartPath c) files ++ imageArgs)
          end
      end.
Proof.
  pose proof (validateChartExists_value w (ChartPath c)) as Hchart.
  unfold deployArgs.
  revert Hchart.
  generalize (HelmRunner.validateChartExists w (ChartPath c)),
    (HelmRunner.collectValuesFiles w c), (HelmRunner.buildImageArgs w c).
  intros [t1 v1] [t2 [files|e2]] [t3 [ia|e3]];
    unfold value, bind, ret; cbn [fst snd]; intros ->;
    destruct (statIsNotExist (Stat w (ChartPath c))); reflexivity.
Qed.

Lemma valuesFlags_flat_map (files : list string) :
  HelmRunner.valuesFlags files = flat_map (fun f => ["--values"; f]) files.
Proof. induction files as [|f r IH]; simpl; congruence. Qed.

Lemma ImageRepository_Ok (c : Config) (repo : string) :
  ImageRepository c = Ok repo ->
  repo = DockerHost c +:+ "/" +:+ DockerNamespace c +:+ "/" +:+ ArtifactName c.
Proof.
  unfold ImageRepository.
  destruct (Str.isEmpty (DockerHost c) || Str.isEmpty (DockerNamespace c)
            || Str.isEmpty (ArtifactName c)); congruence.
Qed.

(** C5. Whenever the deploy step is reached, the vector it is handed is
    [upgrade --install <artifact> <chart path> --kubeconfig <path>], then
    [--kube-context <ctx>] exactly when a context is configured, then one
    [--values] pair per collected file in collection order, then, exactly
    when the image build is eligible, [--set image.repository=<host>/
    <namespace>/<artifact> --set image.tag=latest]; a real run executes
    helm on exactly this vector, a dry run plans it followed by
    [--dry-run]. *)
Theorem deploy_argument_vector (w : World) (c : Config) (args : list string) :
  value (deployArgs w c) = Ok args ->
  exists files,
    value (HelmRunner.collectValuesFiles w c) = Ok files
    /\ args
       = ["upgrade"; "--install"; ArtifactName c; ChartPath c;
          "--kubeconfig"; KubernetesConfig c]
         ++ (if Str.isEmpty (KubernetesContext c) then []
             else ["--kube-context"; KubernetesContext c])
         ++ flat_map (fun f => ["--values"; f]) files
         ++ (if value (ShouldRunDockerBuild w c)
             then ["--set";
                   "image.repository=" +:+ DockerHost c +:+ "/"
                     +:+ DockerNamespace c +:+ "/" +:+ ArtifactName c;
                   "--set"; "image.tag=latest"]
             else [])
    /\ (value (ShouldRunDockerBuild w c) = true ->
        ImageRepository c
        = Ok (DockerHost c +:+ "/" +:+ DockerNamespace c +:+ "/"
              +:+ ArtifactName c))
    /\ (DryRun c = false ->
        spawned (trace (HelmRunner.Run w c)) = [("helm", args)])
    /\ (DryRun c = true ->
        HelmRunner.Run w c
        = (trace (deployArgs w c) ++ plannedDeploy (args ++ ["--dry-run"]),
           None)).
Proof.
  intros Hargs. pose proof Hargs as Hval.
  rewrite deployArgs_value, buildImageArgs_value in Hval.
  destruct (statIsNotExist (Stat w (ChartPath c))); [discriminate|].
  destruct (value (HelmRunner.collectValuesFiles w c)) as [files|e];
    [|discriminate].
  exists files. split; [reflexivity|].
  rewrite ShouldRunDockerBuild_eq. unfold value at 1 2. cbn [snd].
  assert (Hexec :
    (DryRun c = false ->
     spawned (trace (HelmRunner.Run w c)) = [("helm", args)])
    /\ (DryRun c = true ->
        HelmRunner.Run w c
        = (trace (deployArgs w c) ++ plannedDeploy (args ++ ["--dry-run"]),
           None))).
  { split.
    - intros Hreal. rewrite Run_deployArgs, Hargs. unfold trace at 1.
      cbn [fst]. rewrite spawned_app, (deployArgs_spawns_nothing w c).
      apply (execute_real w c args Hreal).
    - intros Hdry. rewrite Run_deployArgs, Hargs, execute_dry_run by assumption.
      reflexivity. }
  unfold HelmRunner.buildArgs in Hval. rewrite valuesFlags_flat_map in Hval.
  destruct (statIsNil (Stat w "Dockerfile") && RunDockerBuild c).
  - destruct (ImageRepository c) as [repo|e] eqn:Hrepo; [|discriminate].
    apply ImageRepository_Ok in Hrepo. subst repo.
    inversion Hval as [Heq]. clear Hval. rewrite <- Heq in Hexec.
    split; [|split; [reflexivity|exact Hexec]].
    unfold imageOverrides.
    destruct (Str.isEmpty (KubernetesContext c)); simpl;
      rewrite <- ?app_assoc; reflexivity.
  - inversion Hval as [Heq]. clear Hval. rewrite <- Heq in Hexec.
    split; [|split; [discriminate|exact Hexec]].
    destruct (Str.isEmpty (KubernetesContext c)); simpl;
      rewrite <- ?app_assoc, ?app_nil_r; reflexivity.
Qed.

Lemma deploy_argument_vector_witness :
  exists files,
    value (HelmRunner.collectValuesFiles Sample.host Sample.config) = Ok files
    /\ spawned (trace (HelmRunner.Run Sample.host Sample.config))
       = [("helm",
           ["upgrade"; "--install"; "svc";
            "/usr/local/share/dockwright/charts/stateless";
            "--kubeconfig"; "/home/dev/.kube/config";
            "--kube-context"; "dev";
            "--values"; ".dockwright/helm/values.yaml";
            "--values"; ".dockwright/helm/staging.values.yaml";
            "--set"; "image.repository=reg.example.com/acme/svc";
            "--set"; "image.tag=latest"])].
Proof.
  destruct (deploy_argument_vector Sample.host Sample.config _ eq_refl)
    as (files & Hfiles & _ & _ & Hexec & _).
  exists files. split; [exact Hfiles|]. exact (Hexec eq_refl).
Defined.

(** C6. The collected set is the base file, exactly when its stat
    succeeds, followed by the values file of each requested environment in
    request order.  The first environment whose file does not exist (the
    stat reports it so) ends the collection with an error naming that
    file's path; no later file is looked at, and the run ends there: no
    argument vector exists, nothing is executed or planned.  A stat failing
    for another reason counts as neither: the base file is left out, an
    environment's file is kept. *)
Theorem collectValuesFiles_base_then_environments (w : World) (c : Config) :
  (forall files,
     value (HelmRunner.collectValuesFiles w c) = Ok files ->
     files = baseFiles w ++ map HelmRunner.envValues (Env c)
     /\ Forall (fun env => Stat w (HelmRunner.envValues env) <> StatNotExist)
          (Env c))
  /\ (Forall (fun env => Stat w (HelmRunner.envValues env) <> StatNotExist)
        (Env c) ->
      value (HelmRunner.collectValuesFiles w c)
      = Ok (baseFiles w ++ map HelmRunner.envValues (Env c)))
  /\ (forall pre env post,
        Env c = pre ++ env :: post ->
        Forall (fun env => Stat w (HelmRunner.envValues env) <> StatNotExist)
          pre ->
        Stat w (HelmRunner.envValues env) = StatNotExist ->
        value (HelmRunner.collectValuesFiles w c) = Err (missingError env)
        /\ statted (trace (HelmRunner.collectValuesFiles w c))
           = HelmRunner.baseValues :: map HelmRunner.envValues (pre ++ [env])
        /\ (exists e,
              value (deployArgs w c) = Err e
              /\ HelmRunner.Run w c = (trace (deployArgs w c), Some e)
              /\ (Stat w (ChartPath c) <> StatNotExist ->
                  e = Wrapf "failed to collect values files: "
                        (missingError env) ""))
        /\ spawned (trace (HelmRunner.Run w c)) = [])
  /\ (forall env,
        In env (Env c) ->
        Stat w (HelmRunner.envValues env) = StatNotExist ->
        exists missing,
          In missing (Env c)
          /\ value (HelmRunner.collectValuesFiles w c)
             = Err (missingError missing)).
Proof.
  destruct (collectValuesFiles_eq w c) as [Hval Hstat].
  assert (Hmissing : forall pre env post,
    Env c = pre ++ env :: post ->
    Forall (fun env => Stat w (HelmRunner.envValues env) <> StatNotExist) pre ->
    Stat w (HelmRunner.envValues env) = StatNotExist ->
    value (HelmRunner.collectValuesFiles w c) = Err (missingError env)
    /\ statted (trace (HelmRunner.collectValuesFiles w c))
       = HelmRunner.baseValues :: map HelmRunner.envValues (pre ++ [env])).
  { intros pre env post Hsplit Hpre Hmiss. rewrite Hval, Hstat, Hsplit.
    destruct (collectEnvFiles_missing w pre env post (baseFiles w) Hpre Hmiss)
      as [Hv Ht].
    rewrite Hv, Ht. split; reflexivity. }
  split; [|split; [|split]].
  - intros files Hfiles.
    destruct (first_missing w (Env c))
      as [Hall|(pre & env & post & Hsplit & Hpre & Hmiss)].
    + split; [|assumption].
      rewrite Hval, (proj1 (collectEnvFiles_ok w (Env c) (baseFiles w) Hall))
        in Hfiles.
      congruence.
    + destruct (Hmissing pre env post Hsplit Hpre Hmiss) as [Herr _].
      congruence.
  - intros Hall. rewrite Hval.
    apply (collectEnvFiles_ok w (Env c) (baseFiles w) Hall).
  - intros pre env post Hsplit Hpre Hmiss.
    destruct (Hmissing pre env post Hsplit Hpre Hmiss) as [Herr Hst].
    split; [assumption|]. split; [assumption|].
    pose proof (deployArgs_value w c) as Hplan. rewrite Herr in Hplan.
    assert (Hrun : forall e, value (deployArgs w c) = Err e ->
                             HelmRunner.Run w c = (trace (deployArgs w c), Some e)).
    { intros e He. rewrite Run_deployArgs, He. now rewrite app_nil_r. }
    split.
    + destruct (statIsNotExist (Stat w (ChartPath c))) eqn:Hchart.
      * eexists. split; [exact Hplan|]. split; [now apply Hrun|].
        intros Hne. destruct (Stat w (ChartPath c)); simpl in Hchart;
          congruence.
      * eexists. split; [exact Hplan|]. split; [now apply Hrun|].
        reflexivity.
    + rewrite Run_deployArgs. unfold trace at 1. cbn [fst].
      rewrite spawned_app, (deployArgs_spawns_nothing w c).
      destruct (value (deployArgs w c)) eqn:Hd; [|reflexivity].
      destruct (statIsNotExist (Stat w (ChartPath c))); discriminate.
  - intros env Hin Hmiss.
    destruct (first_missing w (Env c))
      as [Hall|(pre & env' & post & Hsplit & Hpre & Hmiss')].
    + rewrite Forall_forall in Hall. apply Hall in Hmiss; [contradiction|].
      now apply list_elem_of_In.
    + exists env'. split.
      * rewrite Hsplit. apply in_or_app. right. now left.
      * apply (Hmissing pre env' post Hsplit Hpre Hmiss').
Qed.

(** Both requested environments with production's file missing: the
    collection names [.dockwright/helm/production.values.yaml]. *)
Lemma collectValuesFiles_base_then_environments_witness :
  value (HelmRunner.collectValuesFiles Sample.host
           (withEnv ["staging"; "production"] Sample.config))
  = Err (Errorf "environment values file not found at path: .dockwright/helm/production.values.yaml. Please ensure the file exists")
  /\ value (HelmRunner.collectValuesFiles Sample.host Sample.config)
     = Ok [".dockwright/helm/values.yaml";
           ".dockwright/helm/staging.values.yaml"].
Proof.
  destruct (collectValuesFiles_base_then_environments Sample.host
              (withEnv ["staging"; "production"] Sample.config))
    as (_ & _ & Hmiss & _).
  destruct (collectValuesFiles_base_then_environments Sample.host
              Sample.config) as (_ & Hok & _).
  split.
  - apply (Hmiss ["staging"] "production" [] eq_refl).
    + constructor; [|constructor]. vm_compute. discriminate.
    + reflexivity.
  - apply Hok. constructor; [|constructor]. vm_compute. discriminate.
Defined.

(** ** The image workflow *)

Lemma statted_app t1 t2 : statted (t1 ++ t2) = statted t1 ++ statted t2.
Proof.
  induction t1 as [|ev t1 IH]; [reflexivity|].
  destruct ev; simpl; rewrite IH; reflexivity.
Qed.

Lemma build_no_stat (w : World) (c : Config) (tag : string) :
  statted (trace (DockerRunner.build w c tag)) = [].
Proof.
  unfold DockerRunner.build. unfold logInfo, emit, ret, trace, bind.
  destruct (DryRun c); [reflexivity|].
  destruct (cmdRun w "docker" ["build"; "-t"; tag; "."]); reflexivity.
Qed.

Lemma push_no_stat (w : World) (c : Config) (tag : string) :
  statted (trace (DockerRunner.push w c tag)) = [].
Proof.
  unfold DockerRunner.push. unfold logInfo, emit, ret, trace, bind.
  destruct (DryRun c); [reflexivity|].
  destruct (cmdRun w "docker" ["push"; tag]); reflexivity.
Qed.

Lemma login_no_stat (w : World) (c : Config) :
  statted (trace (DockerRunner.login w c)) = [].
Proof.
  unfold DockerRunner.login. unfold logInfo, emit, ret, trace, bind.
  destruct (Str.isEmpty (Getenv w "REGISTRY_USERNAME")
            || Str.isEmpty (Getenv w "REGISTRY_PASSWORD")); [reflexivity|].
  destruct (DryRun c); [reflexivity|].
  destruct (cmdStdinPipe w "docker" _); [reflexivity|].
  destruct (cmdStart w "docker" _); [reflexivity|].
  destruct (pipeWrite w "docker" _ _); [reflexivity|].
  destruct (cmdWait w "docker" _ _); reflexivity.
Qed.

(** The skip condition is evaluated once, before anything else: every run
    of the image workflow begins with the stat of the Dockerfile and stats
    nothing afterwards. *)
Lemma DockerRunner_condition_once (w : World) (c : Config) :
  exists rest,
    trace (DockerRunner.Run w c) = EvStat "Dockerfile" :: rest
    /\ statted rest = [].
Proof.
  unfold DockerRunner.Run. rewrite ShouldRunDockerBuild_eq.
  unfold trace at 1. unfold bind at 1. cbn [fst snd app].
  eexists. split; [reflexivity|].
  destruct (statIsNil (Stat w "Dockerfile") && RunDockerBuild c);
    [|reflexivity].
  cbn [negb]. destruct (ImageTag c) as [tag|e]; [|reflexivity].
  pose proof (build_no_stat w c tag) as Hb.
  pose proof (login_no_stat w c) as Hl.
  pose proof (push_no_stat w c tag) as Hp.
  revert Hb Hl Hp.
  generalize (DockerRunner.build w c tag), (DockerRunner.login w c),
    (DockerRunner.push w c tag).
  intros [t1 [e1|]] [t2 [e2|]] [t3 [e3|]]; unfold trace, bind, ret;
    cbn [fst snd]; intros Hb Hl Hp;
    rewrite ?statted_app, ?Hb, ?Hl, ?Hp; reflexivity.
Qed.

Lemma DockerRunner_skip (w : World) (c : Config) :
  statIsNil (Stat w "Dockerfile") && RunDockerBuild c = false ->
  DockerRunner.Run w c
  = ([EvStat "Dockerfile";
      EvLog "⏭️  Skipping Docker workflow. Either docker build (--docker-build) flag is disabled or Dockerfile is missing."],
     None).
Proof.
  intros Hskip. unfold DockerRunner.Run.
  rewrite ShouldRunDockerBuild_eq, Hskip. reflexivity.
Qed.

(** C7. When the run-image-build flag is false or the stat of the
    Dockerfile fails, the image workflow stats the Dockerfile once, logs
    that it skips, starts no process and succeeds; the deploy vector is
    then the one built from the values files alone, with no image override
    appended. *)
Theorem image_workflow_skipped (w : World) (c : Config) :
  RunDockerBuild c = false \/ Stat w "Dockerfile" <> StatOk ->
  DockerRunner.Run w c
  = ([EvStat "Dockerfile";
      EvLog "⏭️  Skipping Docker workflow. Either docker build (--docker-build) flag is disabled or Dockerfile is missing."],
     None)
  /\ spawned (trace (DockerRunner.Run w c)) = []
  /\ piped (trace (DockerRunner.Run w c)) = []
  /\ statted (trace (DockerRunner.Run w c)) = ["Dockerfile"]
  /\ HelmRunner.buildImageArgs w c = ([EvStat "Dockerfile"], Ok [])
  /\ (forall args,
        value (deployArgs w c) = Ok args ->
        exists files,
          value (HelmRunner.collectValuesFiles w c) = Ok files
          /\ args = HelmRunner.buildArgs c (ChartPath c) files
          /\ args
             = ["upgrade"; "--install"; ArtifactName c; ChartPath c;
                "--kubeconfig"; KubernetesConfig c]
               ++ (if Str.isEmpty (KubernetesContext c) then []
                   else ["--kube-context"; KubernetesContext c])
               ++ flat_map (fun f => ["--values"; f]) files).
Proof.
  intros Hcond.
  assert (Hskip : statIsNil (Stat w "Dockerfile") && RunDockerBuild c = false).
  { destruct Hcond as [Hflag|Hstat].
    - rewrite Hflag. apply andb_false_r.
    - destruct (Stat w "Dockerfile"); [congruence|reflexivity..]. }
  rewrite (DockerRunner_skip w c Hskip).
  split; [reflexivity|]. split; [reflexivity|]. split; [reflexivity|].
  split; [reflexivity|]. split.
  - unfold HelmRunner.buildImageArgs.
    rewrite ShouldRunDockerBuild_eq, Hskip. reflexivity.
  - intros args Hargs.
    rewrite deployArgs_value, buildImageArgs_value, Hskip in Hargs.
    destruct (statIsNotExist (Stat w (ChartPath c))); [discriminate|].
    destruct (value (HelmRunner.collectValuesFiles w c)) as [files|e];
      [|discriminate].
    exists files. split; [reflexivity|].
    rewrite app_nil_r in Hargs. inversion Hargs as [Heq]. clear Hargs.
    split; [reflexivity|].
    unfold HelmRunner.buildArgs. rewrite valuesFlags_flat_map.
    destruct (Str.isEmpty (KubernetesContext c)); simpl;
      rewrite <- ?app_assoc; reflexivity.
Qed.

(** docker.build=false on the sample host: no process, and the deploy
    vector ends with the values flags. *)
Lemma image_workflow_skipped_witness :
  spawned (trace (DockerRunner.Run Sample.host
     {| ArtifactName := "svc"; HelmFlavour := "stateless";
        DockerNamespace := "acme"; DockerHost := "reg.example.com";
        KubernetesConfig := "/home/dev/.kube/config";
        KubernetesContext := "dev"; Env := ["staging"]; DryRun := false;
        RunDockerBuild := false; AutoApprove := false |})) = []
  /\ HelmRunner.buildImageArgs Sample.host
       {| ArtifactName := "svc"; HelmFlavour := "stateless";
          DockerNamespace := "acme"; DockerHost := "reg.example.com";
          KubernetesConfig := "/home/dev/.kube/config";
          KubernetesContext := "dev"; Env := ["staging"]; DryRun := false;
          RunDockerBuild := false; AutoApprove := false |}
     = ([EvStat "Dockerfile"], Ok []).
Proof.
  destruct (image_workflow_skipped Sample.host
     {| ArtifactName := "svc"; HelmFlavour := "stateless";
        DockerNamespace := "acme"; DockerHost := "reg.example.com";
        KubernetesConfig := "/home/dev/.kube/config";
        KubernetesContext := "dev"; Env := ["staging"]; DryRun := false;
        RunDockerBuild := false; AutoApprove := false |}
     (or_introl eq_refl)) as (_ & Hsp & _ & _ & Himg & _).
  split; assumption.
Defined.

(** ** The registry password *)

Lemma Getenv_withPassword (pw : string) (w : World) :
  Getenv (withPassword pw w) "REGISTRY_PASSWORD" = pw
  /\ Getenv (withPassword pw w) "REGISTRY_USERNAME"
     = Getenv w "REGISTRY_USERNAME".
Proof. split; reflexivity. Qed.

(** What the authenticate step does, case by case. *)
Lemma login_cases (w : World) (c : Config) :
  let user := Getenv w "REGISTRY_USERNAME" in
  let pw := Getenv w "REGISTRY_PASSWORD" in
  let args := loginArgs (DockerHost c) user in
  (spawned (trace (DockerRunner.login w c))
   = if Str.isEmpty user || Str.isEmpty pw then []
     else if DryRun c then []
     else match cmdStdinPipe w "docker" args with
          | Some _ => []
          | None => [("docker", args)]
          end)
  /\ (forall data, In data (piped (trace (DockerRunner.login w c))) ->
                   data = pw +:+ newline)
  /\ (forall line, In line (logged (trace (DockerRunner.login w c))) ->
                   In line (loginLines (DockerHost c) user)).
Proof.
  intros user pw args. subst user pw args.
  unfold DockerRunner.login, loginArgs, loginLines, newline.
  unfold logInfo, emit, ret, trace, bind.
  destruct (Str.isEmpty (Getenv w "REGISTRY_USERNAME")
            || Str.isEmpty (Getenv w "REGISTRY_PASSWORD"));
    [simpl; tauto|].
  destruct (DryRun c); [simpl; intuition|].
  destruct (cmdStdinPipe w "docker" _); [simpl; intuition|].
  destruct (cmdStart w "docker" _); [simpl; intuition|].
  destruct (pipeWrite w "docker" _ _); [simpl; intuition|].
  destruct (cmdWait w "docker" _ _); simpl; intuition.
Qed.

(** C8. The argument vector of the login command is made of the host and
    the user name; the password reaches the process through its input
    stream only.  Changing the password changes neither the commands
    started nor, in a dry run, anything the step does; and every line the
    step logs, in either mode, is made of the host and the user name. *)
Theorem login_password_not_in_argv (w : World) (c : Config) (pw : string) :
  Getenv w "REGISTRY_PASSWORD" <> "" ->
  pw <> "" ->
  spawned (trace (DockerRunner.login (withPassword pw w) c))
    = spawned (trace (DockerRunner.login w c))
  /\ (forall name args,
        In (name, args) (spawned (trace (DockerRunner.login w c))) ->
        name = "docker"
        /\ args = ["login"; DockerHost c; "-u"; Getenv w "REGISTRY_USERNAME";
                   "--password-stdin"])
  /\ (forall data,
        In data (piped (trace (DockerRunner.login w c))) ->
        data = Getenv w "REGISTRY_PASSWORD" +:+ newline)
  /\ (forall line,
        In line (logged (trace (DockerRunner.login w c))) ->
        In line (loginLines (DockerHost c) (Getenv w "REGISTRY_USERNAME")))
  /\ (DryRun c = true ->
      DockerRunner.login (withPassword pw w) c = DockerRunner.login w c
      /\ (Getenv w "REGISTRY_USERNAME" <> "" ->
          DockerRunner.login w c
          = ([EvLog ("🔐 Authenticating with Docker registry: "
                     +:+ DockerHost c);
              EvLog ("   Username: " +:+ Getenv w "REGISTRY_USERNAME");
              EvLog ("   🧪 [DRY-RUN] Would run: docker login "
                     +:+ DockerHost c +:+ " -u "
                     +:+ Getenv w "REGISTRY_USERNAME")], None))).
Proof.
  intros Hpw Hpw'.
  apply isEmpty_false in Hpw. apply isEmpty_false in Hpw'.
  destruct (login_cases w c) as (Hsp & Hpipe & Hlog).
  destruct (login_cases (withPassword pw w) c) as (Hsp' & _ & _).
  destruct (Getenv_withPassword pw w) as [Hg1 Hg2].
  rewrite Hg1, Hg2 in Hsp'. cbn [cmdStdinPipe withPassword] in Hsp'.
  rewrite Hpw in Hsp. rewrite Hpw' in Hsp'.
  split; [now rewrite Hsp, Hsp'|].
  split.
  { intros name args Hin. rewrite Hsp in Hin. unfold loginArgs in Hin.
    destruct (Str.isEmpty (Getenv w "REGISTRY_USERNAME") || false);
      [destruct Hin|].
    destruct (DryRun c); [destruct Hin|].
    destruct (cmdStdinPipe w "docker" _); [destruct Hin|].
    destruct Hin as [Heq|[]]. inversion Heq. auto. }
  split; [exact Hpipe|]. split; [exact Hlog|].
  intros Hdry. rewrite !login_dry_run by assumption.
  rewrite Hg1, Hg2, Hpw, Hpw'. split; [reflexivity|].
  intros Huser. apply isEmpty_false in Huser. now rewrite Huser.
Qed.

Lemma login_password_not_in_argv_witness :
  spawned (trace (DockerRunner.login (withPassword "hunter2" Sample.host)
                    Sample.config))
  = [("docker",
      ["login"; "reg.example.com"; "-u"; "bob"; "--password-stdin"])]
  /\ piped (trace (DockerRunner.login Sample.host Sample.config))
     = ["s3cret" +:+ newline].
Proof.
  destruct (login_password_not_in_argv Sample.host Sample.config "hunter2")
    as (Hsame & _); [vm_compute; discriminate..|].
  split; [rewrite Hsame|]; reflexivity.
Defined.

(** ** The image repository and the validator *)

Lemma ImageRepository_Err_iff (c : Config) :
  (exists e, ImageRepository c = Err e) <->
  DockerHost c = "" \/ DockerNamespace c = "" \/ ArtifactName c = "".
Proof.
  unfold ImageRepository.
  rewrite <- !isEmpty_true.
  destruct (Str.isEmpty (DockerHost c)), (Str.isEmpty (DockerNamespace c)),
    (Str.isEmpty (ArtifactName c)); simpl; split;
    try (intros _; eauto; tauto);
    try (intros [e He]; discriminate);
    intros [H|[H|H]]; discriminate.
Qed.

Lemma ImageRepository_Err (c : Config) (e : error) :
  ImageRepository c = Err e -> e = repositoryError.
Proof.
  unfold ImageRepository, repositoryError.
  destruct (Str.isEmpty (DockerHost c) || Str.isEmpty (DockerNamespace c)
            || Str.isEmpty (ArtifactName c)); congruence.
Qed.

(** The validator never looks at the registry host or namespace. *)
Lemma ValidateAll_ignores_registry (w : World) (c : Config)
    (host namespace : string) :
  Validator.ValidateAll w (withRegistry host namespace c)
  = Validator.ValidateAll w c.
Proof. reflexivity. Qed.

(** C9. ImageRepository, and with it ImageTag, fails exactly when the
    host, the namespace or the artifact name is empty.  The registry does
    not mark dockerNamespace and dockerHost as required and no check reads
    them, so a configuration passes the six checks with or without them;
    when the build is eligible and one of them is empty, the image workflow
    and the construction of the image overrides both fail with the
    repository error, and such runs exist. *)
Theorem ImageRepository_fails_after_validation (w : World) (c : Config) :
  ((exists e, ImageRepository c = Err e) <->
   DockerHost c = "" \/ DockerNamespace c = "" \/ ArtifactName c = "")
  /\ ((exists e, ImageTag c = Err e) <->
      DockerHost c = "" \/ DockerNamespace c = "" \/ ArtifactName c = "")
  /\ (forall e, ImageRepository c = Err e \/ ImageTag c = Err e ->
                e = repositoryError)
  /\ (forall field,
        In field (ConfigFields w) ->
        Name field = "dockerNamespace" \/ Name field = "dockerHost" ->
        Required field = false)
  /\ (forall host namespace,
        Validator.ValidateAll w (withRegistry host namespace c)
        = Validator.ValidateAll w c)
  /\ (snd (value (Validator.ValidateAll w c)) = None ->
      value (ShouldRunDockerBuild w c) = true ->
      DockerHost c = "" \/ DockerNamespace c = "" ->
      DockerRunner.Run w c = ([EvStat "Dockerfile"], Some repositoryError)
      /\ HelmRunner.buildImageArgs w c
         = ([EvStat "Dockerfile"], Err repositoryError)
      /\ exists e, value (HelmRunner.Run w c) = Some e)
  /\ (exists w0 c0,
        snd (value (Validator.ValidateAll w0 c0)) = None
        /\ value (ShouldRunDockerBuild w0 c0) = true
        /\ value (DockerRunner.Run w0 c0) = Some repositoryError
        /\ value (HelmRunner.buildImageArgs w0 c0) = Err repositoryError
        /\ value (HelmRunner.Run w0 c0) = Some repositoryError).
Proof.
  assert (Htag : forall e, ImageTag c = Err e <-> ImageRepository c = Err e).
  { intros e. unfold ImageTag. destruct (ImageRepository c); split; congruence. }
  split; [apply ImageRepository_Err_iff|].
  split.
  { rewrite <- (ImageRepository_Err_iff c).
    split; intros [e He]; exists e; now apply Htag. }
  split.
  { intros e [He|He]; [|apply Htag in He]; now apply (ImageRepository_Err c). }
  split.
  { intros field Hin Hname. simpl in Hin.
    repeat (destruct Hin as [<-|Hin];
            [simpl in *; destruct Hname as [Hn|Hn];
             first [reflexivity | discriminate Hn]|]).
    destruct Hin. }
  split; [intros; apply ValidateAll_ignores_registry|].
  split.
  - intros _ Hshould Hempty.
    assert (Hrepo : ImageRepository c = Err repositoryError).
    { destruct (proj2 (ImageRepository_Err_iff c)) as [e He]; [tauto|].
      now rewrite He, (ImageRepository_Err c e He). }
    rewrite ShouldRunDockerBuild_eq in Hshould. unfold value in Hshould.
    cbn [snd] in Hshould.
    split; [|split].
    + unfold DockerRunner.Run, ImageTag.
      rewrite ShouldRunDockerBuild_eq, Hshould, Hrepo. reflexivity.
    + unfold HelmRunner.buildImageArgs.
      rewrite ShouldRunDockerBuild_eq, Hshould, Hrepo. reflexivity.
    + rewrite Run_deployArgs. unfold value at 1. cbn [snd].
      rewrite deployArgs_value, buildImageArgs_value, Hshould, Hrepo.
      destruct (statIsNotExist (Stat w (ChartPath c))); [eauto|].
      destruct (value (HelmRunner.collectValuesFiles w c)); eauto.
  - exists Sample.host, Sample.noNamespace. vm_compute. repeat split.
Qed.

(** The sample configuration without a namespace passes the six checks and
    then fails in both runners. *)
Lemma ImageRepository_fails_after_validation_witness :
  DockerRunner.Run Sample.host Sample.noNamespace
  = ([EvStat "Dockerfile"], Some repositoryError)
  /\ HelmRunner.buildImageArgs Sample.host Sample.noNamespace
     = ([EvStat "Dockerfile"], Err repositoryError).
Proof.
  destruct (ImageRepository_fails_after_validation Sample.host
              Sample.noNamespace) as (_ & _ & _ & _ & _ & Hfail & _).
  destruct Hfail as (Hdocker & Himage & _);
    [reflexivity | reflexivity | right; reflexivity |].
  split; assumption.
Defined.

(** ** No environment requested *)

(** The required-fields check reads the four required fields only. *)
Lemma validateConfig_eq (w : World) (c : Config) :
  Validator.validateConfig w c
  = ([],
     if Str.isEmpty (ArtifactName c) then
       Some (Errorf "configuration error: required field 'artifactName' (flag: --artifact-name) is not set")
     else if Str.isEmpty (HelmFlavour c) then
       Some (Errorf "configuration error: required field 'helmFlavour' (flag: --helm-flavour) is not set")
     else if Str.isEmpty (KubernetesConfig c) then
       Some (Errorf "configuration error: required field 'kubernetesConfig' (flag: --kubernetes-config) is not set")
     else if Str.isEmpty (KubernetesContext c) then
       Some (Errorf "configuration error: required field 'kubernetesContext' (flag: --kubernetes-context) is not set")
     else None).
Proof. reflexivity. Qed.

Lemma statted_logs lines : statted (map EvLog lines) = [].
Proof. induction lines; simpl; auto. Qed.

Lemma execute_no_stat (w : World) (c : Config) (args : list string) :
  statted (trace (HelmRunner.execute w c args)) = [].
Proof.
  unfold HelmRunner.execute, HelmRunner.logArgs.
  rewrite !logLines_eq.
  destruct (DryRun c).
  - unfold logInfo, emit, ret, trace, bind. cbn [fst snd app statted].
    rewrite app_nil_r. apply statted_logs.
  - destruct (negb (Str.isEmpty (KubernetesContext c))),
      (cmdRun w "helm" args);
      unfold logInfo, emit, ret, trace, bind; cbn [fst snd app statted];
      rewrite statted_app, statted_logs; reflexivity.
Qed.

(** The stats of a Helm workflow without environments: the chart, then
    the base values file and the Dockerfile. *)
Lemma Run_stats_no_environment (w : World) (c : Config) :
  Env c = [] ->
  statted (trace (HelmRunner.Run w c))
  = if statIsNotExist (Stat w (ChartPath c)) then [ChartPath c]
    else [ChartPath c; HelmRunner.baseValues; "Dockerfile"].
Proof.
  intros Henv. rewrite Run_deployArgs. unfold trace at 1. cbn [fst].
  rewrite statted_app.
  assert (Hexec : statted match value (deployArgs w c) with
                          | Ok args => trace (HelmRunner.execute w c args)
                          | Err _ => []
                          end = []).
  { destruct (value (deployArgs w c)); [apply execute_no_stat|reflexivity]. }
  rewrite Hexec, app_nil_r.
  unfold deployArgs, HelmRunner.validateChartExists,
    HelmRunner.collectValuesFiles, HelmRunner.buildImageArgs.
  rewrite Henv, ShouldRunDockerBuild_eq. cbn [HelmRunner.collectEnvFiles].
  unfold osStat, logInfo, emit, ret, trace, bind. cbn [fst snd].
  destruct (statIsNotExist (Stat w (ChartPath c))); [reflexivity|].
  destruct (statIsNil (Stat w HelmRunner.baseValues)),
    (statIsNil (Stat w "Dockerfile") && RunDockerBuild c);
    cbn [fst snd app statted]; try reflexivity;
    destruct (ImageRepository c); reflexivity.
Qed.

(** C10. The registry does not mark env as required, and the
    required-fields check gives the same answer whatever the environments
    list is; with the four required fields set, a configuration with no
    environment passes it.  The collection then stats the base file only
    and returns the base file or nothing.  The Helm workflow itself stats
    the chart, the base file and the Dockerfile, no file of an environment;
    when the chart is found and the image arguments are computed it hands
    helm a vector with a [--values] pair for the base file at most: a real
    run starts helm on exactly this vector, once, and returns helm's
    outcome; a dry run starts nothing, returns no error and ends with the
    plan of this vector followed by [--dry-run]. *)
Theorem no_environment_requested (w : World) (c : Config) :
  Env c = [] ->
  (forall field,
     In field (ConfigFields w) -> Name field = "env" -> Required field = false)
  /\ (forall envs,
        Validator.validateConfig w (withEnv envs c)
        = Validator.validateConfig w c)
  /\ (ArtifactName c <> "" -> HelmFlavour c <> "" ->
      KubernetesConfig c <> "" -> KubernetesContext c <> "" ->
      Validator.validateConfig w c = ([], None))
  /\ value (HelmRunner.collectValuesFiles w c)
     = Ok (if statIsNil (Stat w HelmRunner.baseValues)
           then [HelmRunner.baseValues] else [])
  /\ statted (trace (HelmRunner.collectValuesFiles w c))
     = [HelmRunner.baseValues]
  /\ (forall args,
        value (deployArgs w c) = Ok args ->
        exists imageArgs,
          value (HelmRunner.buildImageArgs w c) = Ok imageArgs
          /\ args
             = ["upgrade"; "--install"; ArtifactName c; ChartPath c;
                "--kubeconfig"; KubernetesConfig c]
               ++ (if Str.isEmpty (KubernetesContext c) then []
                   else ["--kube-context"; KubernetesContext c])
               ++ (if statIsNil (Stat w HelmRunner.baseValues)
                   then ["--values"; HelmRunner.baseValues] else [])
               ++ imageArgs)
  /\ statted (trace (HelmRunner.Run w c))
     = (if statIsNotExist (Stat w (ChartPath c)) then [ChartPath c]
        else [ChartPath c; HelmRunner.baseValues; "Dockerfile"])
  /\ (forall imageArgs,
        statIsNotExist (Stat w (ChartPath c)) = false ->
        value (HelmRunner.buildImageArgs w c) = Ok imageArgs ->
        let args :=
          ["upgrade"; "--install"; ArtifactName c; ChartPath c;
           "--kubeconfig"; KubernetesConfig c]
          ++ (if Str.isEmpty (KubernetesContext c) then []
              else ["--kube-context"; KubernetesContext c])
          ++ (if statIsNil (Stat w HelmRunner.baseValues)
              then ["--values"; HelmRunner.baseValues] else [])
          ++ imageArgs in
        (DryRun c = false ->
         spawned (trace (HelmRunner.Run w c)) = [("helm", args)]
         /\ value (HelmRunner.Run w c)
            = match cmdRun w "helm" args with
              | Some msg =>
                  Some (Wrapf "helm deployment failed: "
                              (LibError FromExec msg) "")
              | None => None
              end)
        /\ (DryRun c = true ->
            spawned (trace (HelmRunner.Run w c)) = []
            /\ value (HelmRunner.Run w c) = None
            /\ exists before,
                 trace (HelmRunner.Run w c)
                 = before ++ plannedDeploy (args ++ ["--dry-run"]))).
Proof.
  intros Henv.
  destruct (collectValuesFiles_eq w c) as [Hval Hstat].
  rewrite Henv in Hval, Hstat.
  assert (Hvector : forall args,
    value (deployArgs w c) = Ok args ->
    exists imageArgs,
      value (HelmRunner.buildImageArgs w c) = Ok imageArgs
      /\ args
         = ["upgrade"; "--install"; ArtifactName c; ChartPath c;
            "--kubeconfig"; KubernetesConfig c]
           ++ (if Str.isEmpty (KubernetesContext c) then []
               else ["--kube-context"; KubernetesContext c])
           ++ (if statIsNil (Stat w HelmRunner.baseValues)
               then ["--values"; HelmRunner.baseValues] else [])
           ++ imageArgs).
  { intros args Hargs. rewrite deployArgs_value, Hval in Hargs.
    destruct (statIsNotExist (Stat w (ChartPath c))); [discriminate|].
    change (value (HelmRunner.collectEnvFiles w [] (baseFiles w)))
      with (@Ok (list string) (baseFiles w)) in Hargs.
    cbv beta iota in Hargs.
    destruct (value (HelmRunner.buildImageArgs w c)) as [imageArgs|e];
      [|discriminate].
    exists imageArgs. split; [reflexivity|].
    inversion Hargs as [Heq]. clear Hargs.
    unfold HelmRunner.buildArgs, baseFiles.
    destruct (Str.isEmpty (KubernetesContext c)),
      (statIsNil (Stat w HelmRunner.baseValues)); simpl;
      rewrite <- ?app_assoc; reflexivity. }
  split.
  { intros field Hin Hname. simpl in Hin.
    repeat (destruct Hin as [<-|Hin];
            [simpl in *; first [reflexivity | discriminate Hname]|]).
    destruct Hin. }
  split; [reflexivity|].
  split.
  { intros Ha Hf Hk Hx. rewrite validateConfig_eq.
    apply isEmpty_false in Ha, Hf, Hk, Hx. now rewrite Ha, Hf, Hk, Hx. }
  split; [rewrite Hval; reflexivity|].
  split; [rewrite Hstat; reflexivity|].
  split; [exact Hvector|].
  split; [exact (Run_stats_no_environment w c Henv)|].
  intros imageArgs Hchart Himage args.
  assert (Hargs : exists args', value (deployArgs w c) = Ok args').
  { rewrite deployArgs_value, Hchart, Hval.
    change (value (HelmRunner.collectEnvFiles w [] (baseFiles w)))
      with (@Ok (list string) (baseFiles w)).
    cbv beta iota. rewrite Himage. eauto. }
  destruct Hargs as [args' Hargs].
  destruct (Hvector args' Hargs) as (imageArgs' & Himage' & Heq).
  rewrite Himage in Himage'. inversion Himage'; subst imageArgs'.
  fold args in Heq. subst args'.
  assert (Hrun : HelmRunner.Run w c
                 = (trace (deployArgs w c)
                      ++ trace (HelmRunner.execute w c args),
                    value (HelmRunner.execute w c args))).
  { rewrite Run_deployArgs, Hargs. reflexivity. }
  split.
  - intros Hreal. destruct (execute_real w c args Hreal) as [Hsp Hv].
    split.
    + rewrite Hrun. unfold trace at 1. cbn [fst].
      now rewrite spawned_app, (deployArgs_spawns_nothing w c), Hsp.
    + rewrite Hrun. unfold value at 1. cbn [snd]. exact Hv.
  - intros Hdry. rewrite Hrun, (execute_dry_run w c args Hdry).
    unfold trace at 1 3 4, value. cbn [fst snd].
    split; [|split; [reflexivity|eexists; reflexivity]].
    rewrite spawned_app, (deployArgs_spawns_nothing w c).
    unfold plannedDeploy. cbn [app spawned]. apply spawned_logs.
Qed.

Lemma no_environment_requested_witness :
  Validator.validateConfig Sample.host (withEnv [] Sample.config)
  = ([], None)
  /\ value (HelmRunner.collectValuesFiles Sample.host
              (withEnv [] Sample.config))
     = Ok [".dockwright/helm/values.yaml"]
  /\ spawned (trace (HelmRunner.Run Sample.host (withEnv [] Sample.config)))
     = [("helm",
         ["upgrade"; "--install"; "svc";
          "/usr/local/share/dockwright/charts/stateless";
          "--kubeconfig"; "/home/dev/.kube/config";
          "--kube-context"; "dev";
          "--values"; ".dockwright/helm/values.yaml";
          "--set"; "image.repository=reg.example.com/acme/svc";
          "--set"; "image.tag=latest"])].
Proof.
  destruct (no_environment_requested Sample.host (withEnv [] Sample.config)
              eq_refl) as (_ & _ & Hpass & Hfiles & _ & _ & _ & Hrun).
  split; [|split].
  - apply Hpass; vm_compute; discriminate.
  - exact Hfiles.
  - exact (proj1 (proj1 (Hrun ["--set";
                               "image.repository=reg.example.com/acme/svc";
                               "--set"; "image.tag=latest"]
                           eq_refl eq_refl) eq_refl)).
Defined.

(** * Further properties *)

(** ** List coercion *)

Lemma Split_free (sep : ascii) (s : string) :
  freeOf sep s -> Str.Split s sep = [s].
Proof.
  unfold freeOf. induction s as [|c r IH]; intros Hfree; [reflexivity|].
  simpl in *. destruct (Ascii.eqb_spec c sep) as [->|Hne].
  - exfalso. apply Hfree. now left.
  - rewrite IH; [reflexivity|]. intros Hin. apply Hfree. now right.
Qed.

Lemma Split_app_sep (sep : ascii) (s rest : string) :
  freeOf sep s ->
  Str.Split (s +:+ String sep rest) sep = s :: Str.Split rest sep.
Proof.
  unfold freeOf. induction s as [|c r IH]; intros Hfree; simpl in *.
  - now rewrite Ascii.eqb_refl.
  - destruct (Ascii.eqb_spec c sep) as [->|Hne].
    + exfalso. apply Hfree. now left.
    + rewrite IH; [reflexivity|]. intros Hin. apply Hfree. now right.
Qed.

(** The pieces of a split hold no separator. *)
Lemma Split_pieces_free (sep : ascii) (s : string) :
  Forall (freeOf sep) (Str.Split s sep).
Proof.
  unfold freeOf. induction s as [|c r IH]; simpl.
  - constructor; [intros []|constructor].
  - destruct (Ascii.eqb_spec c sep) as [->|Hne].
    + constructor; [intros []|exact IH].
    + destruct (Str.Split r sep) as [|h t]; inversion IH; subst.
      * constructor; [|constructor]. simpl. intros [H|[]]. congruence.
      * constructor; [|assumption]. simpl. intros [H|H]; [congruence|auto].
Qed.

(** Splitting a joined list gives the list back. *)
Lemma Split_Join (sep : ascii) (items : list string) :
  items <> [] ->
  Forall (freeOf sep) items ->
  Str.Split (Str.Join items (String sep "")) sep = items.
Proof.
  induction items as [|x r IH]; intros Hne Hall; [congruence|].
  inversion Hall as [|? ? Hx Hr]; subst.
  destruct r as [|y r'].
  - simpl. now apply Split_free.
  - change (Str.Join (x :: y :: r') (String sep ""))
      with (x +:+ String sep (Str.Join (y :: r') (String sep ""))).
    rewrite Split_app_sep by assumption.
    rewrite IH; [reflexivity|discriminate|assumption].
Qed.

Lemma parseItems_acc (pieces : list string) : forall items,
  parseItems pieces items = items ++ parseItems pieces [].
Proof.
  induction pieces as [|p r IH]; intros items; simpl.
  - now rewrite app_nil_r.
  - destruct (Str.isEmpty (TrimSpace p)); simpl.
    + apply IH.
    + rewrite IH, (IH [TrimSpace p]). now rewrite app_assoc.
Qed.

(** Trimming keeps bytes of the string only. *)
Lemma trimLeft_incl : forall (n : nat) (s : list nat),
  length s <= n -> forall x, In x (Unicode.trimLeft s) -> In x s.
Proof.
  induction n as [|n IH]; intros s Hlen x Hin.
  - destruct s; [exact Hin|simpl in Hlen; lia].
  - destruct s as [|a [|b [|c r]]]; simpl in *.
    + exact Hin.
    + destruct (Unicode.isSpace1 a); [destruct Hin|exact Hin].
    + destruct (Unicode.isSpace1 a).
      * right. apply (IH [b]); [simpl; lia|exact Hin].
      * destruct (Unicode.isSpace2 a b); [destruct Hin|exact Hin].
    + destruct (Unicode.isSpace1 a).
      * right. apply (IH (b :: c :: r)); [simpl; lia|exact Hin].
      * destruct (Unicode.isSpace2 a b).
        -- right. right. apply (IH (c :: r)); [simpl; lia|exact Hin].
        -- destruct (Unicode.isSpace3 a b c); [|exact Hin].
           right. right. right. apply (IH r); [simpl; lia|exact Hin].
Qed.

Lemma trimRightRev_incl : forall (n : nat) (s : list nat),
  length s <= n -> forall x, In x (Unicode.trimRightRev s) -> In x s.
Proof.
  induction n as [|n IH]; intros s Hlen x Hin.
  - destruct s; [exact Hin|simpl in Hlen; lia].
  - destruct s as [|a [|b [|c r]]]; simpl in *.
    + exact Hin.
    + destruct (Unicode.isSpace1 a); [destruct Hin|exact Hin].
    + destruct (Unicode.isSpace1 a).
      * right. apply (IH [b]); [simpl; lia|exact Hin].
      * destruct (Unicode.isSpace2 b a); [destruct Hin|exact Hin].
    + destruct (Unicode.isSpace1 a).
      * right. apply (IH (b :: c :: r)); [simpl; lia|exact Hin].
      * destruct (Unicode.isSpace2 b a).
        -- right. right. apply (IH (c :: r)); [simpl; lia|exact Hin].
        -- destruct (Unicode.isSpace3 c b a); [|exact Hin].
           right. right. right. apply (IH r); [simpl; lia|exact Hin].
Qed.

Lemma TrimSpace_free (sep : ascii) (s : string) :
  freeOf sep s -> freeOf sep (TrimSpace s).
Proof.
  unfold freeOf, TrimSpace, Unicode.ofBytes, Unicode.bytes.
  intros Hfree Hin. apply Hfree. clear Hfree.
  rewrite list_ascii_of_string_of_list_ascii in Hin.
  apply in_map_iff in Hin. destruct Hin as (x & Hx & Hin).
  apply in_rev in Hin.
  apply (trimRightRev_incl _ _ (le_n _)) in Hin. apply in_rev in Hin.
  apply (trimLeft_incl _ _ (le_n _)) in Hin.
  apply in_map_iff in Hin. destruct Hin as (a & Ha & Hin).
  subst. now rewrite ascii_nat_embedding.
Qed.

(** X1. No item of a parsed list is empty or holds the separator, and each
    is the trimmed form of a piece of the input. *)
Theorem parseList_items (value : string) (sep : ascii) (item : string) :
  In item (parseList value sep) ->
  item <> ""
  /\ freeOf sep item
  /\ exists piece, In piece (Str.Split value sep) /\ item = TrimSpace piece.
Proof.
  unfold parseList. destruct (Str.isEmpty value); [intros []|].
  pose proof (Split_pieces_free sep value) as Hfree. revert Hfree.
  generalize (Str.Split value sep) as pieces.
  induction pieces as [|p r IH]; intros Hfree Hin; simpl in Hin; [destruct Hin|].
  inversion Hfree as [|? ? Hp Hr]; subst.
  destruct (Str.isEmpty (TrimSpace p)) eqn:Hemp; simpl in Hin.
  - destruct (IH Hr Hin) as (Hne & Hf & piece & Hpiece & Heq).
    repeat split; auto. exists piece. split; [now right|assumption].
  - rewrite parseItems_acc in Hin. destruct Hin as [<-|Hin].
    + split; [now apply isEmpty_false|]. split; [now apply TrimSpace_free|].
      exists p. split; [now left|reflexivity].
    + destruct (IH Hr Hin) as (Hne & Hf & piece & Hpiece & Heq).
      repeat split; auto. exists piece. split; [now right|assumption].
Qed.

Lemma parseList_items_witness :
  "b" <> "" /\ freeOf ","%char "b".
Proof.
  destruct (parseList_items "a, b ,,c" ","%char "b") as (Hne & Hfree & _).
  - vm_compute. tauto.
  - split; assumption.
Defined.

(** X2. A list of trimmed, non-empty, comma-free items, joined by commas,
    parses back to the same list: order and duplicates are kept. *)
Theorem parseList_Join (items : list string) :
  items <> [] ->
  Forall (fun item => item <> "" /\ freeOf ","%char item
                      /\ TrimSpace item = item) items ->
  parseList (Str.Join items ",") ","%char = items.
Proof.
  intros Hne Hall. unfold parseList.
  assert (Hnonempty : Str.isEmpty (Str.Join items ",") = false).
  { destruct items as [|x r]; [congruence|].
    inversion Hall as [|? ? (Hx & _) _]; subst.
    destruct x as [|c x']; [congruence|].
    destruct r; reflexivity. }
  rewrite Hnonempty.
  rewrite (Split_Join ","%char items Hne).
  2: { eapply Forall_impl; [exact Hall|]. intros a (_ & Hf & _). exact Hf. }
  clear Hne Hnonempty. induction Hall as [|x r (Hx & _ & Htrim) Hr IH];
    [reflexivity|].
  simpl. rewrite Htrim. apply isEmpty_false in Hx. rewrite Hx. simpl.
  rewrite parseItems_acc, IH. reflexivity.
Qed.

Lemma parseList_Join_witness :
  parseList "staging,staging,production" ","%char
  = ["staging"; "staging"; "production"].
Proof.
  apply (parseList_Join ["staging"; "staging"; "production"]);
    [discriminate|].
  repeat constructor; try discriminate; vm_compute; intuition discriminate.
Defined.

(** ** Loading the configuration *)

(** setConfigField on an entry of the registry, by the entry's name. *)
Lemma setConfigField_by_name (cfg : Config) (field : ConfigField)
    (value : string) :
  (Name field = "artifactName" ->
   setConfigField cfg field value
   = Ok {| ArtifactName := value; HelmFlavour := HelmFlavour cfg;
           DockerNamespace := DockerNamespace cfg;
           DockerHost := DockerHost cfg;
           KubernetesConfig := KubernetesConfig cfg;
           KubernetesContext := KubernetesContext cfg; Env := Env cfg;
           DryRun := DryRun cfg; RunDockerBuild := RunDockerBuild cfg;
           AutoApprove := AutoApprove cfg |})
  /\ (Name field = "helmFlavour" ->
      setConfigField cfg field value
      = Ok {| ArtifactName := ArtifactName cfg; HelmFlavour := value;
              DockerNamespace := DockerNamespace cfg;
              DockerHost := DockerHost cfg;
              KubernetesConfig := KubernetesConfig cfg;
              KubernetesContext := KubernetesContext cfg; Env := Env cfg;
              DryRun := DryRun cfg; RunDockerBuild := RunDockerBuild cfg;
              AutoApprove := AutoApprove cfg |})
  /\ (Name field = "dockerNamespace" ->
      setConfigField cfg field value
      = Ok {| ArtifactName := ArtifactName cfg; HelmFlavour := HelmFlavour cfg;
              DockerNamespace := value; DockerHost := DockerHost cfg;
              KubernetesConfig := KubernetesConfig cfg;
              KubernetesContext := KubernetesContext cfg; Env := Env cfg;
              DryRun := DryRun cfg; RunDockerBuild := RunDockerBuild cfg;
              AutoApprove := AutoApprove cfg |})
  /\ (Name field = "dockerHost" ->
      setConfigField cfg field value
      = Ok {| ArtifactName := ArtifactName cfg; HelmFlavour := HelmFlavour cfg;
              DockerNamespace := DockerNamespace cfg; DockerHost := value;
              KubernetesConfig := KubernetesConfig cfg;
              KubernetesContext := KubernetesContext cfg; Env := Env cfg;
              DryRun := DryRun cfg; RunDockerBuild := RunDockerBuild cfg;
              AutoApprove := AutoApprove cfg |})
  /\ (Name field = "kubernetesConfig" ->
      setConfigField cfg field value
      = Ok {| ArtifactName := ArtifactName cfg; HelmFlavour := HelmFlavour cfg;
              DockerNamespace := DockerNamespace cfg;
              DockerHost := DockerHost cfg; KubernetesConfig := value;
              KubernetesContext := KubernetesContext cfg; Env := Env cfg;
              DryRun := DryRun cfg; RunDockerBuild := RunDockerBuild cfg;
              AutoApprove := AutoApprove cfg |})
  /\ (Name field = "kubernetesContext" ->
      setConfigField cfg field value
      = Ok {| ArtifactName := ArtifactName cfg; HelmFlavour := HelmFlavour cfg;
              DockerNamespace := DockerNamespace cfg;
              DockerHost := DockerHost cfg;
              KubernetesConfig := KubernetesConfig cfg;
              KubernetesContext := value; Env := Env cfg;
              DryRun := DryRun cfg; RunDockerBuild := RunDockerBuild cfg;
              AutoApprove := AutoApprove cfg |})
  /\ (Name field = "env" ->
      setConfigField cfg field value
      = Ok {| ArtifactName := ArtifactName cfg; HelmFlavour := HelmFlavour cfg;
              DockerNamespace := DockerNamespace cfg;
              DockerHost := DockerHost cfg;
              KubernetesConfig := KubernetesConfig cfg;
              KubernetesContext := KubernetesContext cfg;
              Env := parseList value ","%char;
              DryRun := DryRun cfg; RunDockerBuild := RunDockerBuild cfg;
              AutoApprove := AutoApprove cfg |})
  /\ (Name field = "dryRun" ->
      setConfigField cfg field value
      = Ok {| ArtifactName := ArtifactName cfg; HelmFlavour := HelmFlavour cfg;
              DockerNamespace := DockerNamespace cfg;
              DockerHost := DockerHost cfg;
              KubernetesConfig := KubernetesConfig cfg;
              KubernetesContext := KubernetesContext cfg; Env := Env cfg;
              DryRun := parseBool value; RunDockerBuild := RunDockerBuild cfg;
              AutoApprove := AutoApprove cfg |})
  /\ (Name field = "runDockerBuild" ->
      setConfigField cfg field value
      = Ok {| ArtifactName := ArtifactName cfg; HelmFlavour := HelmFlavour cfg;
              DockerNamespace := DockerNamespace cfg;
              DockerHost := DockerHost cfg;
              KubernetesConfig := KubernetesConfig cfg;
              KubernetesContext := KubernetesContext cfg; Env := Env cfg;
              DryRun := DryRun cfg; RunDockerBuild := parseBool value;
              AutoApprove := AutoApprove cfg |})
  /\ (Name field = "autoApprove" ->
      setConfigField cfg field value
      = Ok {| ArtifactName := ArtifactName cfg; HelmFlavour := HelmFlavour cfg;
              DockerNamespace := DockerNamespace cfg;
              DockerHost := DockerHost cfg;
              KubernetesConfig := KubernetesConfig cfg;
              KubernetesContext := KubernetesContext cfg; Env := Env cfg;
              DryRun := DryRun cfg; RunDockerBuild := RunDockerBuild cfg;
              AutoApprove := parseBool value |}).
Proof.
  repeat split; intros Hname; unfold setConfigField; rewrite Hname;
    reflexivity.
Qed.

(** The loop of LoadConfig over ten entries named as the registry names
    them. *)
Lemma loadFields_registry (cmd : option Command) (v : viper.State)
    (f0 f1 f2 f3 f4 f5 f6 f7 f8 f9 : ConfigField) :
  Name f0 = "artifactName" -> Name f1 = "helmFlavour" ->
  Name f2 = "dockerNamespace" -> Name f3 = "dockerHost" ->
  Name f4 = "kubernetesConfig" -> Name f5 = "kubernetesContext" ->
  Name f6 = "env" -> Name f7 = "dryRun" -> Name f8 = "runDockerBuild" ->
  Name f9 = "autoApprove" ->
  loadFields cmd v [f0; f1; f2; f3; f4; f5; f6; f7; f8; f9] zeroConfig
  = Ok {| ArtifactName := resolveFieldValue cmd v f0;
          HelmFlavour := resolveFieldValue cmd v f1;
          DockerNamespace := resolveFieldValue cmd v f2;
          DockerHost := resolveFieldValue cmd v f3;
          KubernetesConfig := resolveFieldValue cmd v f4;
          KubernetesContext := resolveFieldValue cmd v f5;
          Env := parseList (resolveFieldValue cmd v f6) ","%char;
          DryRun := parseBool (resolveFieldValue cmd v f7);
          RunDockerBuild := parseBool (resolveFieldValue cmd v f8);
          AutoApprove := parseBool (resolveFieldValue cmd v f9) |}.
Proof.
  intros H0 H1 H2 H3 H4 H5 H6 H7 H8 H9.
  pose proof (fun cfg value => proj1 (setConfigField_by_name cfg f0 value) H0)
    as E0.
  pose proof (fun cfg value =>
    proj1 (proj2 (setConfigField_by_name cfg f1 value)) H1) as E1.
  pose proof (fun cfg value =>
    proj1 (proj2 (proj2 (setConfigField_by_name cfg f2 value))) H2) as E2.
  pose proof (fun cfg value =>
    proj1 (proj2 (proj2 (proj2 (setConfigField_by_name cfg f3 value)))) H3)
    as E3.
  pose proof (fun cfg value =>
    proj1 (proj2 (proj2 (proj2 (proj2
      (setConfigField_by_name cfg f4 value))))) H4) as E4.
  pose proof (fun cfg value =>
    proj1 (proj2 (proj2 (proj2 (proj2 (proj2
      (setConfigField_by_name cfg f5 value)))))) H5) as E5.
  pose proof (fun cfg value =>
    proj1 (proj2 (proj2 (proj2 (proj2 (proj2 (proj2
      (setConfigField_by_name cfg f6 value))))))) H6) as E6.
  pose proof (fun cfg value =>
    proj1 (proj2 (proj2 (proj2 (proj2 (proj2 (proj2 (proj2
      (setConfigField_by_name cfg f7 value)))))))) H7) as E7.
  pose proof (fun cfg value =>
    proj1 (proj2 (proj2 (proj2 (proj2 (proj2 (proj2 (proj2 (proj2
      (setConfigField_by_name cfg f8 value))))))))) H8) as E8.
  pose proof (fun cfg value =>
    proj2 (proj2 (proj2 (proj2 (proj2 (proj2 (proj2 (proj2 (proj2
      (setConfigField_by_name cfg f9 value))))))))) H9) as E9.
  clear H0 H1 H2 H3 H4 H5 H6 H7 H8 H9.
  cbn [loadFields].
  rewrite E0; cbn [zeroConfig ArtifactName HelmFlavour DockerNamespace
    DockerHost KubernetesConfig KubernetesContext Env DryRun RunDockerBuild
    AutoApprove].
  rewrite E1; cbn [ArtifactName HelmFlavour DockerNamespace
    DockerHost KubernetesConfig KubernetesContext Env DryRun RunDockerBuild
    AutoApprove].
  rewrite E2; cbn [ArtifactName HelmFlavour DockerNamespace
    DockerHost KubernetesConfig KubernetesContext Env DryRun RunDockerBuild
    AutoApprove].
  rewrite E3; cbn [ArtifactName HelmFlavour DockerNamespace
    DockerHost KubernetesConfig KubernetesContext Env DryRun RunDockerBuild
    AutoApprove].
  rewrite E4; cbn [ArtifactName HelmFlavour DockerNamespace
    DockerHost KubernetesConfig KubernetesContext Env DryRun RunDockerBuild
    AutoApprove].
  rewrite E5; cbn [ArtifactName HelmFlavour DockerNamespace
    DockerHost KubernetesConfig KubernetesContext Env DryRun RunDockerBuild
    AutoApprove].
  rewrite E6; cbn [ArtifactName HelmFlavour DockerNamespace
    DockerHost KubernetesConfig KubernetesContext Env DryRun RunDockerBuild
    AutoApprove].
  rewrite E7; cbn [ArtifactName HelmFlavour DockerNamespace
    DockerHost KubernetesConfig KubernetesContext Env DryRun RunDockerBuild
    AutoApprove].
  rewrite E8; cbn [ArtifactName HelmFlavour DockerNamespace
    DockerHost KubernetesConfig KubernetesContext Env DryRun RunDockerBuild
    AutoApprove].
  rewrite E9; cbn [ArtifactName HelmFlavour DockerNamespace
    DockerHost KubernetesConfig KubernetesContext Env DryRun RunDockerBuild
    AutoApprove].
  reflexivity.
Qed.

Lemma LoadConfig_eq (w : World) (cmd : option Command) (v : viper.State) :
  LoadConfig w cmd v
  = Ok {| ArtifactName := resolveFieldValue cmd v (nth 0 (ConfigFields w) Sample.envField);
          HelmFlavour := resolveFieldValue cmd v (nth 1 (ConfigFields w) Sample.envField);
          DockerNamespace := resolveFieldValue cmd v (nth 2 (ConfigFields w) Sample.envField);
          DockerHost := resolveFieldValue cmd v (nth 3 (ConfigFields w) Sample.envField);
          KubernetesConfig := resolveFieldValue cmd v (nth 4 (ConfigFields w) Sample.envField);
          KubernetesContext := resolveFieldValue cmd v (nth 5 (ConfigFields w) Sample.envField);
          Env := parseList (resolveFieldValue cmd v (nth 6 (ConfigFields w) Sample.envField)) ","%char;
          DryRun := parseBool (resolveFieldValue cmd v (nth 7 (ConfigFields w) Sample.envField));
          RunDockerBuild := parseBool (resolveFieldValue cmd v (nth 8 (ConfigFields w) Sample.envField));
          AutoApprove := parseBool (resolveFieldValue cmd v (nth 9 (ConfigFields w) Sample.envField)) |}.
Proof.
  unfold LoadConfig, ConfigFields. cbn [nth].
  apply loadFields_registry; reflexivity.
Qed.

(** X3. LoadConfig never fails on the registry: every entry names a member
    of Config.  Each member then holds the resolved value of its entry:
    as it is for the six string members, through parseList for the
    environments and through parseBool for the three flags. *)
Theorem LoadConfig_populates (w : World) (cmd : option Command)
    (v : viper.State) :
  exists cfg,
    LoadConfig w cmd v = Ok cfg
    /\ forall field,
         In field (ConfigFields w) ->
         (Name field = "artifactName" ->
          ArtifactName cfg = resolveFieldValue cmd v field)
         /\ (Name field = "helmFlavour" ->
             HelmFlavour cfg = resolveFieldValue cmd v field)
         /\ (Name field = "dockerNamespace" ->
             DockerNamespace cfg = resolveFieldValue cmd v field)
         /\ (Name field = "dockerHost" ->
             DockerHost cfg = resolveFieldValue cmd v field)
         /\ (Name field = "kubernetesConfig" ->
             KubernetesConfig cfg = resolveFieldValue cmd v field)
         /\ (Name field = "kubernetesContext" ->
             KubernetesContext cfg = resolveFieldValue cmd v field)
         /\ (Name field = "env" ->
             Env cfg = parseList (resolveFieldValue cmd v field) ","%char)
         /\ (Name field = "dryRun" ->
             DryRun cfg = parseBool (resolveFieldValue cmd v field))
         /\ (Name field = "runDockerBuild" ->
             RunDockerBuild cfg = parseBool (resolveFieldValue cmd v field))
         /\ (Name field = "autoApprove" ->
             AutoApprove cfg = parseBool (resolveFieldValue cmd v field)).
Proof.
  eexists. split; [apply LoadConfig_eq|].
  intros field Hin. cbn [ArtifactName HelmFlavour DockerNamespace DockerHost
    KubernetesConfig KubernetesContext Env DryRun RunDockerBuild AutoApprove].
  unfold ConfigFields in *. cbn [nth]. cbn [In] in Hin.
  repeat (destruct Hin as [<-|Hin];
          [repeat split; intros Hname;
           first [reflexivity | discriminate Hname]|]).
  destruct Hin.
Qed.

(** The sample run: the file's environments and the flag's dry-run. *)
Lemma LoadConfig_populates_witness :
  exists cmd cfg,
    deployCmd Sample.host Sample.cmdline = Some cmd
    /\ LoadConfig Sample.host (Some cmd) Sample.file = Ok cfg
    /\ Env cfg = ["production"] /\ DryRun cfg = false.
Proof.
  destruct (deployCmd Sample.host Sample.cmdline) as [cmd|] eqn:Hcmd;
    [|vm_compute in Hcmd; discriminate].
  destruct (LoadConfig_populates Sample.host (Some cmd) Sample.file)
    as (cfg & Hload & Hfields).
  exists cmd, cfg. split; [reflexivity|]. split; [exact Hload|].
  destruct (Hfields Sample.envField) as (_ & _ & _ & _ & _ & _ & Henv & _);
    [vm_compute; tauto|].
  destruct (Hfields Sample.dryRunField)
    as (_ & _ & _ & _ & _ & _ & _ & Hdry & _); [vm_compute; tauto|].
  rewrite (Henv eq_refl), (Hdry eq_refl).
  vm_compute in Hcmd. inversion Hcmd. split; reflexivity.
Defined.

(** A flag the command line does not mention leaves the field to the file
    and the default. *)
Lemma resolveFieldValue_unmentioned (w : World) (v : viper.State)
    (args : list (string * string)) (cmd : Command) (field : ConfigField) :
  In field (ConfigFields w) ->
  deployCmd w args = Some cmd ->
  assigned args (Flag field) = None ->
  resolveFieldValue (Some cmd) v field
  = if viper.IsSet v (ConfigPath field)
    then viper.GetString v (ConfigPath field) else Default field.
Proof.
  intros Hin Hcmd Hnone. unfold deployCmd, init in Hcmd.
  destruct (registerFlags (ConfigFields w) ∅) as [fs0|] eqn:Hreg;
    [|discriminate].
  simpl in Hcmd.
  destruct (pflag.Parse args fs0) as [fs|] eqn:Hparse; [|discriminate].
  inversion Hcmd; subst cmd; clear Hcmd.
  pose proof (Parse_lookup args fs0 fs (Flag field) Hparse) as Hl.
  rewrite Hnone, (registerFlags_lookup _ _ _ _ Hreg Hin) in Hl.
  unfold resolveFieldValue, pflag.IsChanged; simpl. now rewrite Hl.
Qed.

(** ** What passing the validator means *)

Lemma runChecks_no_error (cks : list Validator.check) : forall rs,
  snd (value (Validator.runChecks cks rs)) = None <-> Forall passes cks.
Proof.
  induction cks as [|ck rest IH]; intros rs.
  - split; [constructor|reflexivity].
  - rewrite runChecks_cons, value_bind.
    destruct (value (Validator.fn ck)) as [e|] eqn:Hck.
    + split; [discriminate|]. intros Hall. inversion Hall as [|? ? Hp _].
      unfold passes in Hp. congruence.
    + rewrite IH. split.
      * intros Hrest. constructor; assumption.
      * intros Hall. now inversion Hall.
Qed.

Lemma validateHelmFlavour_passes (c : Config) :
  value (Validator.validateHelmFlavour c) = None <->
  HelmFlavour c = "stateful" \/ HelmFlavour c = "stateless".
Proof.
  unfold Validator.validateHelmFlavour.
  destruct (String.eqb_spec (HelmFlavour c) "stateful") as [->|H1];
    [simpl; tauto|].
  destruct (String.eqb_spec (HelmFlavour c) "stateless") as [->|H2];
    [simpl; tauto|].
  simpl. split; [discriminate|tauto].
Qed.

Lemma validateConfig_passes (w : World) (c : Config) :
  value (Validator.validateConfig w c) = None <->
  ArtifactName c <> "" /\ HelmFlavour c <> "" /\ KubernetesConfig c <> ""
  /\ KubernetesContext c <> "".
Proof.
  rewrite validateConfig_eq. unfold value. cbn [snd].
  rewrite <- !isEmpty_false.
  destruct (Str.isEmpty (ArtifactName c)), (Str.isEmpty (HelmFlavour c)),
    (Str.isEmpty (KubernetesConfig c)), (Str.isEmpty (KubernetesContext c));
    split; try discriminate; try tauto; intros (? & ? & ? & ?); discriminate.
Qed.

Lemma validateEnvVars_passes (w : World) :
  value (Validator.validateEnvVars w) = None <->
  Getenv w "REGISTRY_USERNAME" <> "" /\ Getenv w "REGISTRY_PASSWORD" <> "".
Proof.
  unfold Validator.validateEnvVars, value, ret. cbn [snd Validator.checkEnvVars].
  rewrite <- !isEmpty_false.
  destruct (Str.isEmpty (Getenv w "REGISTRY_USERNAME")),
    (Str.isEmpty (Getenv w "REGISTRY_PASSWORD"));
    split; try discriminate; try tauto; intros (? & ?); discriminate.
Qed.

Lemma validateEnvValueFilesLoop_step (w : World) (env : string)
    (rest : list string) :
  Validator.validateEnvValueFilesLoop w (env :: rest)
  = if statIsNotExist (Stat w (HelmRunner.envValues env))
    then ([EvStat (HelmRunner.envValues env)],
          Some (Errorf ("environment values file not found at path: "
                 +:+ HelmRunner.envValues env
                 +:+ ". Please ensure the file exists in the .dockwright/helm directory")))
    else (EvStat (HelmRunner.envValues env)
          :: trace (Validator.validateEnvValueFilesLoop w rest),
          value (Validator.validateEnvValueFilesLoop w rest)).
Proof.
  change (Validator.validateEnvValueFilesLoop w (env :: rest))
    with (st <- osStat w (Validator.envValuesPath env) ;;
          if statIsNotExist st then
            ret (Some (Errorf ("environment values file not found at path: "
                   +:+ Validator.envValuesPath env
                   +:+ ". Please ensure the file exists in the .dockwright/helm directory")))
          else Validator.validateEnvValueFilesLoop w rest).
  change (Validator.envValuesPath env) with (HelmRunner.envValues env).
  unfold osStat, emit, ret, trace, value, bind. cbn [fst snd app].
  destruct (statIsNotExist (Stat w (HelmRunner.envValues env))); reflexivity.
Qed.

Lemma validateEnvValueFiles_passes (w : World) (c : Config) :
  value (Validator.validateEnvValueFiles w c) = None <->
  Forall (fun env => Stat w (HelmRunner.envValues env) <> StatNotExist) (Env c).
Proof.
  unfold Validator.validateEnvValueFiles.
  induction (Env c) as [|env rest IH].
  - split; [constructor|reflexivity].
  - rewrite validateEnvValueFilesLoop_step.
    destruct (Stat w (HelmRunner.envValues env)) eqn:Hst;
      cbn [statIsNotExist]; unfold value in *; cbn [snd].
    + rewrite IH. split.
      * intros Hrest. constructor; [congruence|assumption].
      * intros Hall. now inversion Hall.
    + split; [discriminate|]. intros Hall. inversion Hall. congruence.
    + rewrite IH. split.
      * intros Hrest. constructor; [congruence|assumption].
      * intros Hall. now inversion Hall.
Qed.

Lemma existsb_name (ctx : string) (names : list string) :
  existsb (fun name => name =? ctx) names = true <-> In ctx names.
Proof.
  rewrite existsb_exists. split.
  - intros (x & Hin & Heq). apply String.eqb_eq in Heq. now subst.
  - intros Hin. exists ctx. split; [assumption|apply String.eqb_refl].
Qed.

Lemma validateKubeContext_passes (w : World) (c : Config) :
  value (Validator.validateKubeContext w c) = None <->
  KubernetesContext c = ""
  \/ exists content names,
       ReadFile w (KubernetesConfig c) = Ok content
       /\ yamlContextNames w content = Ok names
       /\ In (KubernetesContext c) names.
Proof.
  unfold Validator.validateKubeContext.
  destruct (Str.isEmpty (KubernetesContext c)) eqn:Hctx.
  - apply isEmpty_true in Hctx. split; [auto|reflexivity].
  - apply isEmpty_false in Hctx.
    destruct (ReadFile w (KubernetesConfig c)) as [content|e].
    2: { split; [discriminate|]. intros [H|(? & ? & H & _)];
         [contradiction|discriminate]. }
    destruct (yamlContextNames w content) as [names|e] eqn:Hyaml.
    2: { split; [discriminate|]. intros [H|(? & ? & H1 & H2 & _)];
         [contradiction|]. inversion H1; subst. congruence. }
    destruct (existsb (fun name => name =? KubernetesContext c) names)
      eqn:Hex.
    + apply existsb_name in Hex. split; [|reflexivity].
      intros _. right. eauto.
    + split; [discriminate|]. intros [H|(? & ? & H1 & H2 & Hin)];
        [contradiction|]. inversion H1; subst.
      rewrite Hyaml in H2. inversion H2; subst.
      apply existsb_name in Hin. congruence.
Qed.

Lemma validateTools_passes (w : World) :
  value (Validator.validateTools w) = None <->
  LookPath w "docker" = true /\ LookPath w "helm" = true
  /\ cmdRun w "docker" ["info"] = None.
Proof.
  unfold Validator.validateTools. cbn [Validator.lookTools].
  destruct (LookPath w "docker"), (LookPath w "helm");
    try (split; [discriminate|intros (? & ? & ?); discriminate]).
  destruct (cmdRun w "docker" ["info"]); cbn.
  - split; [discriminate|intros (_ & _ & ?); discriminate].
  - tauto.
Qed.

(** The effects of a run of the checks are those of the first few checks
    of the table. *)
Lemma runChecks_trace_firstn (cks : list Validator.check) : forall rs,
  exists n, trace (Validator.runChecks cks rs) = effects (firstn n cks).
Proof.
  induction cks as [|ck rest IH]; intros rs.
  - exists 0. reflexivity.
  - rewrite runChecks_cons, trace_bind.
    destruct (value (Validator.fn ck)) as [e|].
    + exists 1. unfold effects. cbn. now rewrite !app_nil_r.
    + destruct (IH (rs ++ [Validator.resultOf ck None])) as [n Hn].
      exists (S n). rewrite Hn. reflexivity.
Qed.

(** The validator starts at most one process, the liveness probe. *)
Lemma ValidateAll_spawns (w : World) (c : Config) :
  spawned (trace (Validator.ValidateAll w c)) = []
  \/ spawned (trace (Validator.ValidateAll w c)) = [dockerInfo].
Proof.
  assert (Hfiles : forall envs,
    spawned (trace (Validator.validateEnvValueFilesLoop w envs)) = []).
  { induction envs as [|env rest IH]; [reflexivity|].
    rewrite validateEnvValueFilesLoop_step.
    destruct (statIsNotExist (Stat w (HelmRunner.envValues env)));
      [reflexivity|exact IH]. }
  assert (Hflavour : trace (Validator.validateHelmFlavour c) = []).
  { unfold Validator.validateHelmFlavour.
    destruct (negb _ && negb _); reflexivity. }
  assert (Hkube : trace (Validator.validateKubeContext w c) = []).
  { unfold Validator.validateKubeContext.
    destruct (Str.isEmpty (KubernetesContext c)); [reflexivity|].
    destruct (ReadFile w (KubernetesConfig c)) as [content|]; [|reflexivity].
    destruct (yamlContextNames w content) as [names|]; [|reflexivity].
    destruct (existsb _ names); reflexivity. }
  assert (Htools : spawned (trace (Validator.validateTools w)) = []
                   \/ spawned (trace (Validator.validateTools w))
                      = [dockerInfo]).
  { unfold Validator.validateTools. cbn [Validator.lookTools].
    destruct (LookPath w "docker"), (LookPath w "helm"); auto.
    destruct (cmdRun w "docker" ["info"]); right; reflexivity. }
  unfold Validator.ValidateAll.
  destruct (runChecks_trace_firstn (Validator.checks w c) []) as [n ->].
  unfold Validator.checks, effects.
  destruct n as [|[|[|[|[|[|n]]]]]]; cbn [firstn map concat Validator.fn];
    rewrite ?Hflavour, ?Hkube; unfold Validator.validateEnvValueFiles;
    change (trace (Validator.validateConfig w c)) with (@nil Event);
    change (trace (Validator.validateEnvVars w)) with (@nil Event);
    cbn [app]; rewrite ?spawned_app, ?Hfiles, ?app_nil_r; cbn [app spawned];
    auto.
  destruct n; cbn [firstn map concat]; rewrite ?app_nil_r; exact Htools.
Qed.

Lemma ValidateAll_no_error (w : World) (c : Config) :
  snd (value (Validator.ValidateAll w c)) = None <->
  value (Validator.validateConfig w c) = None
  /\ value (Validator.validateHelmFlavour c) = None
  /\ value (Validator.validateEnvVars w) = None
  /\ value (Validator.validateEnvValueFiles w c) = None
  /\ value (Validator.validateKubeContext w c) = None
  /\ value (Validator.validateTools w) = None.
Proof.
  unfold Validator.ValidateAll. rewrite runChecks_no_error.
  unfold Validator.checks, passes. split.
  - intros Hall.
    repeat (match goal with
            | H : Forall _ (_ :: _) |- _ => inversion H; clear H; subst
            end).
    cbn [Validator.fn] in *. tauto.
  - intros (H1 & H2 & H3 & H4 & H5 & H6). repeat constructor; assumption.
Qed.

(** X4. The validator reports no error exactly when: the artifact name,
    the kubeconfig path and the context are set; the flavour is stateful
    or stateless; both registry credentials are set; no requested
    environment's values file is reported missing; the kubeconfig can be
    read and parsed and lists the context; docker and helm are on the path
    and [docker info] succeeds. *)
Theorem ValidateAll_passes_iff (w : World) (c : Config) :
  snd (value (Validator.ValidateAll w c)) = None <->
  (ArtifactName c <> "" /\ KubernetesConfig c <> ""
   /\ KubernetesContext c <> "")
  /\ (HelmFlavour c = "stateful" \/ HelmFlavour c = "stateless")
  /\ (Getenv w "REGISTRY_USERNAME" <> "" /\ Getenv w "REGISTRY_PASSWORD" <> "")
  /\ Forall (fun env => Stat w (HelmRunner.envValues env) <> StatNotExist)
       (Env c)
  /\ (exists content names,
        ReadFile w (KubernetesConfig c) = Ok content
        /\ yamlContextNames w content = Ok names
        /\ In (KubernetesContext c) names)
  /\ (LookPath w "docker" = true /\ LookPath w "helm" = true
      /\ cmdRun w "docker" ["info"] = None).
Proof.
  rewrite ValidateAll_no_error, validateConfig_passes,
    validateHelmFlavour_passes, validateEnvVars_passes,
    validateEnvValueFiles_passes, validateKubeContext_passes,
    validateTools_passes.
  split.
  - intros ((Ha & Hf & Hk & Hx) & Hfl & Hcred & Hfiles & Hctx & Htools).
    destruct Hctx as [Hctx|Hctx]; [contradiction|]. tauto.
  - intros ((Ha & Hk & Hx) & Hfl & Hcred & Hfiles & Hctx & Htools).
    repeat split; try tauto.
    destruct Hfl as [Hfl|Hfl]; rewrite Hfl; discriminate.
Qed.

(** The sample configuration passes on the sample host. *)
Example ValidateAll_passes_sample :
  snd (value (Validator.ValidateAll Sample.host Sample.config)) = None.
Proof. reflexivity. Qed.

Lemma ChartPath_flavour (c : Config) :
  HelmFlavour c = "stateful" \/ HelmFlavour c = "stateless" ->
  ChartPath c = "/usr/local/share/dockwright/charts/" +:+ HelmFlavour c.
Proof. unfold ChartPath. intros [->| ->]; reflexivity. Qed.

(** X5. After a passed validation the deploy vector always names the
    chart of the validated flavour under the install root and carries the
    context explicitly: it begins [upgrade --install <artifact>
    /usr/local/share/dockwright/charts/<flavour> --kubeconfig <path>
    --kube-context <ctx>], and none of these arguments is empty. *)
Theorem validated_deploy_prefix (w : World) (c : Config)
    (args : list string) :
  snd (value (Validator.ValidateAll w c)) = None ->
  value (deployArgs w c) = Ok args ->
  exists rest,
    args = ["upgrade"; "--install"; ArtifactName c;
            "/usr/local/share/dockwright/charts/" +:+ HelmFlavour c;
            "--kubeconfig"; KubernetesConfig c;
            "--kube-context"; KubernetesContext c] ++ rest
    /\ ArtifactName c <> "" /\ KubernetesConfig c <> ""
    /\ KubernetesContext c <> "".
Proof.
  intros Hvalid Hargs.
  apply ValidateAll_no_error in Hvalid.
  destruct Hvalid as (Hcfg & Hfl & _).
  apply validateConfig_passes in Hcfg. destruct Hcfg as (Ha & _ & Hk & Hx).
  apply validateHelmFlavour_passes in Hfl.
  rewrite deployArgs_value in Hargs.
  destruct (statIsNotExist (Stat w (ChartPath c))); [discriminate|].
  destruct (value (HelmRunner.collectValuesFiles w c)) as [files|];
    [|discriminate].
  destruct (value (HelmRunner.buildImageArgs w c)) as [imageArgs|];
    [|discriminate].
  inversion Hargs as [Heq]. clear Hargs.
  exists (HelmRunner.valuesFlags files ++ imageArgs).
  split; [|tauto].
  unfold HelmRunner.buildArgs. rewrite (ChartPath_flavour c Hfl).
  apply isEmpty_false in Hx. rewrite Hx. cbn [negb].
  rewrite <- !app_assoc. reflexivity.
Qed.

Lemma validated_deploy_prefix_witness :
  exists rest,
    ["upgrade"; "--install"; "svc";
     "/usr/local/share/dockwright/charts/stateless";
     "--kubeconfig"; "/home/dev/.kube/config"; "--kube-context"; "dev";
     "--values"; ".dockwright/helm/values.yaml";
     "--values"; ".dockwright/helm/staging.values.yaml";
     "--set"; "image.repository=reg.example.com/acme/svc";
     "--set"; "image.tag=latest"]
    = ["upgrade"; "--install"; "svc";
       "/usr/local/share/dockwright/charts/stateless";
       "--kubeconfig"; "/home/dev/.kube/config"; "--kube-context"; "dev"]
      ++ rest.
Proof.
  destruct (validated_deploy_prefix Sample.host Sample.config _
              eq_refl eq_refl) as (rest & Heq & _).
  exists rest. exact Heq.
Defined.

(** X6. Validator check 4 and the values-file collection of the Helm
    workflow look at the same paths and agree: the check passes exactly
    when the collection succeeds, so on an unchanged host a validated run
    never fails in the collection. *)
Theorem values_files_check_agrees (w : World) (c : Config) :
  (forall env, Validator.envValuesPath env = HelmRunner.envValues env)
  /\ (value (Validator.validateEnvValueFiles w c) = None <->
      exists files, value (HelmRunner.collectValuesFiles w c) = Ok files)
  /\ statted (trace (HelmRunner.collectValuesFiles w c))
     = HelmRunner.baseValues
       :: statted (trace (Validator.validateEnvValueFiles w c)).
Proof.
  split; [reflexivity|].
  destruct (collectValuesFiles_eq w c) as [Hval Hstat].
  split.
  - rewrite validateEnvValueFiles_passes, Hval. split.
    + intros Hall. eexists.
      apply (collectEnvFiles_ok w (Env c) (baseFiles w) Hall).
    + intros [files Hfiles].
      destruct (first_missing w (Env c))
        as [Hall|(pre & env & post & Hsplit & Hpre & Hmiss)]; [assumption|].
      rewrite Hsplit in Hfiles.
      destruct (collectEnvFiles_missing w pre env post (baseFiles w) Hpre Hmiss)
        as [Herr _].
      congruence.
  - rewrite Hstat. f_equal. clear Hval Hstat.
    unfold Validator.validateEnvValueFiles.
    generalize (baseFiles w) as files.
    induction (Env c) as [|env rest IH]; intros files; [reflexivity|].
    rewrite collectEnvFiles_step, validateEnvValueFilesLoop_step.
    destruct (statIsNotExist (Stat w (HelmRunner.envValues env)));
      [reflexivity|].
    unfold trace in *. cbn [fst statted]. now rewrite IH.
Qed.

(** X7. Validator check 3 and the credential test of the authenticate
    step agree: when the check fails, login does nothing and returns the
    credentials error, in either mode; when it passes, login can only fail
    through the docker process, and a dry run of it succeeds. *)
Theorem credentials_check_agrees (w : World) (c : Config) :
  (value (Validator.validateEnvVars w) <> None ->
   DockerRunner.login w c = ([], Some credentialsError))
  /\ (value (Validator.validateEnvVars w) = None ->
      (forall e, value (DockerRunner.login w c) = Some e ->
                 isExternalToolError e = true)
      /\ (DryRun c = true -> value (DockerRunner.login w c) = None)).
Proof.
  split.
  - intros Hfail.
    assert (Hcred : Str.isEmpty (Getenv w "REGISTRY_USERNAME")
                    || Str.isEmpty (Getenv w "REGISTRY_PASSWORD") = true).
    { destruct (Str.isEmpty (Getenv w "REGISTRY_USERNAME")) eqn:Hu;
        [reflexivity|].
      destruct (Str.isEmpty (Getenv w "REGISTRY_PASSWORD")) eqn:Hp;
        [reflexivity|].
      exfalso. apply Hfail. apply validateEnvVars_passes.
      split; now apply isEmpty_false. }
    unfold DockerRunner.login. rewrite Hcred. reflexivity.
  - intros Hpass. apply validateEnvVars_passes in Hpass.
    destruct Hpass as [Hu Hp].
    apply isEmpty_false in Hu, Hp.
    split.
    + unfold DockerRunner.login. rewrite Hu, Hp. cbn [orb].
      unfold logInfo, emit, ret, value, bind. cbn [fst snd].
      destruct (DryRun c); [discriminate|].
      destruct (cmdStdinPipe w "docker" _);
        [intros e He; inversion He; reflexivity|].
      destruct (cmdStart w "docker" _);
        [intros e He; inversion He; reflexivity|].
      destruct (pipeWrite w "docker" _ _);
        [intros e He; inversion He; reflexivity|].
      destruct (cmdWait w "docker" _ _);
        [intros e He; inversion He; reflexivity|discriminate].
    + intros Hdry. rewrite login_dry_run by assumption.
      now rewrite Hu, Hp.
Qed.

Lemma credentials_check_agrees_witness :
  value (DockerRunner.login Sample.host (withDryRun true Sample.config))
  = None.
Proof.
  destruct (credentials_check_agrees Sample.host
              (withDryRun true Sample.config)) as [_ Hpass].
  destruct (Hpass eq_refl) as [_ Hdry]. exact (Hdry eq_refl).
Defined.

(** X8. The helm flavour has no default: when neither the command line
    nor the file gives it, the loaded configuration has an empty flavour
    and validation ends at its first check, with the error of the missing
    artifact name or of the missing flavour, before anything is stat-ed or
    executed. *)
Theorem flavour_must_be_given (w : World) (v : viper.State)
    (args : list (string * string)) (cmd : Command) :
  deployCmd w args = Some cmd ->
  assigned args "helm-flavour" = None ->
  viper.IsSet v "helm.flavour" = false ->
  exists cfg e,
    LoadConfig w (Some cmd) v = Ok cfg
    /\ HelmFlavour cfg = ""
    /\ value (Validator.ValidateAll w cfg)
       = ([ {| ValidationResult.Name := "Configuration";
               ValidationResult.Icon := "✅";
               ValidationResult.Message := "✅ Validated - Configuration";
               ValidationResult.Err := Some e |} ], Some e)
    /\ trace (Validator.ValidateAll w cfg) = []
    /\ (e = Errorf "configuration error: required field 'artifactName' (flag: --artifact-name) is not set"
        \/ e = Errorf "configuration error: required field 'helmFlavour' (flag: --helm-flavour) is not set").
Proof.
  intros Hcmd Hflag Hfile.
  assert (Hfl : resolveFieldValue (Some cmd) v
                  (nth 1 (ConfigFields w) Sample.envField) = "").
  { rewrite (resolveFieldValue_unmentioned w v args cmd);
      [|cbn; tauto|assumption|exact Hflag].
    cbn [nth ConfigFields ConfigPath Default]. now rewrite Hfile. }
  set (cfg := {| ArtifactName := resolveFieldValue (Some cmd) v (nth 0 (ConfigFields w) Sample.envField);
          HelmFlavour := resolveFieldValue (Some cmd) v (nth 1 (ConfigFields w) Sample.envField);
          DockerNamespace := resolveFieldValue (Some cmd) v (nth 2 (ConfigFields w) Sample.envField);
          DockerHost := resolveFieldValue (Some cmd) v (nth 3 (ConfigFields w) Sample.envField);
          KubernetesConfig := resolveFieldValue (Some cmd) v (nth 4 (ConfigFields w) Sample.envField);
          KubernetesContext := resolveFieldValue (Some cmd) v (nth 5 (ConfigFields w) Sample.envField);
          Env := parseList (resolveFieldValue (Some cmd) v (nth 6 (ConfigFields w) Sample.envField)) ","%char;
          DryRun := parseBool (resolveFieldValue (Some cmd) v (nth 7 (ConfigFields w) Sample.envField));
          RunDockerBuild := parseBool (resolveFieldValue (Some cmd) v (nth 8 (ConfigFields w) Sample.envField));
          AutoApprove := parseBool (resolveFieldValue (Some cmd) v (nth 9 (ConfigFields w) Sample.envField)) |}).
  assert (Hcheck : exists e,
    value (Validator.validateConfig w cfg) = Some e
    /\ (e = Errorf "configuration error: required field 'artifactName' (flag: --artifact-name) is not set"
        \/ e = Errorf "configuration error: required field 'helmFlavour' (flag: --helm-flavour) is not set")).
  { rewrite validateConfig_eq. unfold value. cbn [snd].
    destruct (Str.isEmpty (ArtifactName cfg)); [eauto|].
    change (HelmFlavour cfg)
      with (resolveFieldValue (Some cmd) v
              (nth 1 (ConfigFields w) Sample.envField)).
    rewrite Hfl. cbn [Str.isEmpty]. eauto. }
  destruct Hcheck as (e & He & Hwhich).
  exists cfg, e. split; [apply LoadConfig_eq|].
  split; [exact Hfl|].
  unfold Validator.ValidateAll, Validator.checks.
  destruct (runChecks_first_failure []
              {| Validator.name := "Configuration"; Validator.icon := "✅";
                 Validator.fn := Validator.validateConfig w cfg |}
              (tl (Validator.checks w cfg)) e [] (List.Forall_nil _) He)
    as [Hv Ht].
  cbn [app] in Hv, Ht. unfold Validator.checks in Hv, Ht. cbn [tl] in Hv, Ht.
  rewrite Hv, Ht. split; [reflexivity|]. split; [reflexivity|exact Hwhich].
Qed.

(** A bare [dockwright deploy] without a configuration file. *)
Lemma flavour_must_be_given_witness :
  exists cmd cfg e,
    deployCmd Sample.host [] = Some cmd
    /\ LoadConfig Sample.host (Some cmd) noFile = Ok cfg
    /\ snd (value (Validator.ValidateAll Sample.host cfg)) = Some e.
Proof.
  destruct (deployCmd Sample.host []) as [cmd|] eqn:Hcmd;
    [|vm_compute in Hcmd; discriminate].
  destruct (flavour_must_be_given Sample.host noFile [] cmd Hcmd eq_refl eq_refl)
    as (cfg & e & Hload & _ & Hval & _).
  exists cmd, cfg, e. split; [reflexivity|]. split; [exact Hload|].
  now rewrite Hval.
Defined.

(** ** The image workflow in a real run *)

Lemma build_real (w : World) (c : Config) (tag : string) :
  DryRun c = false ->
  spawned (trace (DockerRunner.build w c tag)) = [buildCommand tag]
  /\ value (DockerRunner.build w c tag)
     = match cmdRun w "docker" ["build"; "-t"; tag; "."] with
       | Some msg => Some (LibError FromExec msg)
       | None => None
       end.
Proof.
  intros Hreal. unfold DockerRunner.build. rewrite Hreal.
  unfold logInfo, emit, ret, trace, value, bind. cbn [fst snd].
  destruct (cmdRun w "docker" ["build"; "-t"; tag; "."]); split; reflexivity.
Qed.

Lemma push_real (w : World) (c : Config) (tag : string) :
  DryRun c = false ->
  spawned (trace (DockerRunner.push w c tag)) = [pushCommand tag]
  /\ value (DockerRunner.push w c tag)
     = match cmdRun w "docker" ["push"; tag] with
       | Some msg => Some (LibError FromExec msg)
       | None => None
       end.
Proof.
  intros Hreal. unfold DockerRunner.push. rewrite Hreal.
  unfold logInfo, emit, ret, trace, value, bind. cbn [fst snd].
  destruct (cmdRun w "docker" ["push"; tag]); split; reflexivity.
Qed.

Lemma login_real (w : World) (c : Config) :
  DryRun c = false ->
  (value (DockerRunner.login w c) = None ->
   spawned (trace (DockerRunner.login w c)) = [loginCommand w c]
   /\ piped (trace (DockerRunner.login w c))
      = [Getenv w "REGISTRY_PASSWORD" +:+ newline])
  /\ (forall e,
        value (DockerRunner.login w c) = Some e ->
        spawned (trace (DockerRunner.login w c)) = []
        \/ spawned (trace (DockerRunner.login w c)) = [loginCommand w c]).
Proof.
  intros Hreal. unfold DockerRunner.login, loginCommand, loginArgs, newline.
  rewrite Hreal.
  unfold logInfo, emit, ret, trace, value, bind.
  destruct (Str.isEmpty (Getenv w "REGISTRY_USERNAME")
            || Str.isEmpty (Getenv w "REGISTRY_PASSWORD"));
    [cbn; split; [discriminate|auto]|].
  destruct (cmdStdinPipe w "docker" _); [cbn; split; [discriminate|auto]|].
  destruct (cmdStart w "docker" _); [cbn; split; [discriminate|auto]|].
  destruct (pipeWrite w "docker" _ _); [cbn; split; [discriminate|auto]|].
  destruct (cmdWait w "docker" _ _); cbn; split; auto; discriminate.
Qed.

(** The image workflow of a real, eligible run, by the outcome of its
    three steps. *)
Lemma DockerRunner_real (w : World) (c : Config) (tag : string) :
  DryRun c = false ->
  value (ShouldRunDockerBuild w c) = true ->
  ImageTag c = Ok tag ->
  spawned (trace (DockerRunner.Run w c))
    = spawned (trace (DockerRunner.build w c tag))
      ++ match value (DockerRunner.build w c tag) with
         | Some _ => []
         | None =>
             spawned (trace (DockerRunner.login w c))
             ++ match value (DockerRunner.login w c) with
                | Some _ => []
                | None => spawned (trace (DockerRunner.push w c tag))
                end
         end
  /\ value (DockerRunner.Run w c)
     = match value (DockerRunner.build w c tag) with
       | Some e => Some (Wrapf "docker build failed: " e "")
       | None =>
           match value (DockerRunner.login w c) with
           | Some e => Some (Wrapf "docker login failed: " e "")
           | None =>
               match value (DockerRunner.push w c tag) with
               | Some e => Some (Wrapf "docker push failed: " e "")
               | None => None
               end
           end
       end.
Proof.
  intros _ Hshould Htag. unfold DockerRunner.Run.
  rewrite ShouldRunDockerBuild_eq in *. unfold value in Hshould.
  cbn [snd] in Hshould. rewrite Hshould, Htag.
  generalize (DockerRunner.build w c tag), (DockerRunner.login w c),
    (DockerRunner.push w c tag).
  intros [t1 [e1|]] [t2 [e2|]] [t3 [e3|]];
    unfold trace, value, bind, ret; cbn [fst snd negb app spawned];
    rewrite ?app_nil_r, ?spawned_app; split; reflexivity.
Qed.

(** X9. A real, eligible image workflow stops at its first failing step.
    When the build fails, only the build has been started and its error
    is returned as [docker build failed: ...]; when the login fails, the
    push is never started; when all steps succeed, build, login and push
    have been started in this order, each once, and the password has been
    written once to the login command. *)
Theorem image_workflow_stops_at_first_failure (w : World) (c : Config)
    (tag : string) :
  DryRun c = false ->
  value (ShouldRunDockerBuild w c) = true ->
  ImageTag c = Ok tag ->
  (forall msg,
     cmdRun w "docker" ["build"; "-t"; tag; "."] = Some msg ->
     value (DockerRunner.Run w c)
       = Some (Wrapf "docker build failed: " (LibError FromExec msg) "")
     /\ spawned (trace (DockerRunner.Run w c)) = [buildCommand tag])
  /\ (forall e,
        cmdRun w "docker" ["build"; "-t"; tag; "."] = None ->
        value (DockerRunner.login w c) = Some e ->
        value (DockerRunner.Run w c)
          = Some (Wrapf "docker login failed: " e "")
        /\ (spawned (trace (DockerRunner.Run w c)) = [buildCommand tag]
            \/ spawned (trace (DockerRunner.Run w c))
               = [buildCommand tag; loginCommand w c]))
  /\ (value (DockerRunner.Run w c) = None ->
      spawned (trace (DockerRunner.Run w c))
        = [buildCommand tag; loginCommand w c; pushCommand tag]
      /\ piped (trace (DockerRunner.login w c))
         = [Getenv w "REGISTRY_PASSWORD" +:+ newline]).
Proof.
  intros Hreal Hshould Htag.
  destruct (DockerRunner_real w c tag Hreal Hshould Htag) as [Hsp Hval].
  destruct (build_real w c tag Hreal) as [Hbs Hbv].
  destruct (push_real w c tag Hreal) as [Hps Hpv].
  destruct (login_real w c Hreal) as [Hlok Hlerr].
  rewrite Hsp, Hval, Hbs, Hbv. clear Hsp Hval.
  split; [|split].
  - intros msg Hmsg. rewrite Hmsg. split; reflexivity.
  - intros e Hbuild He. rewrite Hbuild, He. split; [reflexivity|].
    destruct (Hlerr e He) as [->| ->]; [left|right]; reflexivity.
  - destruct (cmdRun w "docker" ["build"; "-t"; tag; "."]); [discriminate|].
    destruct (value (DockerRunner.login w c)) eqn:Hl; [discriminate|].
    destruct (Hlok eq_refl) as [Hls Hlp]. rewrite Hls, Hps.
    intros _. split; [reflexivity|exact Hlp].
Qed.

Lemma image_workflow_stops_at_first_failure_witness :
  spawned (trace (DockerRunner.Run Sample.host Sample.config))
  = [buildCommand "reg.example.com/acme/svc:latest";
     loginCommand Sample.host Sample.config;
     pushCommand "reg.example.com/acme/svc:latest"].
Proof.
  destruct (image_workflow_stops_at_first_failure Sample.host Sample.config
              "reg.example.com/acme/svc:latest" eq_refl eq_refl eq_refl)
    as (_ & _ & Hok).
  exact (proj1 (Hok eq_refl)).
Defined.

(** X10. The image the chart is pointed at is the image that is built and
    pushed: for an eligible run with repository [repo], build and push
    name [repo:latest], and the deploy vector ends with the overrides
    [image.repository=repo] and [image.tag=latest]. *)
Theorem deployed_image_is_pushed_image (w : World) (c : Config)
    (repo : string) :
  ImageRepository c = Ok repo ->
  value (ShouldRunDockerBuild w c) = true ->
  ImageTag c = Ok (repo +:+ ":latest")
  /\ (DryRun c = false ->
      exists rest,
        spawned (trace (DockerRunner.Run w c))
        = buildCommand (repo +:+ ":latest") :: rest
        /\ forall name args,
             In (name, args) rest ->
             (name, args) = loginCommand w c
             \/ (name, args) = pushCommand (repo +:+ ":latest"))
  /\ (forall args,
        value (deployArgs w c) = Ok args ->
        exists pre,
          args = pre ++ ["--set"; "image.repository=" +:+ repo;
                         "--set"; "image.tag=latest"]).
Proof.
  intros Hrepo Hshould.
  assert (Htag : ImageTag c = Ok (repo +:+ ":latest")).
  { unfold ImageTag. now rewrite Hrepo. }
  split; [exact Htag|]. split.
  - intros Hreal.
    destruct (DockerRunner_real w c _ Hreal Hshould Htag) as [Hsp _].
    destruct (build_real w c (repo +:+ ":latest") Hreal) as [Hbs _].
    destruct (push_real w c (repo +:+ ":latest") Hreal) as [Hps _].
    destruct (login_real w c Hreal) as [Hlok Hlerr].
    rewrite Hsp, Hbs. cbn [app]. eexists. split; [reflexivity|].
    intros name args Hin.
    destruct (value (DockerRunner.build w c (repo +:+ ":latest")));
      [destruct Hin|].
    destruct (value (DockerRunner.login w c)) as [e|] eqn:Hl.
    + rewrite app_nil_r in Hin.
      destruct (Hlerr e eq_refl) as [Hs|Hs]; rewrite Hs in Hin;
        [destruct Hin|]. destruct Hin as [<-|[]]. now left.
    + destruct (Hlok eq_refl) as [Hs _]. rewrite Hs, Hps in Hin.
      destruct Hin as [<-|[<-|[]]]; [now left|now right].
  - intros args Hargs.
    rewrite deployArgs_value, buildImageArgs_value in Hargs.
    rewrite ShouldRunDockerBuild_eq in Hshould. unfold value in Hshould.
    cbn [snd] in Hshould. rewrite Hshould, Hrepo in Hargs.
    destruct (statIsNotExist (Stat w (ChartPath c))); [discriminate|].
    destruct (value (HelmRunner.collectValuesFiles w c)) as [files|];
      [|discriminate].
    inversion Hargs. eexists. reflexivity.
Qed.

Lemma deployed_image_is_pushed_image_witness :
  ImageTag Sample.config = Ok "reg.example.com/acme/svc:latest".
Proof.
  exact (proj1 (deployed_image_is_pushed_image Sample.host Sample.config
                  "reg.example.com/acme/svc" eq_refl eq_refl)).
Defined.

(** ** The Helm workflow *)

Lemma execute_value (w : World) (c : Config) (args : list string) :
  value (HelmRunner.execute w c args)
  = if DryRun c then None
    else match cmdRun w "helm" args with
         | Some msg =>
             Some (Wrapf "helm deployment failed: " (LibError FromExec msg) "")
         | None => None
         end.
Proof.
  destruct (DryRun c) eqn:Hdry.
  - now rewrite execute_dry_run.
  - apply (execute_real w c args Hdry).
Qed.

Lemma statIsNotExist_false (r : StatResult) :
  statIsNotExist r = false <-> r <> StatNotExist.
Proof. destruct r; simpl; split; congruence. Qed.

Lemma collectValuesFiles_defined_iff (w : World) (c : Config) :
  (exists files, value (HelmRunner.collectValuesFiles w c) = Ok files) <->
  Forall (fun env => Stat w (HelmRunner.envValues env) <> StatNotExist)
    (Env c).
Proof.
  destruct (collectValuesFiles_eq w c) as [Hval _]. rewrite Hval. split.
  - intros [files Hfiles].
    destruct (first_missing w (Env c))
      as [Hall|(pre & env & post & Hsplit & Hpre & Hmiss)]; [assumption|].
    rewrite Hsplit in Hfiles.
    destruct (collectEnvFiles_missing w pre env post (baseFiles w) Hpre Hmiss)
      as [Herr _].
    congruence.
  - intros Hall. eexists.
    apply (collectEnvFiles_ok w (Env c) (baseFiles w) Hall).
Qed.

Lemma buildImageArgs_defined_iff (w : World) (c : Config) :
  (exists imageArgs, value (HelmRunner.buildImageArgs w c) = Ok imageArgs) <->
  (value (ShouldRunDockerBuild w c) = true ->
   DockerHost c <> "" /\ DockerNamespace c <> "" /\ ArtifactName c <> "").
Proof.
  rewrite buildImageArgs_value, ShouldRunDockerBuild_eq.
  unfold value. cbn [snd].
  destruct (statIsNil (Stat w "Dockerfile") && RunDockerBuild c).
  2: { split; [discriminate|eauto]. }
  pose proof (ImageRepository_Err_iff c) as Herr.
  destruct (ImageRepository c) as [repo|e].
  - split; [|eauto]. intros _ _.
    assert (Hno : ~ (DockerHost c = "" \/ DockerNamespace c = ""
                     \/ ArtifactName c = "")).
    { intros H. apply Herr in H. destruct H as [? H]. discriminate. }
    tauto.
  - split; [intros [? H]; discriminate|].
    intros H. destruct (H eq_refl) as (H1 & H2 & H3).
    destruct (proj1 Herr) as [H'|[H'|H']]; [eauto|contradiction..].
Qed.

(** The deploy step is reached exactly when the chart is there, no
    requested values file is missing and, for an eligible build, the image
    repository can be computed. *)
Lemma deployArgs_defined_iff (w : World) (c : Config) :
  (exists args, value (deployArgs w c) = Ok args) <->
  Stat w (ChartPath c) <> StatNotExist
  /\ Forall (fun env => Stat w (HelmRunner.envValues env) <> StatNotExist)
       (Env c)
  /\ (value (ShouldRunDockerBuild w c) = true ->
      DockerHost c <> "" /\ DockerNamespace c <> "" /\ ArtifactName c <> "").
Proof.
  rewrite <- statIsNotExist_false, <- collectValuesFiles_defined_iff,
    <- buildImageArgs_defined_iff, deployArgs_value.
  destruct (statIsNotExist (Stat w (ChartPath c))).
  { split; [intros [? H]; discriminate|intros (H & _); discriminate]. }
  destruct (value (HelmRunner.collectValuesFiles w c)) as [files|e].
  2: { split; [intros [? H]; discriminate
              |intros (_ & [? H] & _); discriminate]. }
  destruct (value (HelmRunner.buildImageArgs w c)) as [imageArgs|e].
  2: { split; [intros [? H]; discriminate
              |intros (_ & _ & [? H]); discriminate]. }
  split; [intros _; eauto|intros _; eauto].
Qed.

(** X11. The Helm workflow returns no error exactly when the chart
    directory is not reported missing, no requested values file is
    reported missing, the image repository can be computed if the build is
    eligible, and, in a real run, helm exits with status 0 on the vector
    built. *)
Theorem helm_workflow_succeeds_iff (w : World) (c : Config) :
  value (HelmRunner.Run w c) = None <->
  Stat w (ChartPath c) <> StatNotExist
  /\ Forall (fun env => Stat w (HelmRunner.envValues env) <> StatNotExist)
       (Env c)
  /\ (value (ShouldRunDockerBuild w c) = true ->
      DockerHost c <> "" /\ DockerNamespace c <> "" /\ ArtifactName c <> "")
  /\ (DryRun c = false ->
      forall args, value (deployArgs w c) = Ok args ->
                   cmdRun w "helm" args = None).
Proof.
  pose proof (deployArgs_defined_iff w c) as Hdef.
  rewrite Run_deployArgs. unfold value at 1. cbn [snd].
  destruct (value (deployArgs w c)) as [args|e] eqn:Hargs.
  - rewrite execute_value.
    assert (Hpre : exists a, @Ok (list string) args = Ok a) by eauto.
    apply Hdef in Hpre. destruct Hpre as (H1 & H2 & H3).
    destruct (DryRun c).
    + split; [|reflexivity]. intros _.
      split; [exact H1|]. split; [exact H2|]. split; [exact H3|].
      discriminate.
    + destruct (cmdRun w "helm" args) eqn:Hrun.
      * split; [discriminate|]. intros (_ & _ & _ & H).
        specialize (H eq_refl args eq_refl). congruence.
      * split; [|reflexivity]. intros _.
        split; [exact H1|]. split; [exact H2|]. split; [exact H3|].
        intros _ a Ha. inversion Ha; subst. exact Hrun.
  - split; [discriminate|]. intros (H1 & H2 & H3 & _).
    destruct (proj2 Hdef) as [a Ha]; [tauto|discriminate].
Qed.

Lemma length_append (a b : string) :
  String.length (a +:+ b) = String.length a + String.length b.
Proof.
  induction a as [|ch a IH]; [reflexivity|].
  simpl. f_equal. exact IH.
Qed.

Lemma freeOf_append (sep : ascii) (a b : string) :
  freeOf sep a -> freeOf sep b -> freeOf sep (a +:+ b).
Proof.
  unfold freeOf. induction a as [|ch a IH]; intros Ha Hb; [exact Hb|].
  cbn [String.append list_ascii_of_string]. intros [H|H].
  - apply Ha. now left.
  - apply IH; [|assumption|assumption]. intros Hin. apply Ha. now right.
Qed.

Lemma Clean_unrooted (c : ascii) (rest : string) :
  Ascii.eqb c "/"%char = false ->
  filepath.Clean (String c rest)
  = if Str.isEmpty
         (Str.Join
            (rev (fold_left (filepath.cleanStep false)
                    (Str.Split (String c rest) "/"%char) [])) "/")
    then "."
    else Str.Join
           (rev (fold_left (filepath.cleanStep false)
                   (Str.Split (String c rest) "/"%char) [])) "/".
Proof.
  intros Hc. unfold filepath.Clean. change filepath.sep with "/"%char.
  now rewrite Hc.
Qed.

(** A file name ending in [.values.yaml] is no special path element. *)
Lemma cleanStep_values_file (rooted : bool) (kept : list string)
    (env : string) :
  filepath.cleanStep rooted kept (env +:+ ".values.yaml")
  = (env +:+ ".values.yaml") :: kept.
Proof.
  unfold filepath.cleanStep.
  assert (Hlen : String.length (env +:+ ".values.yaml") >= 12).
  { rewrite length_append. simpl. lia. }
  destruct (String.eqb_spec (env +:+ ".values.yaml") "") as [E|_];
    [rewrite E in Hlen; simpl in Hlen; lia|].
  destruct (String.eqb_spec (env +:+ ".values.yaml") ".") as [E|_];
    [rewrite E in Hlen; simpl in Hlen; lia|].
  destruct (String.eqb_spec (env +:+ ".values.yaml") "..") as [E|_];
    [rewrite E in Hlen; simpl in Hlen; lia|].
  reflexivity.
Qed.

(** X12. For an environment name without a slash the values file is
    [.dockwright/helm/<env>.values.yaml], in the validator and in the Helm
    workflow alike. *)
Theorem envValues_plain_name (env : string) :
  freeOf "/"%char env ->
  HelmRunner.envValues env = ".dockwright/helm/" +:+ env +:+ ".values.yaml"
  /\ Validator.envValuesPath env
     = ".dockwright/helm/" +:+ env +:+ ".values.yaml".
Proof.
  intros Hfree.
  assert (Hfile : freeOf "/"%char (env +:+ ".values.yaml")).
  { apply freeOf_append; [assumption|]. unfold freeOf. simpl.
    intuition discriminate. }
  assert (Heq : HelmRunner.envValues env
                = ".dockwright/helm/" +:+ env +:+ ".values.yaml").
  { unfold HelmRunner.envValues, filepath.Join. cbn [Str.isEmpty].
    change (Str.Join [".dockwright"; "helm"; env +:+ ".values.yaml"] "/")
      with (String "."%char
              ("dockwright" +:+ String "/"%char
                 ("helm" +:+ String "/"%char (env +:+ ".values.yaml")))).
    rewrite Clean_unrooted by reflexivity.
    change (String "."%char
              ("dockwright" +:+ String "/"%char
                 ("helm" +:+ String "/"%char (env +:+ ".values.yaml"))))
      with (".dockwright" +:+ String "/"%char
              ("helm" +:+ String "/"%char (env +:+ ".values.yaml"))).
    rewrite Split_app_sep by (unfold freeOf; simpl; intuition discriminate).
    rewrite Split_app_sep by (unfold freeOf; simpl; intuition discriminate).
    rewrite (Split_free _ _ Hfile).
    cbn [fold_left].
    rewrite cleanStep_values_file.
    change (filepath.cleanStep false
              (filepath.cleanStep false [] ".dockwright") "helm")
      with ["helm"; ".dockwright"].
    reflexivity. }
  split; [exact Heq|exact Heq].
Qed.

Lemma envValues_plain_name_witness :
  HelmRunner.envValues "staging" = ".dockwright/helm/staging.values.yaml".
Proof.
  apply (envValues_plain_name "staging"). unfold freeOf. simpl.
  intuition discriminate.
Defined.

(** A name with slashes can point outside the directory. *)
Example envValues_relative_name :
  HelmRunner.envValues "../../other/prod" = "other/prod.values.yaml".
Proof. reflexivity. Qed.

(** ** The pipeline driver *)

Lemma inner_app t1 t2 : inner (t1 ++ t2) = inner t1 ++ inner t2.
Proof.
  induction t1 as [|ev t1 IH]; [reflexivity|].
  destruct ev; simpl; rewrite IH; reflexivity.
Qed.

Lemma prompts_app t1 t2 : prompts (t1 ++ t2) = prompts t1 ++ prompts t2.
Proof.
  induction t1 as [|ev t1 IH]; [reflexivity|].
  destruct ev; simpl; rewrite IH; reflexivity.
Qed.

Lemma reads_app t1 t2 : reads (t1 ++ t2) = reads t1 + reads t2.
Proof.
  induction t1 as [|ev t1 IH]; [reflexivity|].
  destruct ev; simpl; rewrite IH; reflexivity.
Qed.

Lemma errorLines_app t1 t2 :
  errorLines (t1 ++ t2) = errorLines t1 ++ errorLines t2.
Proof.
  induction t1 as [|ev t1 IH]; [reflexivity|].
  destruct ev; simpl; rewrite IH; reflexivity.
Qed.

Lemma lifted (t : list Event) :
  inner (map DvRun t) = t /\ prompts (map DvRun t) = []
  /\ reads (map DvRun t) = 0 /\ errorLines (map DvRun t) = [].
Proof.
  induction t as [|ev t (H1 & H2 & H3 & H4)]; [repeat split|].
  simpl. rewrite H1. auto.
Qed.

Lemma logSection_eq (num : Z) (title icon : string) :
  exists line,
    logSection num title icon
    = ([EvLog ""; EvLog sectionRule; EvLog line; EvLog sectionRule], tt).
Proof.
  unfold logSection. destruct (0 <? num)%Z; eexists; reflexivity.
Qed.

Lemma logSection_quiet (num : Z) (title icon : string) :
  spawned (trace (logSection num title icon)) = []
  /\ statted (trace (logSection num title icon)) = []
  /\ piped (trace (logSection num title icon)) = [].
Proof.
  destruct (logSection_eq num title icon) as [line ->]. repeat split.
Qed.

Lemma LogSummary_quiet (c : Config) :
  spawned (trace (LogSummary c)) = [] /\ statted (trace (LogSummary c)) = []
  /\ piped (trace (LogSummary c)) = [].
Proof. repeat split. Qed.

Lemma reportResults_cons_pass (r : ValidationResult.t)
    (rest : list ValidationResult.t) (err : option error) :
  ValidationResult.Err r = None ->
  reportResults (r :: rest) err
  = (DvRun (EvLog (ValidationResult.Message r)) :: fst (reportResults rest err),
     snd (reportResults rest err)).
Proof. intros Hr. cbn [reportResults]. rewrite Hr. reflexivity. Qed.

(** The report of the driver on the results of a run of the checks that
    stopped at a failing check, and on those of a run that passed. *)
Lemma reportResults_failed (pre : list Validator.check) (ck : Validator.check)
    (e : error) (err : option error) :
  reportResults (map passed pre ++ [Validator.resultOf ck (Some e)]) err
  = (map (fun k => DvRun (EvLog (ValidationResult.Message (passed k)))) pre
     ++ [DvLogError ("❌ Validation error in " +:+ Validator.name ck)],
     Some err).
Proof.
  induction pre as [|p pre IH]; [reflexivity|].
  change (map passed (p :: pre) ++ [Validator.resultOf ck (Some e)])
    with (passed p :: (map passed pre ++ [Validator.resultOf ck (Some e)])).
  rewrite reportResults_cons_pass by reflexivity. rewrite IH. reflexivity.
Qed.

Lemma reportResults_passed (cks : list Validator.check)
    (err : option error) :
  reportResults (map passed cks) err
  = (map (fun k => DvRun (EvLog (ValidationResult.Message (passed k)))) cks,
     None).
Proof.
  induction cks as [|p cks IH]; [reflexivity|].
  change (map passed (p :: cks)) with (passed p :: map passed cks).
  rewrite reportResults_cons_pass by reflexivity. rewrite IH. reflexivity.
Qed.

(** A table of checks passes as a whole or has a first failing check. *)
Lemma checks_decompose (cks : list Validator.check) :
  Forall passes cks
  \/ exists pre ck post e,
       cks = pre ++ ck :: post /\ Forall passes pre
       /\ value (Validator.fn ck) = Some e.
Proof.
  induction cks as [|ck rest IH]; [left; constructor|].
  destruct (value (Validator.fn ck)) as [e|] eqn:Hck.
  - right. exists [], ck, rest, e. repeat split; auto.
  - destruct IH as [Hall|(pre & k & post & e & -> & Hpre & Hk)].
    + left. constructor; assumption.
    + right. exists (ck :: pre), k, post, e.
      repeat split; auto; constructor; assumption.
Qed.

(** The two outcomes of ValidateAll. *)
Lemma ValidateAll_outcome (w : World) (c : Config) :
  (value (Validator.ValidateAll w c)
   = (map passed (Validator.checks w c), None))
  \/ exists pre ck e,
       value (Validator.ValidateAll w c)
       = (map passed pre ++ [Validator.resultOf ck (Some e)], Some e)
       /\ In (Validator.name ck) checkNames.
Proof.
  unfold Validator.ValidateAll.
  destruct (checks_decompose (Validator.checks w c))
    as [Hall|(pre & ck & post & e & Hsplit & Hpre & Hck)].
  - left. apply (runChecks_all_pass _ [] Hall).
  - right. exists pre, ck, e. rewrite Hsplit. split.
    + apply (runChecks_first_failure pre ck post e [] Hpre Hck).
    + assert (Hin : In ck (Validator.checks w c)).
      { rewrite Hsplit. apply in_or_app. right. now left. }
      apply (in_map Validator.name) in Hin. exact Hin.
Qed.

Lemma driver_projections_lift (t : list Event) (rest : list DriverEvent) :
  inner (map DvRun t ++ rest) = t ++ inner rest
  /\ prompts (map DvRun t ++ rest) = prompts rest
  /\ reads (map DvRun t ++ rest) = reads rest
  /\ errorLines (map DvRun t ++ rest) = errorLines rest.
Proof.
  destruct (lifted t) as (H1 & H2 & H3 & H4).
  rewrite inner_app, prompts_app, reads_app, errorLines_app, H1, H2, H3, H4.
  repeat split.
Qed.

Lemma spawned_messages (cks : list Validator.check) :
  spawned (map (fun k => EvLog (ValidationResult.Message (passed k))) cks) = []
  /\ statted (map (fun k => EvLog (ValidationResult.Message (passed k))) cks)
     = []
  /\ piped (map (fun k => EvLog (ValidationResult.Message (passed k))) cks)
     = [].
Proof. induction cks as [|k cks (H1 & H2 & H3)]; simpl; auto. Qed.

Lemma messages_lifted (cks : list Validator.check) :
  map (fun k => DvRun (EvLog (ValidationResult.Message (passed k)))) cks
  = map DvRun (map (fun k => EvLog (ValidationResult.Message (passed k))) cks).
Proof. now rewrite map_map. Qed.

(** runDeploy from its second step on, when validation fails. *)
Lemma validateAndRun_failed (w : World) (cfg : Config) (e : error) :
  snd (value (Validator.ValidateAll w cfg)) = Some e ->
  exists pre ck,
    In (Validator.name ck) checkNames
    /\ validateAndRun w cfg
       = (map DvRun (trace (logSection 2%Z "VALIDATION" "✓")
                     ++ trace (Validator.ValidateAll w cfg)
                     ++ map (fun k => EvLog (ValidationResult.Message
                                               (passed k))) pre)
          ++ [DvLogError ("❌ Validation error in " +:+ Validator.name ck)],
          Some e).
Proof.
  intros Hfail.
  destruct (ValidateAll_outcome w cfg) as [Hok|(pre & ck & e' & Hval & Hname)].
  { rewrite Hok in Hfail. discriminate. }
  rewrite Hval in Hfail. cbn [snd] in Hfail. inversion Hfail; subst e'.
  exists pre, ck. split; [exact Hname|].
  unfold validateAndRun. unfold value in Hval.
  destruct (Validator.ValidateAll w cfg) as [tv [results err]].
  cbn [snd] in Hval. inversion Hval; subst results err. clear Hval Hfail.
  unfold lift at 2. unfold dbind at 2. cbn [fst snd].
  rewrite reportResults_failed.
  unfold dbind, lift, dret, trace. cbn [fst snd].
  rewrite messages_lifted, !map_app, <- !app_assoc, !app_nil_r.
  reflexivity.
Qed.

(** runDeploy from its second step on, when validation passes. *)
Lemma validateAndRun_passed (w : World) (cfg : Config) :
  snd (value (Validator.ValidateAll w cfg)) = None ->
  validateAndRun w cfg
  = (map DvRun
       (trace (logSection 2%Z "VALIDATION" "✓")
        ++ trace (Validator.ValidateAll w cfg)
        ++ map (fun k => EvLog (ValidationResult.Message (passed k)))
             (Validator.checks w cfg)
        ++ trace (logSection 3%Z "DOCKER WORKFLOW" "🐳")
        ++ trace (DockerRunner.Run w cfg)
        ++ match value (DockerRunner.Run w cfg) with
           | Some _ => []
           | None =>
               trace (logSection 4%Z "HELM WORKFLOW" "⎈")
               ++ trace (HelmRunner.Run w cfg)
               ++ match value (HelmRunner.Run w cfg) with
                  | Some _ => []
                  | None => trace (logSection 0%Z "DEPLOYMENT COMPLETE" "🎉")
                  end
           end),
     match value (DockerRunner.Run w cfg) with
     | Some e => Some (Wrapf "❌ docker workflow failed: " e "")
     | None =>
         match value (HelmRunner.Run w cfg) with
         | Some e => Some (Wrapf "❌ helm workflow failed: " e "")
         | None => None
         end
     end).
Proof.
  intros Hpass.
  destruct (ValidateAll_outcome w cfg) as [Hok|(pre & ck & e' & Hval & _)].
  2: { rewrite Hval in Hpass. discriminate. }
  clear Hpass. unfold validateAndRun. unfold value in Hok.
  generalize dependent (Validator.checks w cfg). intros cks.
  destruct (Validator.ValidateAll w cfg) as [tv [results err]].
  cbn [snd]. intros Hok. inversion Hok; subst results err. clear Hok.
  unfold lift at 2. unfold dbind at 2. cbn [fst snd].
  rewrite reportResults_passed.
  generalize (DockerRunner.Run w cfg), (HelmRunner.Run w cfg),
    (logSection 2%Z "VALIDATION" "✓"),
    (logSection 3%Z "DOCKER WORKFLOW" "🐳"),
    (logSection 4%Z "HELM WORKFLOW" "⎈"),
    (logSection 0%Z "DEPLOYMENT COMPLETE" "🎉").
  intros [td [ed|]] [th [eh|]] [t2 []] [t3 []] [t4 []] [t0 []];
    unfold dbind, lift, dret, trace, value; cbn [fst snd];
    rewrite messages_lifted, !map_app, <- ?app_assoc, ?app_nil_r;
    reflexivity.
Qed.

(** runDeploy once the configuration is loaded: the summary, the
    confirmation gate, then the rest. *)
Lemma runDeploy_eq (w : World) (v : viper.State) (cmd : option Command)
    (readLine : option string) (cfg : Config) :
  LoadConfig w cmd v = Ok cfg ->
  runDeploy w v cmd readLine
  = (map DvRun (trace (logSection 1%Z "CONFIGURATION" "⚙️")
                ++ trace (LogSummary cfg))
     ++ (if negb (AutoApprove cfg) && negb (DryRun cfg)
         then DvPrint confirmPrompt :: DvReadLine
              :: match readLine with
                 | Some _ => []
                 | None => fst (validateAndRun w cfg)
                 end
         else fst (validateAndRun w cfg)),
     if negb (AutoApprove cfg) && negb (DryRun cfg)
     then match readLine with
          | Some msg =>
              Some (Wrapf "failed to read user input: "
                          (LibError FromOs msg) "")
          | None => snd (validateAndRun w cfg)
          end
     else snd (validateAndRun w cfg)).
Proof.
  intros Hload. unfold runDeploy. rewrite Hload.
  fold (validateAndRun w cfg).
  generalize (validateAndRun w cfg) as rest.
  generalize (logSection 1%Z "CONFIGURATION" "⚙️"), (LogSummary cfg).
  intros [t1 []] [ts []] [tr er].
  destruct (negb (AutoApprove cfg) && negb (DryRun cfg)), readLine;
    unfold dbind, lift, dret, demit, trace; cbn [fst snd app];
    rewrite ?map_app, <- ?app_assoc, ?app_nil_r; reflexivity.
Qed.

Lemma validateAndRun_quiet (w : World) (cfg : Config) :
  prompts (fst (validateAndRun w cfg)) = []
  /\ reads (fst (validateAndRun w cfg)) = 0.
Proof.
  destruct (snd (value (Validator.ValidateAll w cfg))) as [e|] eqn:Hval.
  - destruct (validateAndRun_failed w cfg e Hval) as (pre & ck & _ & ->).
    cbn [fst]. rewrite prompts_app, reads_app.
    destruct (lifted (trace (logSection 2 "VALIDATION" "✓") ++
                      trace (Validator.ValidateAll w cfg) ++
                      map (fun k => EvLog (ValidationResult.Message (passed k)))
                        pre)) as (_ & -> & -> & _).
    split; reflexivity.
  - rewrite (validateAndRun_passed w cfg Hval). cbn [fst].
    match goal with |- prompts (map DvRun ?t) = _ /\ _ =>
      destruct (lifted t) as (_ & -> & -> & _) end.
    split; reflexivity.
Qed.

Lemma gate_closed (cfg : Config) :
  AutoApprove cfg = true \/ DryRun cfg = true ->
  negb (AutoApprove cfg) && negb (DryRun cfg) = false.
Proof. intros [-> | ->]; [reflexivity|apply andb_false_r]. Qed.

Lemma configuration_step (c : Config) :
  trace (logSection 1%Z "CONFIGURATION" "⚙️") ++ trace (LogSummary c)
  = map EvLog (configurationLines c).
Proof. reflexivity. Qed.

(** X13. The confirmation gate.  The run begins with the header of the
    first step and the table of the loaded configuration, log lines only.
    With auto-approve or dry-run set the validation step follows at once:
    no prompt is printed and the input stream is never read.  Otherwise the
    prompt and the read of one line come next, once each, right after the
    table and before anything is stat-ed or executed; a failed read ends
    the run there with [failed to read user input: ...]. *)
Theorem confirmation_gate (w : World) (v : viper.State)
    (cmd : option Command) (readLine : option string) (cfg : Config) :
  LoadConfig w cmd v = Ok cfg ->
  (AutoApprove cfg = true \/ DryRun cfg = true ->
   fst (runDeploy w v cmd readLine)
   = map DvRun (map EvLog (configurationLines cfg))
     ++ fst (validateAndRun w cfg)
   /\ prompts (fst (runDeploy w v cmd readLine)) = []
   /\ reads (fst (runDeploy w v cmd readLine)) = 0
   /\ snd (runDeploy w v cmd readLine) = snd (validateAndRun w cfg))
  /\ (AutoApprove cfg = false -> DryRun cfg = false ->
      fst (runDeploy w v cmd readLine)
      = map DvRun (map EvLog (configurationLines cfg))
        ++ DvPrint confirmPrompt :: DvReadLine
        :: match readLine with
           | Some _ => []
           | None => fst (validateAndRun w cfg)
           end
      /\ prompts (fst (runDeploy w v cmd readLine)) = [confirmPrompt]
      /\ reads (fst (runDeploy w v cmd readLine)) = 1
      /\ (forall msg,
            readLine = Some msg ->
            snd (runDeploy w v cmd readLine)
            = Some (Wrapf "failed to read user input: "
                          (LibError FromOs msg) "")
            /\ spawned (inner (fst (runDeploy w v cmd readLine))) = []
            /\ statted (inner (fst (runDeploy w v cmd readLine))) = [])
      /\ (readLine = None ->
          snd (runDeploy w v cmd readLine) = snd (validateAndRun w cfg))).
Proof.
  intros Hload. rewrite (runDeploy_eq w v cmd readLine cfg Hload).
  rewrite configuration_step.
  destruct (validateAndRun_quiet w cfg) as [Hp Hr].
  assert (Hquiet : spawned (map EvLog (configurationLines cfg)) = []
                   /\ statted (map EvLog (configurationLines cfg)) = []).
  { split; reflexivity. }
  revert Hp Hr Hquiet.
  generalize (validateAndRun w cfg) as rest.
  generalize (map EvLog (configurationLines cfg)) as t.
  intros t rest Hp Hr [Hs1 Hs2].
  split.
  - intros Hskip. rewrite (gate_closed cfg Hskip). cbn [fst snd].
    destruct (driver_projections_lift t (fst rest)) as (_ & -> & -> & _).
    auto.
  - intros Ha Hd. rewrite Ha, Hd. cbn [negb andb fst snd].
    match goal with |- _ /\ prompts (map DvRun ?t ++ ?r) = _ /\ _ =>
      destruct (driver_projections_lift t r) as (Hi & -> & -> & _) end.
    cbn [prompts reads].
    assert (Hrest : prompts match readLine with
                            | Some _ => []
                            | None => fst rest
                            end = []
                    /\ reads match readLine with
                             | Some _ => []
                             | None => fst rest
                             end = 0).
    { destruct readLine; auto. }
    destruct Hrest as [-> ->].
    split; [reflexivity|]. split; [reflexivity|]. split; [reflexivity|].
    split.
    + intros msg ->. split; [reflexivity|].
      rewrite Hi. cbn [inner]. rewrite app_nil_r, Hs1, Hs2. auto.
    + intros ->. reflexivity.
Qed.

Lemma confirmation_gate_witness :
  snd (runDeploy Sample.host noFile None (Some "EOF"))
  = Some (Wrapf "failed to read user input: " (LibError FromOs "EOF") "")
  /\ fst (runDeploy Sample.host noFile None (Some "EOF"))
     = map DvRun (map EvLog (configurationLines Loaded.bare))
       ++ [DvPrint confirmPrompt; DvReadLine]
  /\ reads (fst (runDeploy Sample.host Sample.file None (Some "EOF"))) = 0.
Proof.
  assert (Hbare : LoadConfig Sample.host None noFile = Ok Loaded.bare)
    by (vm_compute; reflexivity).
  assert (Hfile : LoadConfig Sample.host None Sample.file = Ok Loaded.fromFile)
    by (vm_compute; reflexivity).
  destruct (confirmation_gate Sample.host noFile None (Some "EOF")
              Loaded.bare Hbare) as [_ Hopen].
  destruct (confirmation_gate Sample.host Sample.file None (Some "EOF")
              Loaded.fromFile Hfile) as [Hclosed _].
  split; [|split].
  - destruct (Hopen eq_refl eq_refl) as (_ & _ & _ & Hfail & _).
    exact (proj1 (Hfail "EOF" eq_refl)).
  - destruct (Hopen eq_refl eq_refl) as (Htrace & _). exact Htrace.
  - destruct Hclosed as (_ & _ & Hreads & _); [right; reflexivity|exact Hreads].
Defined.

Lemma gate_passed (w : World) (v : viper.State) (cmd : option Command)
    (readLine : option string) (cfg : Config) :
  LoadConfig w cmd v = Ok cfg ->
  AutoApprove cfg = true \/ DryRun cfg = true \/ readLine = None ->
  snd (runDeploy w v cmd readLine) = snd (validateAndRun w cfg)
  /\ inner (fst (runDeploy w v cmd readLine))
     = trace (logSection 1%Z "CONFIGURATION" "⚙️") ++ trace (LogSummary cfg)
       ++ inner (fst (validateAndRun w cfg))
  /\ errorLines (fst (runDeploy w v cmd readLine))
     = errorLines (fst (validateAndRun w cfg)).
Proof.
  intros Hload Hgate. rewrite (runDeploy_eq w v cmd readLine cfg Hload).
  cbn [fst snd].
  match goal with |- _ /\ inner (map DvRun ?t ++ ?r) = _ /\ _ =>
    destruct (driver_projections_lift t r) as (-> & _ & _ & ->) end.
  rewrite <- app_assoc.
  generalize (validateAndRun w cfg) as rest.
  generalize (trace (logSection 1 "CONFIGURATION" "⚙️")) as t1.
  generalize (trace (LogSummary cfg)) as t2.
  intros t2 t1 rest.
  destruct (negb (AutoApprove cfg) && negb (DryRun cfg)) eqn:Hneed.
  - destruct Hgate as [Ha|[Hd|Hr]].
    + rewrite Ha in Hneed. discriminate.
    + rewrite Hd, andb_false_r in Hneed. discriminate.
    + subst readLine. cbn [inner errorLines]. repeat split.
  - repeat split.
Qed.

Lemma spawned_validation_only (w : World) (c : Config) (p : string * list string) :
  In p (spawned (trace (Validator.ValidateAll w c))) -> p = dockerInfo.
Proof.
  destruct (ValidateAll_spawns w c) as [-> | ->]; [intros []|].
  intros [<-|[]]. reflexivity.
Qed.

(** runDeploy from its second step on, when validation stops at the
    check [ck]. *)
Lemma validateAndRun_failed_at (w : World) (cfg : Config)
    (pre : list Validator.check) (ck : Validator.check)
    (post : list Validator.check) (e : error) :
  Validator.checks w cfg = pre ++ ck :: post ->
  Forall passes pre ->
  value (Validator.fn ck) = Some e ->
  validateAndRun w cfg
  = (map DvRun (trace (logSection 2%Z "VALIDATION" "✓")
                ++ trace (Validator.ValidateAll w cfg)
                ++ map (fun k => EvLog (ValidationResult.Message (passed k)))
                     pre)
     ++ [DvLogError ("❌ Validation error in " +:+ Validator.name ck)],
     Some e).
Proof.
  intros Hsplit Hpre Hck.
  assert (Hval : value (Validator.ValidateAll w cfg)
                 = (map passed pre ++ [Validator.resultOf ck (Some e)],
                    Some e)).
  { unfold Validator.ValidateAll. rewrite Hsplit.
    apply (runChecks_first_failure pre ck post e [] Hpre Hck). }
  unfold validateAndRun. unfold value in Hval.
  destruct (Validator.ValidateAll w cfg) as [tv [results err]].
  cbn [snd] in Hval. inversion Hval; subst results err. clear Hval.
  unfold lift at 2. unfold dbind at 2. cbn [fst snd].
  rewrite reportResults_failed.
  unfold dbind, lift, dret, trace. cbn [fst snd].
  rewrite messages_lifted, !map_app, <- !app_assoc, !app_nil_r.
  reflexivity.
Qed.

(** X14. A failed validation ends the run: the driver returns the
    validator's error as it is and starts neither workflow, so that at most
    the probe [docker info] has been executed.  Its last events are the
    validator's effects, the messages of the checks that passed, in order,
    and one error line, which names the first check of the table that
    failed: the one whose error is returned. *)
Theorem validation_failure_ends_run (w : World) (v : viper.State)
    (cmd : option Command) (readLine : option string) (cfg : Config)
    (e : error) :
  LoadConfig w cmd v = Ok cfg ->
  AutoApprove cfg = true \/ DryRun cfg = true \/ readLine = None ->
  snd (value (Validator.ValidateAll w cfg)) = Some e ->
  snd (runDeploy w v cmd readLine) = Some e
  /\ spawned (inner (fst (runDeploy w v cmd readLine)))
     = spawned (trace (Validator.ValidateAll w cfg))
  /\ (forall p, In p (spawned (inner (fst (runDeploy w v cmd readLine)))) ->
                p = dockerInfo)
  /\ exists pre ck post,
       Validator.checks w cfg = pre ++ ck :: post
       /\ Forall passes pre
       /\ value (Validator.fn ck) = Some e
       /\ In (Validator.name ck) checkNames
       /\ errorLines (fst (runDeploy w v cmd readLine))
          = ["❌ Validation error in " +:+ Validator.name ck]
       /\ exists before,
            fst (runDeploy w v cmd readLine)
            = before
              ++ map DvRun
                   (trace (Validator.ValidateAll w cfg)
                    ++ map (fun k =>
                              EvLog (Validator.icon k +:+ " Validated - "
                                     +:+ Validator.name k)) pre)
              ++ [DvLogError ("❌ Validation error in "
                              +:+ Validator.name ck)].
Proof.
  intros Hload Hgate Hfail.
  destruct (checks_decompose (Validator.checks w cfg))
    as [Hall|(pre & ck & post & e' & Hsplit & Hpre & Hck)].
  { apply (runChecks_no_error _ []) in Hall.
    unfold Validator.ValidateAll in Hfail. rewrite Hall in Hfail.
    discriminate Hfail. }
  assert (He : e' = e).
  { unfold Validator.ValidateAll in Hfail. rewrite Hsplit in Hfail.
    rewrite (proj1 (runChecks_first_failure pre ck post e' [] Hpre Hck))
      in Hfail.
    cbn [snd] in Hfail. now inversion Hfail. }
  subst e'.
  pose proof (validateAndRun_failed_at w cfg pre ck post e Hsplit Hpre Hck)
    as Hrun.
  assert (Hname : In (Validator.name ck) checkNames).
  { assert (Hin : In ck (Validator.checks w cfg)).
    { rewrite Hsplit. apply in_or_app. right. now left. }
    apply (in_map Validator.name) in Hin. exact Hin. }
  assert (Htrace : exists before,
    fst (runDeploy w v cmd readLine)
    = before
      ++ map DvRun
           (trace (Validator.ValidateAll w cfg)
            ++ map (fun k => EvLog (ValidationResult.Message (passed k))) pre)
      ++ [DvLogError ("❌ Validation error in " +:+ Validator.name ck)]).
  { rewrite (runDeploy_eq w v cmd readLine cfg Hload), Hrun. cbn [fst snd].
    generalize (map DvRun (trace (logSection 1%Z "CONFIGURATION" "⚙️")
                           ++ trace (LogSummary cfg))) as t1.
    generalize (trace (logSection 2%Z "VALIDATION" "✓")) as t2.
    generalize (trace (Validator.ValidateAll w cfg)) as tv.
    generalize (map (fun k => EvLog (ValidationResult.Message (passed k)))
                  pre) as tm.
    intros tm tv t2 t1.
    destruct (negb (AutoApprove cfg) && negb (DryRun cfg)) eqn:Hneed.
    - assert (Hr : readLine = None).
      { destruct Hgate as [Ha|[Hd|Hr]]; [| |exact Hr].
        - rewrite Ha in Hneed. discriminate.
        - rewrite Hd, andb_false_r in Hneed. discriminate. }
      subst readLine.
      exists (t1 ++ [DvPrint confirmPrompt; DvReadLine] ++ map DvRun t2).
      rewrite !map_app, <- !app_assoc. reflexivity.
    - exists (t1 ++ map DvRun t2).
      rewrite !map_app, <- !app_assoc. reflexivity. }
  destruct (gate_passed w v cmd readLine cfg Hload Hgate) as (Hret & Hin & Herr).
  rewrite Hret, Hin, Herr, Hrun. clear Hret Hin Herr Hrun.
  cbn [fst snd].
  destruct (logSection_quiet 1%Z "CONFIGURATION" "⚙️") as (Hs1 & _).
  destruct (logSection_quiet 2%Z "VALIDATION" "✓") as (Hs2 & _).
  destruct (LogSummary_quiet cfg) as (Hl1 & _).
  destruct (spawned_messages pre) as (Hm & _).
  assert (Hsp : spawned
    (trace (logSection 1 "CONFIGURATION" "⚙️") ++ trace (LogSummary cfg) ++
     inner (map DvRun
              (trace (logSection 2 "VALIDATION" "✓") ++
               trace (Validator.ValidateAll w cfg) ++
               map (fun k => EvLog (ValidationResult.Message (passed k))) pre)
            ++ [DvLogError ("❌ Validation error in " +:+ Validator.name ck)]))
    = spawned (trace (Validator.ValidateAll w cfg))).
  { match goal with |- context [inner (map DvRun ?t ++ ?r)] =>
      destruct (driver_projections_lift t r) as (-> & _) end.
    cbn [inner]. rewrite !spawned_app, Hs1, Hl1, Hs2, Hm.
    cbn [app spawned]. now rewrite !app_nil_r. }
  split; [reflexivity|]. split; [exact Hsp|]. split.
  - intros p Hp. rewrite Hsp in Hp. now apply (spawned_validation_only w cfg).
  - exists pre, ck, post.
    split; [exact Hsplit|]. split; [exact Hpre|]. split; [exact Hck|].
    split; [exact Hname|]. split; [|exact Htrace].
    match goal with |- errorLines (map DvRun ?t ++ ?r) = _ =>
      destruct (driver_projections_lift t r) as (_ & _ & _ & ->) end.
    reflexivity.
Qed.

(** Without a password the run stops at the third check. *)
Lemma validation_failure_ends_run_witness :
  snd (runDeploy (withPassword "" Sample.host)
         (viper.ofList [("helm.flavour", "stateless"); ("auto-approve", "yes")])
         None None)
  = Some (Validator.envVarError "REGISTRY_PASSWORD")
  /\ errorLines
       (fst (runDeploy (withPassword "" Sample.host)
               (viper.ofList [("helm.flavour", "stateless");
                              ("auto-approve", "yes")])
               None None))
     = ["❌ Validation error in Environment variables"].
Proof.
  assert (Hload : LoadConfig (withPassword "" Sample.host) None
     (viper.ofList [("helm.flavour", "stateless"); ("auto-approve", "yes")])
     = Ok {| ArtifactName := "svc"; HelmFlavour := "stateless";
             DockerNamespace := ""; DockerHost := "reg.example.com";
             KubernetesConfig := "/home/dev/.kube/config";
             KubernetesContext := "dev"; Env := [];
             DryRun := false; RunDockerBuild := true;
             AutoApprove := true |})
    by (vm_compute; reflexivity).
  destruct (validation_failure_ends_run (withPassword "" Sample.host) _
              None None _ (Validator.envVarError "REGISTRY_PASSWORD") Hload
              (or_introl eq_refl))
    as (Hret & _ & _ & pre & ck & post & Hsplit & Hpre & Hck & _ & Herr & _).
  { vm_compute. reflexivity. }
  split; [exact Hret|].
  rewrite Herr. f_equal. f_equal.
  unfold Validator.checks in Hsplit.
  destruct pre as [|k1 [|k2 [|k3 pre]]]; cbn [app] in Hsplit.
  - injection Hsplit as Hk _. subst ck. vm_compute in Hck. discriminate Hck.
  - injection Hsplit as _ Hk _. subst ck. vm_compute in Hck.
    discriminate Hck.
  - injection Hsplit as _ _ Hk _. subst ck. reflexivity.
  - exfalso. injection Hsplit as _ _ Hk _. subst k3.
    inversion Hpre as [|? ? _ Hp2]; subst.
    inversion Hp2 as [|? ? _ Hp3]; subst.
    inversion Hp3 as [|? ? Hk3 _]; subst.
    vm_compute in Hk3. discriminate Hk3.
Defined.

(** The processes started from the second step on. *)
Lemma validateAndRun_spawned (w : World) (cfg : Config) :
  spawned (inner (fst (validateAndRun w cfg)))
  = spawned (trace (Validator.ValidateAll w cfg))
    ++ match snd (value (Validator.ValidateAll w cfg)) with
       | Some _ => []
       | None =>
           spawned (trace (DockerRunner.Run w cfg))
           ++ match value (DockerRunner.Run w cfg) with
              | Some _ => []
              | None => spawned (trace (HelmRunner.Run w cfg))
              end
       end.
Proof.
  destruct (logSection_quiet 2%Z "VALIDATION" "✓") as (Hs2 & _).
  destruct (logSection_quiet 3%Z "DOCKER WORKFLOW" "🐳") as (Hs3 & _).
  destruct (logSection_quiet 4%Z "HELM WORKFLOW" "⎈") as (Hs4 & _).
  destruct (logSection_quiet 0%Z "DEPLOYMENT COMPLETE" "🎉") as (Hs0 & _).
  destruct (snd (value (Validator.ValidateAll w cfg))) as [e|] eqn:Hval.
  - destruct (validateAndRun_failed w cfg e Hval) as (pre & ck & _ & ->).
    destruct (spawned_messages pre) as (Hm & _).
    cbn [fst].
    match goal with |- context [inner (map DvRun ?t ++ ?r)] =>
      destruct (driver_projections_lift t r) as (-> & _) end.
    cbn [inner]. rewrite !spawned_app, Hs2, Hm. cbn [app spawned].
    now rewrite !app_nil_r.
  - rewrite (validateAndRun_passed w cfg Hval). cbn [fst].
    destruct (spawned_messages (Validator.checks w cfg)) as (Hm & _).
    match goal with |- context [inner (map DvRun ?t)] =>
      destruct (lifted t) as (-> & _) end.
    rewrite !spawned_app, Hs2, Hs3, Hm. cbn [app].
    f_equal. f_equal.
    destruct (value (DockerRunner.Run w cfg)); [reflexivity|].
    rewrite !spawned_app, Hs4. cbn [app].
    destruct (value (HelmRunner.Run w cfg)); [now rewrite app_nil_r|].
    now rewrite Hs0, app_nil_r.
Qed.

Lemma runDeploy_spawned (w : World) (v : viper.State) (cmd : option Command)
    (readLine : option string) (cfg : Config) :
  LoadConfig w cmd v = Ok cfg ->
  AutoApprove cfg = true \/ DryRun cfg = true \/ readLine = None ->
  spawned (inner (fst (runDeploy w v cmd readLine)))
  = spawned (inner (fst (validateAndRun w cfg))).
Proof.
  intros Hload Hgate.
  destruct (gate_passed w v cmd readLine cfg Hload Hgate) as (_ & -> & _).
  destruct (logSection_quiet 1%Z "CONFIGURATION" "⚙️") as (Hs1 & _).
  destruct (LogSummary_quiet cfg) as (Hl1 & _).
  now rewrite !spawned_app, Hs1, Hl1.
Qed.

Lemma HelmRunner_dry_spawn (w : World) (c : Config) :
  DryRun c = true -> spawned (trace (HelmRunner.Run w c)) = [].
Proof.
  intros Hdry. rewrite Run_deployArgs. unfold trace at 1. cbn [fst].
  rewrite spawned_app, (deployArgs_spawns_nothing w c).
  destruct (value (deployArgs w c)) as [args|]; [|reflexivity].
  rewrite (execute_dry_run w c args Hdry). unfold plannedDeploy, trace.
  cbn [fst spawned app]. apply spawned_logs.
Qed.

Lemma HelmRunner_spawns_helm (w : World) (c : Config)
    (p : string * list string) :
  In p (spawned (trace (HelmRunner.Run w c))) -> fst p = "helm".
Proof.
  destruct (DryRun c) eqn:Hdry.
  - rewrite (HelmRunner_dry_spawn w c Hdry). intros [].
  - rewrite Run_deployArgs. unfold trace at 1. cbn [fst].
    rewrite spawned_app, (deployArgs_spawns_nothing w c).
    destruct (value (deployArgs w c)) as [args|]; [|intros []].
    rewrite (proj1 (execute_real w c args Hdry)).
    intros [<-|[]]. reflexivity.
Qed.

Lemma DockerRunner_spawns_docker (w : World) (c : Config)
    (p : string * list string) :
  In p (spawned (trace (DockerRunner.Run w c))) -> fst p = "docker".
Proof.
  destruct (DryRun c) eqn:Hdry.
  { rewrite (proj1 (DockerRunner_dry_run w c Hdry)). intros []. }
  destruct (statIsNil (Stat w "Dockerfile") && RunDockerBuild c) eqn:Hshould.
  2: { rewrite (DockerRunner_skip w c Hshould). intros []. }
  destruct (ImageTag c) as [tag|e] eqn:Htag.
  2: { unfold DockerRunner.Run.
       rewrite ShouldRunDockerBuild_eq, Hshould, Htag. intros []. }
  assert (Hs : value (ShouldRunDockerBuild w c) = true)
    by (rewrite ShouldRunDockerBuild_eq; exact Hshould).
  destruct (DockerRunner_real w c tag Hdry Hs Htag) as [-> _].
  destruct (build_real w c tag Hdry) as [-> _].
  destruct (push_real w c tag Hdry) as [Hps _].
  destruct (login_real w c Hdry) as [Hlok Hlerr].
  intros [<-|Hin]; [reflexivity|].
  destruct (value (DockerRunner.build w c tag)); [destruct Hin|].
  destruct (value (DockerRunner.login w c)) as [e|].
  - rewrite app_nil_r in Hin.
    destruct (Hlerr e eq_refl) as [Hl|Hl]; rewrite Hl in Hin;
      [destruct Hin|]. destruct Hin as [<-|[]]. reflexivity.
  - destruct (Hlok eq_refl) as [Hl _]. rewrite Hl, Hps in Hin.
    destruct Hin as [<-|[<-|[]]]; reflexivity.
Qed.

(** X15. A dry run of the whole pipeline never reads the input stream and
    starts no process but the validator's probe [docker info]. *)
Theorem dry_run_pipeline (w : World) (v : viper.State) (cmd : option Command)
    (readLine : option string) (cfg : Config) :
  LoadConfig w cmd v = Ok cfg ->
  DryRun cfg = true ->
  reads (fst (runDeploy w v cmd readLine)) = 0
  /\ prompts (fst (runDeploy w v cmd readLine)) = []
  /\ (spawned (inner (fst (runDeploy w v cmd readLine))) = []
      \/ spawned (inner (fst (runDeploy w v cmd readLine))) = [dockerInfo]).
Proof.
  intros Hload Hdry.
  assert (Hgate : AutoApprove cfg = true \/ DryRun cfg = true
                  \/ readLine = None) by auto.
  rewrite (runDeploy_spawned w v cmd readLine cfg Hload Hgate).
  rewrite (validateAndRun_spawned w cfg).
  rewrite (proj1 (DockerRunner_dry_run w cfg Hdry)),
    (HelmRunner_dry_spawn w cfg Hdry).
  rewrite (runDeploy_eq w v cmd readLine cfg Hload).
  rewrite (gate_closed cfg (or_intror Hdry)). cbn [fst].
  destruct (validateAndRun_quiet w cfg) as [Hp Hr].
  match goal with |- reads (map DvRun ?t ++ ?r) = _ /\ _ =>
    destruct (driver_projections_lift t r) as (_ & -> & -> & _) end.
  split; [exact Hr|]. split; [exact Hp|].
  assert (Htail : match snd (value (Validator.ValidateAll w cfg)) with
                  | Some _ => []
                  | None =>
                      [] ++ match value (DockerRunner.Run w cfg) with
                            | Some _ => []
                            | None => @nil (string * list string)
                            end
                  end = []).
  { destruct (snd (value (Validator.ValidateAll w cfg))); [reflexivity|].
    destruct (value (DockerRunner.Run w cfg)); reflexivity. }
  rewrite Htail, app_nil_r. apply ValidateAll_spawns.
Qed.

Lemma dry_run_pipeline_witness :
  reads (fst (runDeploy Sample.host Sample.file None None)) = 0.
Proof.
  assert (Hfile : LoadConfig Sample.host None Sample.file = Ok Loaded.fromFile)
    by (vm_compute; reflexivity).
  exact (proj1 (dry_run_pipeline Sample.host Sample.file None None
                  Loaded.fromFile Hfile eq_refl)).
Defined.

(** X16. A failed image workflow ends the run before the Helm workflow:
    the driver returns [docker workflow failed: ...] around the workflow's
    error and helm is never started. *)
Theorem docker_failure_skips_helm (w : World) (v : viper.State)
    (cmd : option Command) (readLine : option string) (cfg : Config)
    (e : error) :
  LoadConfig w cmd v = Ok cfg ->
  AutoApprove cfg = true \/ DryRun cfg = true \/ readLine = None ->
  snd (value (Validator.ValidateAll w cfg)) = None ->
  value (DockerRunner.Run w cfg) = Some e ->
  snd (runDeploy w v cmd readLine)
  = Some (Wrapf "❌ docker workflow failed: " e "")
  /\ spawned (inner (fst (runDeploy w v cmd readLine)))
     = spawned (trace (Validator.ValidateAll w cfg))
       ++ spawned (trace (DockerRunner.Run w cfg))
  /\ forall args,
       ~ In ("helm", args) (spawned (inner (fst (runDeploy w v cmd readLine)))).
Proof.
  intros Hload Hgate Hvalid Hdocker.
  rewrite (runDeploy_spawned w v cmd readLine cfg Hload Hgate).
  rewrite (validateAndRun_spawned w cfg), Hvalid, Hdocker, app_nil_r.
  destruct (gate_passed w v cmd readLine cfg Hload Hgate) as (-> & _).
  rewrite (validateAndRun_passed w cfg Hvalid), Hdocker. cbn [snd].
  split; [reflexivity|]. split; [reflexivity|].
  intros args Hin. apply in_app_or in Hin. destruct Hin as [Hin|Hin].
  - apply spawned_validation_only in Hin. discriminate.
  - apply DockerRunner_spawns_docker in Hin. discriminate.
Qed.

Lemma docker_failure_skips_helm_witness :
  snd (runDeploy Sample.host
            (viper.ofList [("helm.flavour", "stateless"); ("env", "staging");
                           ("auto-approve", "yes")]) None None)
  = Some (Wrapf "❌ docker workflow failed: " repositoryError "").
Proof.
  assert (Hload : LoadConfig Sample.host None
                    (viper.ofList [("helm.flavour", "stateless");
                                   ("env", "staging"); ("auto-approve", "yes")])
                  = Ok (withRegistry "reg.example.com" ""
                          {| ArtifactName := "svc"; HelmFlavour := "stateless";
                             DockerNamespace := ""; DockerHost := "";
                             KubernetesConfig := "/home/dev/.kube/config";
                             KubernetesContext := "dev"; Env := ["staging"];
                             DryRun := false; RunDockerBuild := true;
                             AutoApprove := true |}))
    by (vm_compute; reflexivity).
  refine (proj1 (docker_failure_skips_helm Sample.host _ None None _
                   repositoryError Hload (or_introl eq_refl) _ _));
    vm_compute; reflexivity.
Defined.

(** X17. The driver returns no error exactly when the confirmation read
    did not fail, the validator reports no error and both workflows return
    none; the processes started are then those of the validator, of the
    image workflow and of the Helm workflow, in this order. *)
Theorem runDeploy_succeeds_iff (w : World) (v : viper.State)
    (cmd : option Command) (readLine : option string) (cfg : Config) :
  LoadConfig w cmd v = Ok cfg ->
  (snd (runDeploy w v cmd readLine) = None <->
   (AutoApprove cfg = true \/ DryRun cfg = true \/ readLine = None)
   /\ snd (value (Validator.ValidateAll w cfg)) = None
   /\ value (DockerRunner.Run w cfg) = None
   /\ value (HelmRunner.Run w cfg) = None)
  /\ (snd (runDeploy w v cmd readLine) = None ->
      spawned (inner (fst (runDeploy w v cmd readLine)))
      = spawned (trace (Validator.ValidateAll w cfg))
        ++ spawned (trace (DockerRunner.Run w cfg))
        ++ spawned (trace (HelmRunner.Run w cfg))).
Proof.
  intros Hload.
  assert (Hiff : snd (runDeploy w v cmd readLine) = None <->
    (AutoApprove cfg = true \/ DryRun cfg = true \/ readLine = None)
    /\ snd (value (Validator.ValidateAll w cfg)) = None
    /\ value (DockerRunner.Run w cfg) = None
    /\ value (HelmRunner.Run w cfg) = None).
  { split.
    - intros Hnone.
      assert (Hgate : AutoApprove cfg = true \/ DryRun cfg = true
                      \/ readLine = None).
      { rewrite (runDeploy_eq w v cmd readLine cfg Hload) in Hnone.
        cbn [snd] in Hnone.
        destruct (AutoApprove cfg); [auto|]. destruct (DryRun cfg); [auto|].
        cbn [negb andb] in Hnone. destruct readLine; [discriminate|auto]. }
      split; [exact Hgate|].
      destruct (gate_passed w v cmd readLine cfg Hload Hgate) as (Hs & _).
      rewrite Hs in Hnone. clear Hs.
      destruct (snd (value (Validator.ValidateAll w cfg))) as [e|] eqn:Hval.
      + destruct (validateAndRun_failed w cfg e Hval) as (? & ? & _ & Heq).
        rewrite Heq in Hnone. discriminate.
      + rewrite (validateAndRun_passed w cfg Hval) in Hnone.
        cbn [snd] in Hnone.
        destruct (value (DockerRunner.Run w cfg)); [discriminate|].
        destruct (value (HelmRunner.Run w cfg)); [discriminate|].
        auto.
    - intros (Hgate & Hval & Hd & Hh).
      destruct (gate_passed w v cmd readLine cfg Hload Hgate) as (-> & _).
      rewrite (validateAndRun_passed w cfg Hval), Hd, Hh. reflexivity. }
  split; [exact Hiff|].
  intros Hnone. apply Hiff in Hnone. destruct Hnone as (Hgate & Hval & Hd & Hh).
  rewrite (runDeploy_spawned w v cmd readLine cfg Hload Hgate).
  rewrite (validateAndRun_spawned w cfg), Hval, Hd. reflexivity.
Qed.

Lemma runDeploy_succeeds_iff_witness :
  spawned (inner (fst (runDeploy Sample.host
     (viper.ofList [("helm.flavour", "stateless"); ("env", "staging");
                    ("docker.namespace", "acme"); ("auto-approve", "yes")])
     None None)))
  = [dockerInfo;
     buildCommand "reg.example.com/acme/svc:latest";
     loginCommand Sample.host Sample.config;
     pushCommand "reg.example.com/acme/svc:latest";
     ("helm",
      ["upgrade"; "--install"; "svc";
       "/usr/local/share/dockwright/charts/stateless";
       "--kubeconfig"; "/home/dev/.kube/config"; "--kube-context"; "dev";
       "--values"; ".dockwright/helm/values.yaml";
       "--values"; ".dockwright/helm/staging.values.yaml";
       "--set"; "image.repository=reg.example.com/acme/svc";
       "--set"; "image.tag=latest"])].
Proof.
  assert (Hload : LoadConfig Sample.host None
     (viper.ofList [("helm.flavour", "stateless"); ("env", "staging");
                    ("docker.namespace", "acme"); ("auto-approve", "yes")])
     = Ok (withRegistry "reg.example.com" "acme"
             {| ArtifactName := "svc"; HelmFlavour := "stateless";
                DockerNamespace := ""; DockerHost := "";
                KubernetesConfig := "/home/dev/.kube/config";
                KubernetesContext := "dev"; Env := ["staging"];
                DryRun := false; RunDockerBuild := true;
                AutoApprove := true |}))
    by (vm_compute; reflexivity).
  destruct (runDeploy_succeeds_iff Sample.host _ None None _ Hload)
    as [Hiff Hsp].
  rewrite Hsp.
  - vm_compute. reflexivity.
  - apply Hiff. vm_compute. auto.
Defined.

(** ** The credentials check *)

(** X18. The registry credentials are required whatever the run-image-build
    flag says: when the first two checks pass and a credential is not set,
    validation ends at check 3, naming the first variable that is not set,
    and nothing has been stat-ed or executed. *)
Theorem credentials_always_required (w : World) (c : Config) :
  value (Validator.validateConfig w c) = None ->
  value (Validator.validateHelmFlavour c) = None ->
  Getenv w "REGISTRY_USERNAME" = "" \/ Getenv w "REGISTRY_PASSWORD" = "" ->
  exists e,
    snd (value (Validator.ValidateAll w c)) = Some e
    /\ map ValidationResult.Name (fst (value (Validator.ValidateAll w c)))
       = ["Configuration"; "Helm flavour"; "Environment variables"]
    /\ trace (Validator.ValidateAll w c) = []
    /\ (Getenv w "REGISTRY_USERNAME" = "" ->
        e = Validator.envVarError "REGISTRY_USERNAME")
    /\ (Getenv w "REGISTRY_USERNAME" <> "" ->
        e = Validator.envVarError "REGISTRY_PASSWORD").
Proof.
  intros Hcfg Hfl Hcred.
  assert (Hcheck : exists e,
    value (Validator.validateEnvVars w) = Some e
    /\ (Getenv w "REGISTRY_USERNAME" = "" ->
        e = Validator.envVarError "REGISTRY_USERNAME")
    /\ (Getenv w "REGISTRY_USERNAME" <> "" ->
        e = Validator.envVarError "REGISTRY_PASSWORD")).
  { unfold Validator.validateEnvVars, value, ret.
    cbn [snd Validator.checkEnvVars].
    destruct (Str.isEmpty (Getenv w "REGISTRY_USERNAME")) eqn:Hu.
    - apply isEmpty_true in Hu. eexists. split; [reflexivity|].
      split; [reflexivity|congruence].
    - apply isEmpty_false in Hu. destruct Hcred as [Hc|Hc]; [contradiction|].
      rewrite Hc. cbn [Str.isEmpty]. eexists. split; [reflexivity|].
      split; [contradiction|reflexivity]. }
  destruct Hcheck as (e & He & Hu & Hp).
  exists e.
  assert (Hflt : trace (Validator.validateHelmFlavour c) = []).
  { unfold Validator.validateHelmFlavour.
    destruct (negb _ && negb _); reflexivity. }
  unfold Validator.ValidateAll, Validator.checks.
  match goal with
  | |- context [Validator.runChecks (?k1 :: ?k2 :: ?k3 :: ?post) []] =>
      destruct (runChecks_first_failure [k1; k2] k3 post e []) as [Hv Ht]
  end.
  { repeat constructor; assumption. }
  { exact He. }
  cbn [app] in Hv, Ht. rewrite Hv, Ht.
  split; [reflexivity|]. split; [reflexivity|].
  split; [|split; assumption].
  unfold effects. cbn [map concat Validator.fn app]. rewrite Hflt.
  reflexivity.
Qed.

(** The build is disabled, the password is not set: check 3 still fails. *)
Lemma credentials_always_required_witness :
  exists e,
    snd (value (Validator.ValidateAll (withPassword "" Sample.host)
                  {| ArtifactName := "svc"; HelmFlavour := "stateless";
                     DockerNamespace := "acme"; DockerHost := "reg.example.com";
                     KubernetesConfig := "/home/dev/.kube/config";
                     KubernetesContext := "dev"; Env := ["staging"];
                     DryRun := false; RunDockerBuild := false;
                     AutoApprove := false |})) = Some e.
Proof.
  destruct (credentials_always_required (withPassword "" Sample.host)
     {| ArtifactName := "svc"; HelmFlavour := "stateless";
        DockerNamespace := "acme"; DockerHost := "reg.example.com";
        KubernetesConfig := "/home/dev/.kube/config";
        KubernetesContext := "dev"; Env := ["staging"];
        DryRun := false; RunDockerBuild := false;
        AutoApprove := false |} eq_refl eq_refl (or_intror eq_refl))
    as (e & He & _).
  exists e. exact He.
Defined.

(** ** Boolean coercion, in full *)

Lemma lowerAscii_y (c : ascii) :
  Str.lowerAscii c = "y"%char -> c = "y"%char \/ c = "Y"%char.
Proof.
  destruct c as [[] [] [] [] [] [] [] []]; vm_compute; intros H;
    first [discriminate H | auto].
Qed.

Lemma lowerAscii_e (c : ascii) :
  Str.lowerAscii c = "e"%char -> c = "e"%char \/ c = "E"%char.
Proof.
  destruct c as [[] [] [] [] [] [] [] []]; vm_compute; intros H;
    first [discriminate H | auto].
Qed.

Lemma lowerAscii_s (c : ascii) :
  Str.lowerAscii c = "s"%char -> c = "s"%char \/ c = "S"%char.
Proof.
  destruct c as [[] [] [] [] [] [] [] []]; vm_compute; intros H;
    first [discriminate H | auto].
Qed.

(** X19. Exactly ten strings coerce to true: [true], [1] and the eight
    spellings of [yes]; every other string, any other spelling of [true]
    included, coerces to false. *)
Theorem parseBool_true_exactly (value : string) :
  parseBool value = true <->
  In value ["true"; "1"; "yes"; "yeS"; "yEs"; "yES"; "Yes"; "YeS"; "YEs";
            "YES"].
Proof.
  split.
  - intros H. apply parseBool_true_iff in H.
    destruct H as [->|[->|H]]; [simpl; tauto..|].
    destruct value as [|a [|b [|c [|d r]]]]; try discriminate H.
    simpl in H. inversion H as [[Ha Hb Hc]].
    apply lowerAscii_y in Ha. apply lowerAscii_e in Hb.
    apply lowerAscii_s in Hc.
    destruct Ha as [-> | ->], Hb as [-> | ->], Hc as [-> | ->];
      simpl; tauto.
  - intros H. simpl in H.
    repeat (destruct H as [<-|H]; [reflexivity|]). destruct H.
Qed.

(** ** Trimming is idempotent *)

Section Trim.

Import Unicode.

Lemma trimLeft_stable (s : list nat) : leads s = false -> trimLeft s = s.
Proof.
  destruct s as [|a [|b [|c r]]]; cbn [leads trimLeft]; intros H;
    try reflexivity.
  - rewrite orb_false_r in H. now rewrite H.
  - apply orb_false_iff in H. destruct H as [H1 H2].
    rewrite orb_false_r in H2. now rewrite H1, H2.
  - apply orb_false_iff in H. destruct H as [H1 H2].
    apply orb_false_iff in H2. destruct H2 as [H2 H3].
    now rewrite H1, H2, H3.
Qed.

Lemma trimRightRev_stable (s : list nat) :
  leadsRev s = false -> trimRightRev s = s.
Proof.
  destruct s as [|a [|b [|c r]]]; cbn [leadsRev trimRightRev]; intros H;
    try reflexivity.
  - rewrite orb_false_r in H. now rewrite H.
  - apply orb_false_iff in H. destruct H as [H1 H2].
    rewrite orb_false_r in H2. now rewrite H1, H2.
  - apply orb_false_iff in H. destruct H as [H1 H2].
    apply orb_false_iff in H2. destruct H2 as [H2 H3].
    now rewrite H1, H2, H3.
Qed.

(** What is left after trimming does not begin with a space rune, and is
    the end of the list. *)
Lemma trimLeft_spec : forall (n : nat) (s : list nat),
  length s <= n ->
  leads (trimLeft s) = false /\ exists x, s = x ++ trimLeft s.
Proof.
  induction n as [|n IH]; intros s Hlen.
  - destruct s; [split; [reflexivity|exists []; reflexivity]|simpl in Hlen; lia].
  - destruct s as [|a [|b [|c r]]]; cbn [trimLeft].
    + split; [reflexivity|exists []; reflexivity].
    + destruct (isSpace1 a) eqn:H1.
      * split; [reflexivity|exists [a]; reflexivity].
      * split; [cbn [leads]; now rewrite H1|exists []; reflexivity].
    + destruct (isSpace1 a) eqn:H1.
      * destruct (IH [b]) as [Hl [x Hx]]; [simpl in *; lia|].
        cbn [trimLeft] in Hl, Hx.
        split; [exact Hl|]. exists (a :: x). cbn [app]. now rewrite <- Hx.
      * destruct (isSpace2 a b) eqn:H2.
        -- split; [reflexivity|exists [a; b]; reflexivity].
        -- split; [cbn [leads]; now rewrite H1, H2|exists []; reflexivity].
    + destruct (isSpace1 a) eqn:H1.
      * destruct (IH (b :: c :: r)) as [Hl [x Hx]]; [simpl in *; lia|].
        cbn [trimLeft] in Hl, Hx.
        split; [exact Hl|]. exists (a :: x). cbn [app]. now rewrite <- Hx.
      * destruct (isSpace2 a b) eqn:H2.
        -- destruct (IH (c :: r)) as [Hl [x Hx]]; [simpl in *; lia|].
        cbn [trimLeft] in Hl, Hx.
           split; [exact Hl|]. exists (a :: b :: x). cbn [app].
           now rewrite <- Hx.
        -- destruct (isSpace3 a b c) eqn:H3.
           ++ destruct (IH r) as [Hl [x Hx]]; [simpl in *; lia|].
        cbn [trimLeft] in Hl, Hx.
              split; [exact Hl|]. exists (a :: b :: c :: x). cbn [app].
              now rewrite <- Hx.
           ++ split; [cbn [leads]; now rewrite H1, H2, H3
                     |exists []; reflexivity].
Qed.

Lemma trimRightRev_spec : forall (n : nat) (s : list nat),
  length s <= n ->
  leadsRev (trimRightRev s) = false /\ exists x, s = x ++ trimRightRev s.
Proof.
  induction n as [|n IH]; intros s Hlen.
  - destruct s; [split; [reflexivity|exists []; reflexivity]|simpl in Hlen; lia].
  - destruct s as [|a [|b [|c r]]]; cbn [trimRightRev].
    + split; [reflexivity|exists []; reflexivity].
    + destruct (isSpace1 a) eqn:H1.
      * split; [reflexivity|exists [a]; reflexivity].
      * split; [cbn [leadsRev]; now rewrite H1|exists []; reflexivity].
    + destruct (isSpace1 a) eqn:H1.
      * destruct (IH [b]) as [Hl [x Hx]]; [simpl in *; lia|].
        cbn [trimRightRev] in Hl, Hx.
        split; [exact Hl|]. exists (a :: x). cbn [app]. now rewrite <- Hx.
      * destruct (isSpace2 b a) eqn:H2.
        -- split; [reflexivity|exists [a; b]; reflexivity].
        -- split; [cbn [leadsRev]; now rewrite H1, H2|exists []; reflexivity].
    + destruct (isSpace1 a) eqn:H1.
      * destruct (IH (b :: c :: r)) as [Hl [x Hx]]; [simpl in *; lia|].
        cbn [trimRightRev] in Hl, Hx.
        split; [exact Hl|]. exists (a :: x). cbn [app]. now rewrite <- Hx.
      * destruct (isSpace2 b a) eqn:H2.
        -- destruct (IH (c :: r)) as [Hl [x Hx]]; [simpl in *; lia|].
        cbn [trimRightRev] in Hl, Hx.
           split; [exact Hl|]. exists (a :: b :: x). cbn [app].
           now rewrite <- Hx.
        -- destruct (isSpace3 c b a) eqn:H3.
           ++ destruct (IH r) as [Hl [x Hx]]; [simpl in *; lia|].
        cbn [trimRightRev] in Hl, Hx.
              split; [exact Hl|]. exists (a :: b :: c :: x). cbn [app].
              now rewrite <- Hx.
           ++ split; [cbn [leadsRev]; now rewrite H1, H2, H3
                     |exists []; reflexivity].
Qed.

(** A list beginning with a space rune still does when extended. *)
Lemma leads_app (u y : list nat) : leads u = true -> leads (u ++ y) = true.
Proof.
  destruct u as [|a [|b [|c r]]]; cbn [leads app]; intros H;
    try discriminate H.
  - rewrite orb_false_r in H. now rewrite H.
  - apply orb_true_iff in H. destruct H as [H|H]; [now rewrite H|].
    rewrite orb_false_r in H. rewrite H. cbn [orb]. apply orb_true_r.
  - exact H.
Qed.

Lemma trimmed_bytes (t : list nat) :
  let u := rev (trimRightRev (rev (trimLeft t))) in
  trimLeft u = u /\ trimRightRev (rev u) = rev u
  /\ (forall x, In x u -> In x t).
Proof.
  intros u. subst u.
  destruct (trimLeft_spec _ t (le_n _)) as [Hl [x Hx]].
  destruct (trimRightRev_spec _ (rev (trimLeft t)) (le_n _)) as [Hr [y Hy]].
  split; [|split].
  - apply trimLeft_stable.
    destruct (leads (rev (trimRightRev (rev (trimLeft t))))) eqn:Hlead;
      [|reflexivity].
    apply (leads_app _ (rev y)) in Hlead.
    rewrite <- rev_app_distr, <- Hy, rev_involutive in Hlead. congruence.
  - rewrite rev_involutive. now apply trimRightRev_stable.
  - intros a Ha. apply in_rev in Ha.
    assert (Hin : In a (rev (trimLeft t))).
    { rewrite Hy. apply in_or_app. now right. }
    apply in_rev in Hin. rewrite Hx. apply in_or_app. now right.
Qed.

Lemma bytes_ofBytes (l : list nat) :
  Forall (fun n => n < 256) l -> bytes (ofBytes l) = l.
Proof.
  unfold bytes, ofBytes. rewrite list_ascii_of_string_of_list_ascii.
  induction 1 as [|n l Hn _ IH]; [reflexivity|].
  cbn [map]. rewrite IH. f_equal. now apply nat_ascii_embedding.
Qed.

Lemma bytes_bounded (s : string) : Forall (fun n => n < 256) (bytes s).
Proof.
  unfold bytes. apply Forall_forall. intros n Hn.
  apply list_elem_of_In in Hn.
  apply in_map_iff in Hn. destruct Hn as (a & <- & _).
  apply nat_ascii_bounded.
Qed.

End Trim.

Lemma TrimSpace_idempotent (s : string) :
  TrimSpace (TrimSpace s) = TrimSpace s.
Proof.
  unfold TrimSpace.
  destruct (trimmed_bytes (Unicode.bytes s)) as (Hl & Hr & Hin).
  rewrite bytes_ofBytes.
  - rewrite Hl, Hr. now rewrite rev_involutive.
  - apply Forall_forall. intros n Hn. apply list_elem_of_In, Hin in Hn.
    pose proof (bytes_bounded s) as Hb. rewrite Forall_forall in Hb.
    apply Hb. now apply list_elem_of_In.
Qed.

(** Items that are trimmed, non-empty and free of the separator are what
    parsing their joined form gives back. *)
Lemma parseItems_trimmed (items : list string) :
  Forall (fun item => item <> "" /\ TrimSpace item = item) items ->
  parseItems items [] = items.
Proof.
  induction 1 as [|x r (Hx & Htrim) _ IH]; [reflexivity|].
  simpl. rewrite Htrim. apply isEmpty_false in Hx. rewrite Hx. simpl.
  rewrite parseItems_acc, IH. reflexivity.
Qed.

Lemma parseItems_normal (sep : ascii) (pieces : list string) :
  Forall (freeOf sep) pieces ->
  Forall (fun item => item <> "" /\ freeOf sep item /\ TrimSpace item = item)
         (parseItems pieces []).
Proof.
  induction 1 as [|p r Hp _ IH]; [constructor|].
  simpl. destruct (Str.isEmpty (TrimSpace p)) eqn:Hemp; simpl; [exact IH|].
  rewrite parseItems_acc. constructor; [|exact IH].
  split; [now apply isEmpty_false|].
  split; [now apply TrimSpace_free|apply TrimSpace_idempotent].
Qed.

(** X20. Parsing is a normal form: the items of a parsed list, joined by
    the separator and parsed again, are the same list, whatever the input
    was. *)
Theorem parseList_normalises (value : string) (sep : ascii) :
  parseList (Str.Join (parseList value sep) (String sep "")) sep
  = parseList value sep.
Proof.
  assert (Hnormal : Forall (fun item => item <> "" /\ freeOf sep item
                                        /\ TrimSpace item = item)
                           (parseList value sep)).
  { unfold parseList. destruct (Str.isEmpty value); [constructor|].
    apply parseItems_normal, Split_pieces_free. }
  revert Hnormal. generalize (parseList value sep) as items.
  intros items Hall. destruct items as [|x r]; [reflexivity|].
  unfold parseList.
  assert (Hnonempty : Str.isEmpty (Str.Join (x :: r) (String sep "")) = false).
  { inversion Hall as [|? ? (Hx & _) _]; subst.
    destruct x as [|c x']; [congruence|]. destruct r; reflexivity. }
  rewrite Hnonempty, Split_Join.
  - apply parseItems_trimmed. eapply Forall_impl; [exact Hall|].
    intros a (Ha & _ & Ht). now split.
  - discriminate.
  - eapply Forall_impl; [exact Hall|]. intros a (_ & Hf & _). exact Hf.
Qed.

(** ** The registry password over a whole run *)

Lemma redact_app (a b : list DriverEvent) :
  redact (a ++ b) = redact a ++ redact b.
Proof. apply map_app. Qed.

Lemma redact_lifted (t : list Event) :
  redact (map DvRun t) = map DvRun (map redactEvent t).
Proof. unfold redact. now rewrite !map_map. Qed.

Section Password.

Variables w1 w2 : World.
Hypothesis Hhost : sameHostButPassword w1 w2.
Hypothesis Hanswers : sameAnswers w1 w2.
Hypothesis Hempty :
  Str.isEmpty (Getenv w1 "REGISTRY_PASSWORD")
  = Str.isEmpty (Getenv w2 "REGISTRY_PASSWORD").

Lemma Getenv_other (k : string) :
  k <> "REGISTRY_PASSWORD" -> Getenv w1 k = Getenv w2 k.
Proof. apply Hhost. Qed.

Lemma Stat_same (p : string) : Stat w1 p = Stat w2 p.
Proof. apply Hhost. Qed.

Lemma cmdRun_same (name : string) (args : list string) :
  cmdRun w1 name args = cmdRun w2 name args.
Proof. apply Hanswers. Qed.

Lemma osStat_same (p : string) : osStat w1 p = osStat w2 p.
Proof. unfold osStat. now rewrite Stat_same. Qed.

Lemma ConfigFields_same : ConfigFields w1 = ConfigFields w2.
Proof.
  destruct Hhost as (Henv & Hwd & Hhome & _ & Hread & _ & Hcur & _).
  unfold ConfigFields, currentDirName, currentKubeContext,
    defaultKubeConfigPath.
  rewrite Hwd, Hhome, (Henv "REGISTRY_HOST") by discriminate.
  rewrite Hread.
  destruct (ReadFile w2 _) as [content|e]; [|reflexivity].
  now rewrite Hcur.
Qed.

Lemma LoadConfig_same (cmd : option Command) (v : viper.State) :
  LoadConfig w1 cmd v = LoadConfig w2 cmd v.
Proof. unfold LoadConfig. now rewrite ConfigFields_same. Qed.

Lemma validateEnvVars_same :
  Validator.validateEnvVars w1 = Validator.validateEnvVars w2.
Proof.
  unfold Validator.validateEnvVars. cbn [Validator.checkEnvVars].
  rewrite (Getenv_other "REGISTRY_USERNAME") by discriminate.
  now rewrite Hempty.
Qed.

Lemma validateEnvValueFilesLoop_same (envs : list string) :
  Validator.validateEnvValueFilesLoop w1 envs
  = Validator.validateEnvValueFilesLoop w2 envs.
Proof.
  induction envs as [|env rest IH]; [reflexivity|].
  cbn [Validator.validateEnvValueFilesLoop]. now rewrite IH, osStat_same.
Qed.

Lemma validateKubeContext_same (c : Config) :
  Validator.validateKubeContext w1 c = Validator.validateKubeContext w2 c.
Proof.
  destruct Hhost as (_ & _ & _ & _ & Hread & _ & _ & Hnames).
  unfold Validator.validateKubeContext. rewrite Hread.
  destruct (ReadFile w2 _) as [content|e]; [|reflexivity].
  now rewrite Hnames.
Qed.

Lemma validateTools_same :
  Validator.validateTools w1 = Validator.validateTools w2.
Proof.
  destruct Hhost as (_ & _ & _ & _ & _ & Hlook & _).
  unfold Validator.validateTools. cbn [Validator.lookTools].
  now rewrite !Hlook, cmdRun_same.
Qed.

Lemma ValidateAll_same (c : Config) :
  Validator.ValidateAll w1 c = Validator.ValidateAll w2 c.
Proof.
  unfold Validator.ValidateAll, Validator.checks,
    Validator.validateConfig, Validator.validateEnvValueFiles.
  now rewrite ConfigFields_same, validateEnvVars_same,
    validateEnvValueFilesLoop_same, validateKubeContext_same,
    validateTools_same.
Qed.

Lemma ShouldRunDockerBuild_same (c : Config) :
  ShouldRunDockerBuild w1 c = ShouldRunDockerBuild w2 c.
Proof. unfold ShouldRunDockerBuild. now rewrite osStat_same. Qed.

Lemma build_same (c : Config) (tag : string) :
  DockerRunner.build w1 c tag = DockerRunner.build w2 c tag.
Proof. unfold DockerRunner.build. now rewrite cmdRun_same. Qed.

Lemma push_same (c : Config) (tag : string) :
  DockerRunner.push w1 c tag = DockerRunner.push w2 c tag.
Proof. unfold DockerRunner.push. now rewrite cmdRun_same. Qed.

(** The authenticate step differs in the bytes it writes only. *)
Lemma login_same (c : Config) :
  map redactEvent (trace (DockerRunner.login w1 c))
  = map redactEvent (trace (DockerRunner.login w2 c))
  /\ value (DockerRunner.login w1 c) = value (DockerRunner.login w2 c).
Proof.
  destruct Hanswers as (_ & Hpipe & Hstart & Hwrite & Hwait).
  unfold DockerRunner.login.
  rewrite (Getenv_other "REGISTRY_USERNAME") by discriminate.
  rewrite Hempty.
  destruct (Str.isEmpty (Getenv w2 "REGISTRY_USERNAME")
            || Str.isEmpty (Getenv w2 "REGISTRY_PASSWORD"));
    [split; reflexivity|].
  destruct (DryRun c); [split; reflexivity|].
  rewrite Hpipe.
  destruct (cmdStdinPipe w2 "docker" _); [split; reflexivity|].
  rewrite Hstart.
  destruct (cmdStart w2 "docker" _); [split; reflexivity|].
  fold newline. rewrite Hwrite.
  destruct (pipeWrite w2 "docker" _ _); [split; reflexivity|].
  rewrite Hwait.
  destruct (cmdWait w2 "docker" _ _); split; reflexivity.
Qed.

Lemma DockerRunner_same (c : Config) :
  map redactEvent (trace (DockerRunner.Run w1 c))
  = map redactEvent (trace (DockerRunner.Run w2 c))
  /\ value (DockerRunner.Run w1 c) = value (DockerRunner.Run w2 c).
Proof.
  destruct (login_same c) as [Ht Hv].
  unfold DockerRunner.Run. rewrite ShouldRunDockerBuild_same.
  destruct (ShouldRunDockerBuild w2 c) as [t0 should].
  destruct (ImageTag c) as [tag|e];
    [|destruct should; split; reflexivity].
  rewrite build_same, push_same.
  revert Ht Hv.
  generalize (DockerRunner.login w1 c), (DockerRunner.login w2 c),
    (DockerRunner.build w2 c tag), (DockerRunner.push w2 c tag).
  intros [tl' vl'] [tl vl] [tb eb] [tp ep].
  unfold trace, value, bind, ret. cbn [fst snd negb].
  intros Ht ->.
  destruct should; cbn [negb fst snd]; [|split; reflexivity].
  destruct eb; [split; reflexivity|].
  destruct vl; cbn [fst snd]; rewrite ?app_nil_r, !map_app, ?Ht;
    [split; reflexivity|].
  destruct ep; cbn [fst snd]; rewrite ?app_nil_r, ?map_app, ?Ht;
    split; reflexivity.
Qed.

Lemma collectEnvFiles_same (envs : list string) : forall files,
  HelmRunner.collectEnvFiles w1 envs files
  = HelmRunner.collectEnvFiles w2 envs files.
Proof.
  induction envs as [|env rest IH]; intros files; [reflexivity|].
  cbn [HelmRunner.collectEnvFiles]. now rewrite IH, osStat_same.
Qed.

Lemma execute_same (c : Config) (args : list string) :
  HelmRunner.execute w1 c args = HelmRunner.execute w2 c args.
Proof. unfold HelmRunner.execute. now rewrite cmdRun_same. Qed.

Lemma HelmRunner_same (c : Config) :
  HelmRunner.Run w1 c = HelmRunner.Run w2 c.
Proof.
  rewrite !Run_deployArgs.
  assert (Hargs : deployArgs w1 c = deployArgs w2 c).
  { unfold deployArgs, HelmRunner.validateChartExists,
      HelmRunner.collectValuesFiles, HelmRunner.buildImageArgs.
    rewrite !osStat_same, ShouldRunDockerBuild_same.
    now rewrite !collectEnvFiles_same. }
  rewrite Hargs.
  destruct (value (deployArgs w2 c)) as [args|e]; [|reflexivity].
  now rewrite execute_same.
Qed.

End Password.

Lemma validateAndRun_same (w1 w2 : World) (c : Config) :
  sameHostButPassword w1 w2 ->
  sameAnswers w1 w2 ->
  Str.isEmpty (Getenv w1 "REGISTRY_PASSWORD")
  = Str.isEmpty (Getenv w2 "REGISTRY_PASSWORD") ->
  redact (fst (validateAndRun w1 c)) = redact (fst (validateAndRun w2 c))
  /\ snd (validateAndRun w1 c) = snd (validateAndRun w2 c).
Proof.
  intros Hhost Hanswers Hempty.
  destruct (DockerRunner_same w1 w2 Hhost Hanswers Hempty c) as [Ht Hv].
  unfold validateAndRun.
  rewrite (ValidateAll_same w1 w2 Hhost Hanswers Hempty c),
    (HelmRunner_same w1 w2 Hhost Hanswers c).
  revert Ht Hv.
  generalize (DockerRunner.Run w1 c), (DockerRunner.Run w2 c),
    (HelmRunner.Run w2 c), (Validator.ValidateAll w2 c).
  intros [td' vd'] [td vd] [th eh] [tv [results err]].
  unfold trace, value. cbn [fst snd]. intros Ht ->.
  generalize (logSection 2%Z "VALIDATION" "✓"),
    (logSection 3%Z "DOCKER WORKFLOW" "🐳"),
    (logSection 4%Z "HELM WORKFLOW" "⎈"),
    (logSection 0%Z "DEPLOYMENT COMPLETE" "🎉").
  intros [t2 []] [t3 []] [t4 []] [t0 []].
  unfold dbind, lift, dret. cbn [fst snd].
  generalize (reportResults results err). intros [tr reported].
  cbn [fst snd].
  destruct reported; [split; reflexivity|].
  destruct err; [split; reflexivity|].
  cbn [fst snd].
  destruct vd; cbn [fst snd];
    rewrite ?app_nil_r, !redact_app, !redact_lifted, ?Ht; split; reflexivity.
Qed.

(** X21. The program hands the registry password on in one place only, the
    line it writes to the login process: nothing it prints, logs or stats
    and no argument vector depends on the value.  On two hosts that differ
    in the password only (both set or both unset), and whose processes
    answer the same, the runs are the same up to the bytes written to a
    process and return the same.  The processes inherit the environment,
    the password included: that they answer the same is assumed, not
    shown. *)
Theorem runs_differ_in_stdin_data_only (w1 w2 : World) (v : viper.State)
    (cmd : option Command) (readLine : option string) :
  sameHostButPassword w1 w2 ->
  sameAnswers w1 w2 ->
  (Getenv w1 "REGISTRY_PASSWORD" = "" <-> Getenv w2 "REGISTRY_PASSWORD" = "") ->
  redact (fst (runDeploy w1 v cmd readLine))
  = redact (fst (runDeploy w2 v cmd readLine))
  /\ snd (runDeploy w1 v cmd readLine) = snd (runDeploy w2 v cmd readLine).
Proof.
  intros Hhost Hanswers Hiff.
  assert (Hempty : Str.isEmpty (Getenv w1 "REGISTRY_PASSWORD")
                   = Str.isEmpty (Getenv w2 "REGISTRY_PASSWORD")).
  { destruct (Str.isEmpty (Getenv w1 "REGISTRY_PASSWORD")) eqn:H1,
      (Str.isEmpty (Getenv w2 "REGISTRY_PASSWORD")) eqn:H2; try reflexivity.
    - apply isEmpty_true in H1. apply Hiff in H1. apply isEmpty_true in H1.
      congruence.
    - apply isEmpty_true in H2. apply Hiff in H2. apply isEmpty_true in H2.
      congruence. }
  destruct (LoadConfig w2 cmd v) as [cfg|e] eqn:Hload;
    [|rewrite LoadConfig_eq in Hload; discriminate Hload].
  rewrite (runDeploy_eq w1 v cmd readLine cfg)
    by (rewrite (LoadConfig_same w1 w2 Hhost); exact Hload).
  rewrite (runDeploy_eq w2 v cmd readLine cfg Hload).
  destruct (validateAndRun_same w1 w2 cfg Hhost Hanswers Hempty) as [Ht Hv].
  revert Ht Hv.
  generalize (validateAndRun w1 cfg), (validateAndRun w2 cfg).
  generalize (map DvRun (trace (logSection 1%Z "CONFIGURATION" "⚙️")
                         ++ trace (LogSummary cfg))).
  intros pre [t' e'] [t e]. cbn [fst snd]. intros Ht ->.
  rewrite !redact_app.
  destruct (negb (AutoApprove cfg) && negb (DryRun cfg)), readLine;
    [split; reflexivity| |rewrite Ht; split; reflexivity
    |rewrite Ht; split; reflexivity].
  split; [|reflexivity]. f_equal.
  change (redact (DvPrint confirmPrompt :: DvReadLine :: t')
          = redact (DvPrint confirmPrompt :: DvReadLine :: t)).
  unfold redact in *. cbn [map]. now rewrite Ht.
Qed.

(** A full run on the sample host, and the same run with another password:
    the password line is what is written, and nothing else differs. *)
Lemma runs_differ_in_stdin_data_only_witness :
  redact (fst (runDeploy Sample.host
     (viper.ofList [("helm.flavour", "stateless"); ("env", "staging");
                    ("docker.namespace", "acme"); ("auto-approve", "yes")])
     None None))
  = redact (fst (runDeploy (withPassword "hunter2" Sample.host)
     (viper.ofList [("helm.flavour", "stateless"); ("env", "staging");
                    ("docker.namespace", "acme"); ("auto-approve", "yes")])
     None None))
  /\ piped (inner (fst (runDeploy (withPassword "hunter2" Sample.host)
       (viper.ofList [("helm.flavour", "stateless"); ("env", "staging");
                      ("docker.namespace", "acme"); ("auto-approve", "yes")])
       None None)))
     = ["hunter2" +:+ newline].
Proof.
  split.
  - apply (runs_differ_in_stdin_data_only Sample.host
             (withPassword "hunter2" Sample.host)).
    + unfold sameHostButPassword. cbn [withPassword Getenv Getwd UserHomeDir
        Stat ReadFile LookPath yamlCurrentContext yamlContextNames].
      split; [|repeat split].
      intros k Hk.
      destruct (String.eqb_spec k "REGISTRY_PASSWORD"); [contradiction|].
      reflexivity.
    + unfold sameAnswers. repeat split.
    + split; intros H; vm_compute in H; discriminate H.
  - assert (Hload : LoadConfig (withPassword "hunter2" Sample.host) None
       (viper.ofList [("helm.flavour", "stateless"); ("env", "staging");
                      ("docker.namespace", "acme"); ("auto-approve", "yes")])
       = Ok (withRegistry "reg.example.com" "acme"
               {| ArtifactName := "svc"; HelmFlavour := "stateless";
                  DockerNamespace := ""; DockerHost := "";
                  KubernetesConfig := "/home/dev/.kube/config";
                  KubernetesContext := "dev"; Env := ["staging"];
                  DryRun := false; RunDockerBuild := true;
                  AutoApprove := true |}))
      by (vm_compute; reflexivity).
    destruct (gate_passed _ _ None None _ Hload (or_introl eq_refl))
      as (_ & -> & _).
    rewrite validateAndRun_passed by (vm_compute; reflexivity).
    cbn [fst].
    match goal with |- context [inner (map DvRun ?t)] =>
      destruct (lifted t) as (-> & _) end.
    vm_compute. reflexivity.
Defined.

(** ** The default artifact name *)

Lemma lastElem_free (l : list ascii) :
  ~ In filepath.sep (filepath.lastElem l).
Proof.
  induction l as [|c r IH]; simpl; [tauto|].
  destruct (Ascii.eqb_spec c filepath.sep) as [->|Hne]; simpl; [tauto|].
  intros [H|H]; [congruence|auto].
Qed.

Lemma Base_nonempty (path : string) : filepath.Base path <> "".
Proof.
  unfold filepath.Base. destruct (Str.isEmpty path); [discriminate|].
  cbv zeta.
  destruct (Str.isEmpty (string_of_list_ascii _)) eqn:Hname;
    [discriminate|].
  now apply isEmpty_false.
Qed.

Lemma Base_free (path : string) :
  filepath.Base path = "/" \/ freeOf "/"%char (filepath.Base path).
Proof.
  unfold filepath.Base. destruct (Str.isEmpty path).
  - right. unfold freeOf. simpl. intros [H|[]]. discriminate H.
  - cbv zeta. destruct (Str.isEmpty (string_of_list_ascii _)); [now left|].
    right. unfold freeOf.
    rewrite list_ascii_of_string_of_list_ascii. intros Hin.
    apply in_rev in Hin. exact (lastElem_free _ Hin).
Qed.

(** X22. When neither the command line nor the file names the artifact,
    its name is the last element of the working directory: never empty,
    and without a slash unless the directory is the root.  When the working
    directory is not known the name is empty. *)
Theorem artifact_name_default (w : World) (v : viper.State)
    (args : list (string * string)) (cmd : Command) :
  deployCmd w args = Some cmd ->
  assigned args "artifact-name" = None ->
  viper.IsSet v "artifactName" = false ->
  exists cfg,
    LoadConfig w (Some cmd) v = Ok cfg
    /\ match Getwd w with
       | Ok dir =>
           ArtifactName cfg = filepath.Base dir
           /\ ArtifactName cfg <> ""
           /\ (ArtifactName cfg = "/" \/ freeOf "/"%char (ArtifactName cfg))
       | Err _ => ArtifactName cfg = ""
       end.
Proof.
  intros Hcmd Hflag Hfile.
  eexists. split; [apply LoadConfig_eq|].
  cbn [ArtifactName].
  rewrite (resolveFieldValue_unmentioned w v args cmd);
    [|cbn; tauto|assumption|exact Hflag].
  cbn [nth ConfigFields ConfigPath Default]. rewrite Hfile.
  unfold currentDirName. destruct (Getwd w) as [dir|e]; [|reflexivity].
  split; [reflexivity|]. split; [apply Base_nonempty|apply Base_free].
Qed.

(** A bare [dockwright deploy] in /home/dev/svc. *)
Lemma artifact_name_default_witness :
  exists cmd cfg,
    deployCmd Sample.host [] = Some cmd
    /\ LoadConfig Sample.host (Some cmd) noFile = Ok cfg
    /\ ArtifactName cfg = "svc".
Proof.
  destruct (deployCmd Sample.host []) as [cmd|] eqn:Hcmd;
    [|vm_compute in Hcmd; discriminate].
  destruct (artifact_name_default Sample.host noFile [] cmd Hcmd eq_refl eq_refl)
    as (cfg & Hload & Hname).
  exists cmd, cfg. split; [reflexivity|]. split; [exact Hload|].
  cbn [Getwd Sample.host] in Hname. destruct Hname as (Hname & _).
  rewrite Hname. reflexivity.
Defined.

(** ** The cluster-context check *)

(** Every entry of the results is the entry of a check of the table, with
    the outcome of that check. *)
Lemma runChecks_results (cks : list Validator.check) :
  forall rs r,
    In r (fst (value (Validator.runChecks cks rs))) ->
    In r rs
    \/ exists ck, In ck cks
                  /\ r = Validator.resultOf ck (value (Validator.fn ck)).
Proof.
  induction cks as [|ck rest IH]; intros rs r Hin.
  - left. exact Hin.
  - cbn [Validator.runChecks] in Hin. unfold bind, value in Hin.
    cbn [fst snd] in Hin. unfold value.
    destruct (snd (Validator.fn ck)) as [e|] eqn:He.
    + cbn [ret fst snd] in Hin. apply in_app_or in Hin.
      destruct Hin as [Hin|[<-|[]]]; [now left|].
      right. exists ck. split; [now left|]. now rewrite He.
    + destruct (IH _ _ Hin) as [Hin'|(ck' & Hck & ->)].
      * apply in_app_or in Hin'. destruct Hin' as [Hin'|[<-|[]]]; [now left|].
        right. exists ck. split; [now left|]. now rewrite He.
      * right. exists ck'. split; [now right|reflexivity].
Qed.

(** X23. The cluster-context check is never vacuous in a validation: when
    the results hold its entry the context is set, since check 1 has
    passed, and the entry has no error exactly when the kubeconfig could
    be read and parsed and lists the context. *)
Theorem kube_context_never_optional (w : World) (c : Config)
    (r : ValidationResult.t) :
  In r (fst (value (Validator.ValidateAll w c))) ->
  ValidationResult.Name r = "Kubernetes context" ->
  KubernetesContext c <> ""
  /\ (ValidationResult.Err r = None <->
      exists content names,
        ReadFile w (KubernetesConfig c) = Ok content
        /\ yamlContextNames w content = Ok names
        /\ In (KubernetesContext c) names).
Proof.
  intros Hin Hname.
  assert (Hctx : KubernetesContext c <> "").
  { destruct (value (Validator.validateConfig w c)) as [e|] eqn:Hcfg.
    - exfalso. unfold Validator.ValidateAll, Validator.checks in Hin.
      destruct (runChecks_first_failure []
                  {| Validator.name := "Configuration";
                     Validator.icon := "✅";
                     Validator.fn := Validator.validateConfig w c |}
                  (tl (Validator.checks w c)) e [] (List.Forall_nil _) Hcfg)
        as [Hv _].
      cbn [app] in Hv. unfold Validator.checks in Hv. cbn [tl] in Hv.
      rewrite Hv in Hin. destruct Hin as [<-|[]]. discriminate Hname.
    - now apply validateConfig_passes in Hcfg. }
  split; [exact Hctx|].
  apply runChecks_results in Hin. destruct Hin as [[]|(ck & Hck & ->)].
  unfold Validator.checks in Hck. cbn [In] in Hck.
  destruct Hck as [<-|[<-|[<-|[<-|[<-|[<-|[]]]]]]];
    try discriminate Hname.
  cbn [Validator.resultOf ValidationResult.Err Validator.fn].
  rewrite validateKubeContext_passes. tauto.
Qed.

Lemma kube_context_never_optional_witness :
  KubernetesContext Sample.config <> "".
Proof.
  apply (kube_context_never_optional Sample.host Sample.config
           (Validator.resultOf
              {| Validator.name := "Kubernetes context";
                 Validator.icon := "☸️ ";
                 Validator.fn :=
                   Validator.validateKubeContext Sample.host Sample.config |}
              None)).
  - vm_compute. tauto.
  - reflexivity.
Defined.
